(** * WeMo integration: device resolution, classification, config-entry
    reconciliation and schema migration.

    A shallow embedding of [homeassistant/components/wemo/__init__.py] and
    [homeassistant/components/wemo/config_flow.py].  Python dictionaries are
    finite maps, the process-wide [hass] object is an explicit state that is
    threaded through every coroutine, and a raised exception is the [Raise]
    branch of a result. *)

From Stdlib Require Import ZArith String Ascii List Lia.
From stdpp Require Import base option list gmap strings pretty.

Local Open Scope Z_scope.

(** ** Python values and exceptions *)

(** The values that occur in [ConfigEntry.data] and in flow inputs. *)
Inductive value :=
| VNone
| VInt (z : Z)
| VStr (s : string).

Global Instance value_eq_dec : EqDecision value.
Proof. solve_decision. Defined.

(** Python truthiness, as used by [if port] and [if not host]. *)
Definition truthy_str (s : string) : bool :=
  match s with EmptyString => false | String _ _ => true end.

Definition truthy (v : value) : bool :=
  match v with
  | VNone => false
  | VInt z => negb (z =? 0)
  | VStr s => truthy_str s
  end.

(** [f"{v}"]. *)
Definition format_value (v : value) : string :=
  match v with
  | VNone => "None"
  | VInt z => pretty z
  | VStr s => s
  end.

(** Exceptions of the libraries below the integration.
    [RequestsConnectionError] and [RequestsTimeout] stand for any instance of
    [requests.exceptions.ConnectionError] and of
    [requests.exceptions.Timeout]. *)
Inductive lib_exn :=
| RequestsConnectionError (msg : string)
| RequestsTimeout (msg : string)
| OtherException (cls msg : string).

Global Instance lib_exn_eq_dec : EqDecision lib_exn.
Proof. solve_decision. Defined.

(** Exceptions as the integration sees them.  [ConnectError] carries its
    [__cause__]; [CannotDeterminePortError] is the subclass of
    [ConnectError]. *)
Inductive exn :=
| Invalid (msg : string)
| KeyError (key : string)
| LibError (err : lib_exn)
| ConnectError (msg : string) (cause : lib_exn)
| CannotDeterminePortError (msg : string)
| AbortFlow (reason : string).

Global Instance exn_eq_dec : EqDecision exn.
Proof. solve_decision. Defined.

(** [str(err)]. *)
Definition lib_exn_str (e : lib_exn) : string :=
  match e with
  | RequestsConnectionError m | RequestsTimeout m | OtherException _ m => m
  end.

(** [isinstance(e, ConnectError)]. *)
Definition is_ConnectError (e : exn) : bool :=
  match e with
  | ConnectError _ _ | CannotDeterminePortError _ => true
  | _ => false
  end.

(** [isinstance(e, CannotDeterminePortError)]. *)
Definition is_CannotDeterminePortError (e : exn) : bool :=
  match e with
  | CannotDeterminePortError _ => true
  | _ => false
  end.

(** [e.__cause__]. *)
Definition exn_cause (e : exn) : option lib_exn :=
  match e with
  | ConnectError _ c => Some c
  | _ => None
  end.

(** A call returns or raises. *)
Inductive outcome (E A : Type) :=
| Ok (a : A)
| Raise (e : E).
Arguments Ok {E A} a.
Arguments Raise {E A} e.

Abbreviation result := (outcome exn).

(** ** Constants *)

Definition DOMAIN : string := "wemo".
Definition CONF_DOMAIN : string := "domain".
Definition CONF_HOST : string := "host".
Definition CONF_PORT : string := "port".
Definition CONF_STATIC : string := "static".

(** Modelled from the spec: the four platform domain constants
    ([homeassistant.components.*.DOMAIN] are imported, their modules are not
    part of the sources); the spec names the categories binary_sensor, fan,
    light and switch. *)
Definition BINARY_SENSOR_DOMAIN : string := "binary_sensor".
Definition FAN_DOMAIN : string := "fan".
Definition LIGHT_DOMAIN : string := "light".
Definition SWITCH_DOMAIN : string := "switch".

Definition CONFIG_ENTRY_VERSION : Z := 2.
Definition ERROR_CANNOT_CONNECT : string := "cannot_connect".
Definition ERROR_CANNOT_DETERMINE_PORT : string := "cannot_determine_port".
Definition REASON_NO_DEVICES_FOUND : string := "no_devices_found".
Definition STEP_ID_CONFIRM : string := "confirm".
Definition STEP_ID_USER : string := "user".

(** ** Category classifier *)

Definition WEMO_MODEL_DISPATCH_items : list (string * string) :=
  [ ("Bridge", LIGHT_DOMAIN);
    ("CoffeeMaker", SWITCH_DOMAIN);
    ("Dimmer", LIGHT_DOMAIN);
    ("Humidifier", FAN_DOMAIN);
    ("Insight", SWITCH_DOMAIN);
    ("LightSwitch", SWITCH_DOMAIN);
    ("Maker", SWITCH_DOMAIN);
    ("Motion", BINARY_SENSOR_DOMAIN);
    ("Sensor", BINARY_SENSOR_DOMAIN);
    ("Socket", SWITCH_DOMAIN) ].

(** Mapping from Wemo model_name to domain. *)
Definition WEMO_MODEL_DISPATCH : gmap string string :=
  list_to_map WEMO_MODEL_DISPATCH_items.

(** [WEMO_MODEL_DISPATCH.get(model_name, SWITCH_DOMAIN)]. *)
Definition classify (model_name : string) : string :=
  default SWITCH_DOMAIN (WEMO_MODEL_DISPATCH !! model_name).

(** ** Static configuration parsing *)

Module Str.

(** [s.find(sep)] for a one-character separator: the text before the first
    occurrence and the text after it. *)
Fixpoint split_first (sep : ascii) (s : string) : option (string * string) :=
  match s with
  | EmptyString => None
  | String c r =>
      if Ascii.eqb c sep then Some (EmptyString, r)
      else match split_first sep r with
           | Some (h, t) => Some (String c h, t)
           | None => None
           end
  end.

(** [s.partition(sep)]: [(before, sep, after)], or [(s, "", "")] when the
    separator does not occur. *)
Definition partition (sep : ascii) (s : string) : string * string * string :=
  match split_first sep s with
  | Some (h, t) => (h, String sep EmptyString, t)
  | None => (s, EmptyString, EmptyString)
  end.

(** [sep in s]. *)
Fixpoint contains (sep : ascii) (s : string) : bool :=
  match s with
  | EmptyString => false
  | String c r => Ascii.eqb c sep || contains sep r
  end.

(** The white space [int()] skips around the literal of an ASCII text: tab
    to carriage return, and the space. *)
Definition is_space (c : ascii) : bool :=
  let n := nat_of_ascii c in
  (((9 <=? n) && (n <=? 13)) || (n =? 32))%nat.

Fixpoint lstrip (s : string) : string :=
  match s with
  | EmptyString => EmptyString
  | String c r => if is_space c then lstrip r else s
  end.

Definition strip (s : string) : string :=
  String.rev (lstrip (String.rev (lstrip s))).

Definition is_digit (c : ascii) : bool :=
  let n := nat_of_ascii c in ((48 <=? n) && (n <=? 57))%nat.

Definition digit_val (c : ascii) : Z := Z.of_nat (nat_of_ascii c) - 48.

(** Decimal digits, single underscores allowed between digits. *)
Fixpoint parse_digits (acc : Z) (after_digit : bool) (s : string) : option Z :=
  match s with
  | EmptyString => if after_digit then Some acc else None
  | String c r =>
      if is_digit c then parse_digits (10 * acc + digit_val c) true r
      else if Ascii.eqb c "_" && after_digit then parse_digits acc false r
      else None
  end.

(** [int(s)] for an ASCII text [s]: surrounding white space, an optional sign
    and a decimal literal; [None] stands for [ValueError]. *)
Definition to_int (s : string) : option Z :=
  match strip s with
  | String "+" r => parse_digits 0 false r
  | String "-" r => Z.opp <$> parse_digits 0 false r
  | r => parse_digits 0 false r
  end.

End Str.

(** Modelled from the spec: [cv.port] of
    [homeassistant/helpers/config_validation.py], which is not part of the
    sources; the port is validated as a port number, that is coerced to an
    integer and required to lie in 1..65535. *)
Definition cv_port (s : string) : result Z :=
  match Str.to_int s with
  | None => Raise (Invalid ("expected int"))
  | Some p =>
      if p <? 1 then Raise (Invalid "value must be at least 1")
      else if 65535 <? p then Raise (Invalid "value must be at most 65535")
      else Ok p
  end.

(** Validate that provided value is either just host or host:port.
    Returns (host, 0) or (host, port) respectively. *)
Definition coerce_host_port (value : string) : result (string * Z) :=
  let '(host, _, port) := Str.partition ":" value in
  if negb (truthy_str host) then Raise (Invalid "host cannot be empty")
  else if truthy_str port then
    match cv_port port with
    | Ok port => Ok (host, port)
    | Raise e => Raise e
    end
  else Ok (host, 0).

(** The [CONF_STATIC] schema [[vol.All(cv.string, coerce_host_port)]]: every
    item is validated in order and the first invalid one fails the list. *)
Fixpoint static_schema (items : list string) : result (list (string * Z)) :=
  match items with
  | [] => Ok []
  | s :: rest =>
      match coerce_host_port s with
      | Raise e => Raise e
      | Ok hp =>
          match static_schema rest with
          | Raise e => Raise e
          | Ok hps => Ok (hp :: hps)
          end
      end
  end.

(** ** The host state *)

(** A [pywemo.WeMoDevice] handle, reduced to the attributes that are read. *)
Record WeMoDevice := {
  name : string;
  serialnumber : string;
  model_name : string
}.

Global Instance WeMoDevice_eq_dec : EqDecision WeMoDevice.
Proof. solve_decision. Defined.

(** A [ConfigEntry] of the wemo domain. *)
Record ConfigEntry := {
  entry_id : string;
  version : Z;
  title : string;
  data : gmap string value;
  source : string;
  unique_id : option string
}.

Global Instance ConfigEntry_eq_dec : EqDecision ConfigEntry.
Proof. solve_decision. Defined.

Definition with_data (e : ConfigEntry) (d : gmap string value) : ConfigEntry :=
  {| entry_id := entry_id e; version := version e; title := title e;
     data := d; source := source e; unique_id := unique_id e |}.

(** A device-registry entry: the ids of the config entries that reference
    the device, and its identifiers. *)
Record DeviceEntry := {
  config_entries : gset string;
  identifiers : gset (string * string)
}.

(** What [hass.async_create_task] was asked to run. *)
Inductive Task :=
| FlowInit (src : string) (flow_data : gmap string value)
| ForwardEntrySetup (entry : nat) (domain : string)
| RemoveEntry (config_entry_id : string).

Global Instance Task_eq_dec : EqDecision Task.
Proof. solve_decision. Defined.

(** The calls made into pywemo, in order. *)
Inductive NetCall :=
| CallSetupUrl (host port : value)
| CallDescription (url : string).

Global Instance NetCall_eq_dec : EqDecision NetCall.
Proof. solve_decision. Defined.

(** SSDP discovery information; [location_hostname] and [location_port] are
    the [hostname] and [port] of the parsed [ATTR_SSDP_LOCATION]. *)
Record DiscoveryInfo := {
  location_hostname : value;
  location_port : value;
  upnp_serial : string;
  upnp_friendly_name : string
}.

(** The part of [hass] the integration reads and writes.  A config entry
    object is referred to by its position in [entries]. *)
Record Hass := {
  entries : list ConfigEntry;
  pywemo_wemodevice_cache : gmap string WeMoDevice;
  discovery_info : gmap string DiscoveryInfo;
  devices : list DeviceEntry;
  tasks : list Task;
  net_log : list NetCall;
  entry_counter : nat
}.

Definition with_entries (h : Hass) (es : list ConfigEntry) : Hass :=
  {| entries := es; pywemo_wemodevice_cache := pywemo_wemodevice_cache h;
     discovery_info := discovery_info h; devices := devices h;
     tasks := tasks h; net_log := net_log h; entry_counter := entry_counter h |}.

Definition with_cache (h : Hass) (c : gmap string WeMoDevice) : Hass :=
  {| entries := entries h; pywemo_wemodevice_cache := c;
     discovery_info := discovery_info h; devices := devices h;
     tasks := tasks h; net_log := net_log h; entry_counter := entry_counter h |}.

Definition with_discovery_info (h : Hass) (d : gmap string DiscoveryInfo) : Hass :=
  {| entries := entries h; pywemo_wemodevice_cache := pywemo_wemodevice_cache h;
     discovery_info := d; devices := devices h;
     tasks := tasks h; net_log := net_log h; entry_counter := entry_counter h |}.

Definition with_tasks (h : Hass) (t : list Task) : Hass :=
  {| entries := entries h; pywemo_wemodevice_cache := pywemo_wemodevice_cache h;
     discovery_info := discovery_info h; devices := devices h;
     tasks := t; net_log := net_log h; entry_counter := entry_counter h |}.

Definition with_net_log (h : Hass) (l : list NetCall) : Hass :=
  {| entries := entries h; pywemo_wemodevice_cache := pywemo_wemodevice_cache h;
     discovery_info := discovery_info h; devices := devices h;
     tasks := tasks h; net_log := l; entry_counter := entry_counter h |}.

Definition with_entry_counter (h : Hass) (n : nat) : Hass :=
  {| entries := entries h; pywemo_wemodevice_cache := pywemo_wemodevice_cache h;
     discovery_info := discovery_info h; devices := devices h;
     tasks := tasks h; net_log := net_log h; entry_counter := n |}.

Definition empty_hass : Hass :=
  {| entries := []; pywemo_wemodevice_cache := ∅; discovery_info := ∅;
     devices := []; tasks := []; net_log := []; entry_counter := 0 |}.

(** ** State and exception monad *)

(** A coroutine over a state [S]: it returns or raises, and leaves a state
    behind in both cases. *)
Definition M (S A : Type) : Type := S → result A * S.

Definition ret {S A} (a : A) : M S A := λ s, (Ok a, s).

Definition raise {S A} (e : exn) : M S A := λ s, (Raise e, s).

Definition bind {S A B} (m : M S A) (k : A → M S B) : M S B :=
  λ s, match m s with
       | (Ok a, s') => k a s'
       | (Raise e, s') => (Raise e, s')
       end.

Definition get_state {S} : M S S := λ s, (Ok s, s).

Definition modify {S} (f : S → S) : M S unit := λ s, (Ok tt, f s).

(** [try: m  except: handler], the handler sees every exception and
    re-raises the ones it does not catch. *)
Definition try_except {S A} (m : M S A) (handler : exn → M S A) : M S A :=
  λ s, match m s with
       | (Ok a, s') => (Ok a, s')
       | (Raise e, s') => handler e s'
       end.

Global Instance M_ret {S} : MRet (M S) := λ A, ret.
Global Instance M_bind {S} : MBind (M S) := λ A B k m, bind m k.

(** [d[key]]. *)
Definition getitem {S} (d : gmap string value) (key : string) : M S value :=
  match d !! key with
  | Some v => ret v
  | None => raise (KeyError key)
  end.

(** The config entry object behind a reference. *)
Definition deref (entry : nat) : M Hass ConfigEntry :=
  λ h, match entries h !! entry with
       | Some e => (Ok e, h)
       | None => (Raise (LibError (OtherException "ReferenceError" "no such config entry")), h)
       end.

(** [hass.async_create_task]. *)
Definition async_create_task (t : Task) : M Hass unit :=
  modify (λ h, with_tasks h (tasks h ++ [t])).

(** ** Endpoint resolver *)

(** The two pywemo entry points the resolver calls:
    [pywemo.setup_url_for_address] and
    [pywemo.discovery.device_from_description]. *)
Class Pywemo := {
  setup_url_for_address : value → value → option string;
  device_from_description : string → outcome lib_exn WeMoDevice
}.

Section Integration.
Context `{!Pywemo}.

(** Handle a static config.  The second component lists the calls made. *)
Definition _get_wemo_device (host port : value) : result WeMoDevice * list NetCall :=
  match setup_url_for_address host port with
  | None =>
      (Raise (CannotDeterminePortError
                ("Unable to get description url for WeMo at: " +:+
                 (if truthy port
                  then format_value host +:+ ":" +:+ format_value port
                  else format_value host))),
       [CallSetupUrl host port])
  | Some url =>
      let calls := [CallSetupUrl host port; CallDescription url] in
      match device_from_description url with
      | Ok device => (Ok device, calls)
      | Raise err =>
          match err with
          | RequestsConnectionError _ | RequestsTimeout _ =>
              (Raise (ConnectError
                        ("Unable to access WeMo at " +:+ url +:+
                         " (" +:+ lib_exn_str err +:+ ")") err),
               calls)
          | _ => (Raise (LibError err), calls)
          end
      end
  end.

(** [hass.async_add_executor_job(_get_wemo_device, host, port)]. *)
Definition executor_get_wemo_device (host port : value) : M Hass WeMoDevice :=
  λ h, let '(r, calls) := _get_wemo_device host port in
       (r, with_net_log h (net_log h ++ calls)).

Definition cache_key (host port : value) : string :=
  format_value host +:+ ":" +:+ format_value port.

(** [(cache.pop if remove_cache else cache.get)(cache_key, None)]. *)
Definition cache_lookup (remove_cache : bool) (key : string) : M Hass (option WeMoDevice) :=
  λ h, let cache := pywemo_wemodevice_cache h in
       if remove_cache then (Ok (cache !! key), with_cache h (delete key cache))
       else (Ok (cache !! key), h).

(** Create a WeMoDevice instance or return one from the cache. *)
Definition async_get_wemo_device (config_data : gmap string value)
    (remove_cache : bool) : M Hass WeMoDevice :=
  host ← getitem config_data CONF_HOST;
  port ← getitem config_data CONF_PORT;
  let cache_key := cache_key host port in
  device ← cache_lookup remove_cache cache_key;
  match device with
  | Some device => mret device
  | None =>
      device ← executor_get_wemo_device host port;
      modify (λ h, with_cache h (<[cache_key := device]> (pywemo_wemodevice_cache h)));;
      mret device
  end.

(** ** Host configuration store *)

(** Modelled from the spec: the update operation of the host configuration
    store ([hass.config_entries.async_update_entry] is not part of the
    sources).  The record is changed in place and the answer tells whether
    anything changed. *)
Definition async_update_entry (entry : nat) (new_data : gmap string value) : M Hass bool :=
  e ← deref entry;
  if decide (data e = new_data) then mret false
  else
    modify (λ h, with_entries h (<[entry := with_data e new_data]> (entries h)));;
    mret true.

(** Modelled from the spec: the remove operation of the host configuration
    store ([hass.config_entries.async_remove] is not part of the sources). *)
Definition async_remove (config_entry_id : string) : M Hass unit :=
  modify (λ h, with_entries h
     (filter (λ e, entry_id e ≠ config_entry_id) (entries h))).

(** ** Entry setup *)

(** Set up a wemo config entry.  Raises when the device is not yet online. *)
Definition async_setup_entry (entry : nat) : M Hass bool :=
  e ← deref entry;
  device ← async_get_wemo_device (data e) false;
  let domain := classify (model_name device) in
  (if decide (data e !! CONF_DOMAIN = Some (VStr domain)) then mret tt
   else async_update_entry entry (<[CONF_DOMAIN := VStr domain]> (data e));; mret tt);;
  async_create_task (ForwardEntrySetup entry domain);;
  mret true.

(** ** Schema migrator *)

(** Modelled from the spec: the devices associated with a config record
    ([device_registry.async_entries_for_config_entry] is not part of the
    sources). *)
Definition async_entries_for_config_entry (devs : list DeviceEntry)
    (config_entry_id : string) : list DeviceEntry :=
  filter (λ device, config_entry_id ∈ config_entries device) devs.

(** Handle migration of a previous version config entry. *)
Definition async_migrate_entry (entry : nat) : M Hass bool :=
  e ← deref entry;
  if decide (version e = 1) then
    h ← get_state;
    let device_entries := async_entries_for_config_entry (devices h) (entry_id e) in
    (if forallb (λ device, bool_decide (1 < size (config_entries device))%nat)
          device_entries
     then async_create_task (RemoveEntry (entry_id e))
     else mret tt);;
    mret false
  else mret true.

End Integration.

(** ** Config flow *)

Definition SOURCE_IMPORT : string := "import".
Definition SOURCE_USER : string := "user".
Definition SOURCE_SSDP : string := "ssdp".
Definition SOURCE_UNIGNORE : string := "unignore".

(** The flow handler object: [self.unique_id] and the entries of
    [self.context] that the flow uses. *)
Record WemoFlowHandler := {
  flow_source : string;
  flow_unique_id : option string;
  context_user_input : option (gmap string value);
  context_title_placeholders : option string
}.

Definition with_unique_id (f : WemoFlowHandler) (uid : option string) : WemoFlowHandler :=
  {| flow_source := flow_source f; flow_unique_id := uid;
     context_user_input := context_user_input f;
     context_title_placeholders := context_title_placeholders f |}.

Definition with_context (f : WemoFlowHandler) (user_input : gmap string value)
    (placeholder : string) : WemoFlowHandler :=
  {| flow_source := flow_source f; flow_unique_id := flow_unique_id f;
     context_user_input := Some user_input;
     context_title_placeholders := Some placeholder |}.

Definition new_flow (src : string) : WemoFlowHandler :=
  {| flow_source := src; flow_unique_id := None;
     context_user_input := None; context_title_placeholders := None |}.

Record FlowState := {
  hass : Hass;
  flow : WemoFlowHandler
}.

Inductive FlowResult :=
| FormResult (step_id : string) (port_required : bool) (errors : gmap string string)
| CreateEntryResult (entry_title : string) (entry_data : gmap string value)
| AbortResult (reason : string).

(** A coroutine of [hass] run from within a flow. *)
Definition in_hass {A} (m : M Hass A) : M FlowState A :=
  λ s, let '(r, h) := m (hass s) in (r, {| hass := h; flow := flow s |}).

Definition modify_flow (f : WemoFlowHandler → WemoFlowHandler) : M FlowState unit :=
  modify (λ s, {| hass := hass s; flow := f (flow s) |}).

Definition get_flow : M FlowState WemoFlowHandler :=
  λ s, (Ok (flow s), s).

(** Modelled from the spec: [ConfigFlow.async_set_unique_id] of the host,
    which is not part of the sources; it records the identity the flow is
    about. *)
Definition async_set_unique_id (uid : string) : M FlowState unit :=
  modify_flow (λ f, with_unique_id f (Some uid)).

(** The position of the first record with the given identity. *)
Fixpoint find_unique_id (uid : string) (es : list ConfigEntry) : option nat :=
  match es with
  | [] => None
  | e :: rest =>
      if decide (unique_id e = Some uid) then Some 0%nat
      else S <$> find_unique_id uid rest
  end.

(** Modelled from the spec: [ConfigFlow._abort_if_unique_id_configured] of
    the host, which is not part of the sources.  When a record with the
    identity of the flow exists, its fields are updated in place from
    [updates] and the request is rejected as a duplicate. *)
Definition _abort_if_unique_id_configured (updates : gmap string value) : M FlowState unit :=
  f ← get_flow;
  match flow_unique_id f with
  | None => mret tt
  | Some uid =>
      s ← get_state;
      match find_unique_id uid (entries (hass s)) with
      | None => mret tt
      | Some entry =>
          e ← in_hass (deref entry);
          in_hass (async_update_entry entry (updates ∪ data e));;
          raise (AbortFlow "already_configured")
      end
  end.

(** Modelled from the spec: [device_registry.async_get_device] of the host,
    which is not part of the sources: is a device with the identifier
    [(DOMAIN, unique_id)] registered. *)
Definition async_get_device (uid : option string) (devs : list DeviceEntry) : bool :=
  match uid with
  | None => false
  | Some u => existsb (λ device, bool_decide ((DOMAIN, u) ∈ identifiers device)) devs
  end.

(** [not self.unique_id]. *)
Definition not_unique_id (f : WemoFlowHandler) : bool :=
  match flow_unique_id f with
  | None => true
  | Some u => negb (truthy_str u)
  end.

(** [if user_input:] for a dictionary. *)
Definition truthy_dict (d : gmap string value) : bool :=
  negb (bool_decide (d = ∅)).

Section ConfigFlow.
Context `{!Pywemo}.

Definition _async_set_unique_id_and_update (user_input : gmap string value)
    (uid : string) : M FlowState unit :=
  async_set_unique_id uid;;
  _abort_if_unique_id_configured user_input.

(** What the [try] block of [async_step_user] leaves behind: the device, or
    the form fields of the two handled errors. *)
Inductive UserStepTry :=
| Connected (device : WeMoDevice)
| Failed (port_required : bool) (error : string).

(** Handle a discovered device. *)
Definition async_step_user (user_input : option (gmap string value)) : M FlowState FlowResult :=
  let user_input := default ∅ user_input in
  let data := user_input ∪ {[CONF_PORT := VInt 0]} in
  if truthy_dict user_input then
    r ← try_except
          (device ← in_hass (async_get_wemo_device data false); mret (Connected device))
          (λ err,
             if is_CannotDeterminePortError err
             then mret (Failed true ERROR_CANNOT_DETERMINE_PORT)
             else if is_ConnectError err
             then mret (Failed false ERROR_CANNOT_CONNECT)
             else raise err);
    match r with
    | Connected device =>
        f ← get_flow;
        (if not_unique_id f
         then _async_set_unique_id_and_update user_input (serialnumber device)
         else mret tt);;
        mret (CreateEntryResult (name device) data)
    | Failed port_required error =>
        mret (FormResult STEP_ID_USER port_required {["base" := error]})
    end
  else mret (FormResult STEP_ID_USER false ∅).

(** Handle a flow initiated by configuration file. *)
Definition async_step_import (user_input : option (gmap string value)) : M FlowState FlowResult :=
  async_step_user user_input.

(** Handle user-confirmation of discovered node. *)
Definition async_step_confirm (user_input : option (gmap string value)) : M FlowState FlowResult :=
  f ← get_flow;
  match user_input with
  | Some _ => async_step_user (context_user_input f)
  | None =>
      s ← get_state;
      if async_get_device (flow_unique_id f) (devices (hass s))
      then async_step_user (context_user_input f)
      else mret (FormResult STEP_ID_CONFIRM false ∅)
  end.

(** Handle SSDP discovery. *)
Definition async_step_ssdp (info : DiscoveryInfo) : M FlowState FlowResult :=
  let uid := upnp_serial info in
  let user_input : gmap string value :=
    {[CONF_HOST := location_hostname info; CONF_PORT := location_port info]} in
  in_hass (modify (λ h, with_discovery_info h (<[uid := info]> (discovery_info h))));;
  modify_flow (λ f, with_context f user_input (upnp_friendly_name info));;
  _async_set_unique_id_and_update user_input uid;;
  async_step_confirm None.

(** Rediscover a config entry by its unique_id. *)
Definition async_step_unignore (uid : string) : M FlowState FlowResult :=
  s ← get_state;
  match discovery_info (hass s) !! uid with
  | Some info => async_step_ssdp info
  | None => mret (AbortResult REASON_NO_DEVICES_FOUND)
  end.

End ConfigFlow.

(** ** Flow manager and component setup *)

Section Host.
Context `{!Pywemo}.

(** Modelled from the spec: the create operation of the host configuration
    store, which is not part of the sources.  The new record carries the
    identity of the flow and the current schema version; the host then sets
    the record up, and a failing setup is not the flow's concern. *)
Definition async_add_entry (ttl : string) (d : gmap string value) : M FlowState unit :=
  f ← get_flow;
  in_hass (
    h ← get_state;
    let e := {| entry_id := pretty (entry_counter h);
                version := CONFIG_ENTRY_VERSION;
                title := ttl; data := d;
                source := flow_source f;
                unique_id := flow_unique_id f |} in
    modify (λ h, with_entry_counter (with_entries h (entries h ++ [e]))
                   (S (entry_counter h)));;
    try_except (async_setup_entry (length (entries h));; mret tt) (λ _, mret tt)).

(** Modelled from the spec: one step of a flow as the host's flow manager
    runs it, which is not part of the sources.  [AbortFlow] ends the flow
    with its reason, and a create result adds the record. *)
Definition flow_step (step : M FlowState FlowResult) : M FlowState FlowResult :=
  r ← try_except step
        (λ err, match err with
                | AbortFlow reason => mret (AbortResult reason)
                | _ => raise err
                end);
  match r with
  | CreateEntryResult t d => async_add_entry t d;; mret r
  | _ => mret r
  end.

(** The requests that start a flow: an imported static endpoint, an endpoint
    typed in by the operator, and an SSDP discovery that the operator
    confirms or leaves unanswered. *)
Inductive FlowRequest :=
| ImportRequest (d : gmap string value)
| UserRequest (d : gmap string value)
| SsdpRequest (info : DiscoveryInfo) (confirmed : bool).

Definition flow_source_of (req : FlowRequest) : string :=
  match req with
  | ImportRequest _ => SOURCE_IMPORT
  | UserRequest _ => SOURCE_USER
  | SsdpRequest _ _ => SOURCE_SSDP
  end.

Definition flow_steps (req : FlowRequest) : M FlowState FlowResult :=
  match req with
  | ImportRequest d => flow_step (async_step_import (Some d))
  | UserRequest d =>
      flow_step (async_step_user None);;
      flow_step (async_step_user (Some d))
  | SsdpRequest info confirmed =>
      r ← flow_step (async_step_ssdp info);
      match r with
      | FormResult step_id _ _ =>
          if confirmed && bool_decide (step_id = STEP_ID_CONFIRM)
          then flow_step (async_step_confirm (Some ∅))
          else mret r
      | _ => mret r
      end
  end.

(** The identity of the record a request is about: the serial number of the
    device its endpoint resolves to, or the serial number of the discovery. *)
Definition request_identity (req : FlowRequest) (h : Hass) : option string :=
  match req with
  | ImportRequest d | UserRequest d =>
      if truthy_dict d then
        match (async_get_wemo_device (d ∪ {[CONF_PORT := VInt 0]}) false h).1 with
        | Ok device => Some (serialnumber device)
        | Raise _ => None
        end
      else None
  | SsdpRequest info _ => Some (upnp_serial info)
  end.

(** The address fields a request carries: what its flow passes to
    [_async_set_unique_id_and_update]. *)
Definition request_updates (req : FlowRequest) : gmap string value :=
  match req with
  | ImportRequest d | UserRequest d => d
  | SsdpRequest info _ =>
      {[CONF_HOST := location_hostname info; CONF_PORT := location_port info]}
  end.


(** A whole flow, from its start to its result. *)
Definition reconcile (req : FlowRequest) : M Hass FlowResult :=
  λ h, let '(r, s) := flow_steps req {| hass := h; flow := new_flow (flow_source_of req) |} in
       (r, hass s).

Fixpoint reconcile_all (reqs : list FlowRequest) : M Hass unit :=
  match reqs with
  | [] => mret tt
  | req :: rest =>
      try_except (reconcile req;; mret tt) (λ _, mret tt);;
      reconcile_all rest
  end.

(** [for host, port in wemo_config.get(CONF_STATIC, [])]: one import flow
    per static endpoint. *)
Fixpoint async_setup_static (static : list (string * Z)) : M Hass unit :=
  match static with
  | [] => mret tt
  | (host, port) :: rest =>
      let data : gmap string value :=
        {[CONF_HOST := VStr host; CONF_PORT := VInt port]} in
      async_create_task (FlowInit SOURCE_IMPORT data);;
      async_setup_static rest
  end.

(** Set up for WeMo devices.  The subscription registry is started here as
    well; it is not modelled. *)
Definition async_setup (static : list (string * Z)) : M Hass bool :=
  async_setup_static static;;
  mret true.

Definition flow_requests (ts : list Task) : list FlowRequest :=
  omap (λ t, match t with
             | FlowInit _ d => Some (ImportRequest d)
             | _ => None
             end) ts.

Definition is_flow_init (t : Task) : bool :=
  match t with FlowInit _ _ => true | _ => false end.

(** Modelled from the spec: the host runs the flows that were scheduled, in
    the order of the static configuration. *)
Definition run_scheduled_flows : M Hass unit :=
  h ← get_state;
  modify (λ h, with_tasks h (filter (λ t, is_flow_init t = false) (tasks h)));;
  reconcile_all (flow_requests (tasks h)).

(** Modelled from the spec: component setup by the host.  The static
    configuration is validated first; an invalid entry fails the setup
    before [async_setup] runs. *)
Definition setup_component (static : list string) : M Hass bool :=
  match static_schema static with
  | Raise _ => mret false
  | Ok endpoints =>
      async_setup endpoints;;
      run_scheduled_flows;;
      mret true
  end.

End Host.

(** ** Migration outcome *)

Inductive MigrationOutcome :=
| retain
| superseded.

(** The outcome of [async_migrate_entry] in the words of the design: the
    record is superseded when its removal has been scheduled. *)
Definition migrate (entry : nat) (h : Hass) : option MigrationOutcome :=
  match entries h !! entry with
  | None => None
  | Some e =>
      let h' := (async_migrate_entry entry h).2 in
      if decide (tasks h' = tasks h ++ [RemoveEntry (entry_id e)])
      then Some superseded
      else Some retain
  end.

(** Every device associated with the record is associated with more than one
    config entry. *)
Definition all_devices_migrated (h : Hass) (e : ConfigEntry) : Prop :=
  ∀ device,
    device ∈ async_entries_for_config_entry (devices h) (entry_id e) →
    (1 < size (config_entries device))%nat.

(** The identity of the flow, when it is one that [async_step_user] does not
    replace, has no record yet. *)
Definition flow_checked (h : Hass) (f : WemoFlowHandler) : Prop :=
  ∀ u, flow_unique_id f = Some u → truthy_str u = true →
       u ∉ omap unique_id (entries h).

(** At most one record per identity. *)
Definition unique_ids_distinct (es : list ConfigEntry) : Prop :=
  NoDup (omap unique_id es).

(** ** Fixtures of the test suite *)

Definition MOCK_HOST : string := "127.0.0.1".
Definition MOCK_PORT : Z := 50000.
Definition MOCK_NAME : string := "WemoDeviceName".
Definition MOCK_SERIAL_NUMBER : string := "WemoSerialNumber".
Definition MOCK_URL : string := "http://127.0.0.1:50000/setup.xml".

Definition MOCK_FLOW_DATA : gmap string value :=
  {[CONF_HOST := VStr MOCK_HOST; CONF_PORT := VInt MOCK_PORT]}.

Definition pywemo_device (model : string) : WeMoDevice :=
  {| name := MOCK_NAME; serialnumber := MOCK_SERIAL_NUMBER; model_name := model |}.

(** The [pywemo_device] fixture: every address resolves to the mock device. *)
Definition pywemo_mock (model : string) : Pywemo :=
  {| setup_url_for_address := λ _ _, Some MOCK_URL;
     device_from_description := λ _, Ok (pywemo_device model) |}.

(** [patch("pywemo.setup_url_for_address", return_value=None)]. *)
Definition pywemo_no_url : Pywemo :=
  {| setup_url_for_address := λ _ _, None;
     device_from_description := λ _, Ok (pywemo_device "Insight") |}.

(** [patch("pywemo.discovery.device_from_description",
    side_effect=requests.exceptions.ConnectionError)]. *)
Definition pywemo_failed_connection : Pywemo :=
  {| setup_url_for_address := λ _ _, Some MOCK_URL;
     device_from_description := λ _, Raise (RequestsConnectionError "") |}.

(** [MOCK_DISCOVERY_INFO], with its location parsed. *)
Definition MOCK_DISCOVERY_INFO : DiscoveryInfo :=
  {| location_hostname := VStr MOCK_HOST; location_port := VInt MOCK_PORT;
     upnp_serial := MOCK_SERIAL_NUMBER; upnp_friendly_name := "Wemo Switch" |}.

(** The record of [test_static_config_update]. *)
Definition old_entry : ConfigEntry :=
  {| entry_id := "mock"; version := CONFIG_ENTRY_VERSION; title := MOCK_NAME;
     data := {[CONF_HOST := VStr "old_host"; CONF_PORT := VInt 111]};
     source := SOURCE_IMPORT; unique_id := Some MOCK_SERIAL_NUMBER |}.

(** The version-1 record of the migration tests. *)
Definition v1_entry : ConfigEntry :=
  {| entry_id := "v1"; version := 1; title := MOCK_NAME;
     data := ∅; source := SOURCE_IMPORT; unique_id := Some DOMAIN |}.

(** The device of [test_v1_migration_keeps_old_integration], referenced by
    the version-1 record only, and the device of
    [test_v1_migration_deletes_old_integration], referenced by both records. *)
Definition v1_only_device : DeviceEntry :=
  {| config_entries := {["v1"]};
     identifiers := {[("serial_number", MOCK_SERIAL_NUMBER)]} |}.

Definition migrated_device : DeviceEntry :=
  {| config_entries := {["v1"; "v2"]};
     identifiers := {[("serial_number", MOCK_SERIAL_NUMBER)]} |}.

Definition hass_with (es : list ConfigEntry) (devs : list DeviceEntry) : Hass :=
  {| entries := es; pywemo_wemodevice_cache := ∅; discovery_info := ∅;
     devices := devs; tasks := []; net_log := []; entry_counter := 0 |}.

(** The import flow [async_setup] schedules for a static endpoint. *)
Definition import_task (endpoint : string * Z) : Task :=
  FlowInit SOURCE_IMPORT
    {[CONF_HOST := VStr endpoint.1; CONF_PORT := VInt endpoint.2]}.

(** ** Unloading and the binary sensor platform *)

Section Platforms.
Context `{!Pywemo}.

(** The host's [hass.config_entries.async_forward_entry_unload]; its answer
    is the host's to give. *)
Variable async_forward_entry_unload : nat → value → M Hass bool.

(** Unload a config entry. *)
Definition async_unload_entry (entry : nat) : M Hass bool :=
  e ← deref entry;
  domain ← getitem (data e) CONF_DOMAIN;
  async_forward_entry_unload entry domain.

(** [binary_sensor.async_setup_entry]: set up WeMo binary sensors.  The
    answer is the list of devices of the entities handed to
    [async_add_entities]. *)
Definition binary_sensor_async_setup_entry (config_entry : nat) : M Hass (list WeMoDevice) :=
  e ← deref config_entry;
  device ← async_get_wemo_device (data e) true;
  mret [device].

End Platforms.

(** ** Humidifier *)

(** The members of pywemo's [FanMode] and [DesiredHumidity] that the
    platform names. *)
Inductive FanMode :=
| Off
| Minimum
| Low
| Medium
| High
| Maximum.

Global Instance FanMode_eq_dec : EqDecision FanMode.
Proof. solve_decision. Defined.

Inductive DesiredHumidity :=
| FortyFivePercent
| FiftyPercent
| FiftyFivePercent
| SixtyPercent
| OneHundredPercent.

Global Instance DesiredHumidity_eq_dec : EqDecision DesiredHumidity.
Proof. solve_decision. Defined.

(** The speed names of the fan component, which the platform imports. *)
Class FanSpeeds := {
  SPEED_OFF : string;
  SPEED_LOW : string;
  SPEED_MEDIUM : string;
  SPEED_HIGH : string
}.

(** A dictionary in insertion order, [d.get(key)] and [d.items()]. *)
Fixpoint dict_get {K V} `{EqDecision K} (d : list (K * V)) (key : K) : option V :=
  match d with
  | [] => None
  | (k, v) :: rest => if decide (k = key) then Some v else dict_get rest key
  end.

(** [d[key] = v]: an existing key keeps its place, a new one goes last. *)
Fixpoint dict_set {K V} `{EqDecision K} (d : list (K * V)) (key : K) (v : V)
    : list (K * V) :=
  match d with
  | [] => [(key, v)]
  | (k, v') :: rest =>
      if decide (k = key) then (k, v) :: rest else (k, v') :: dict_set rest key v
  end.

Section Fan.
Context `{!FanSpeeds}.

Definition SUPPORTED_SPEEDS : list string :=
  [SPEED_OFF; SPEED_LOW; SPEED_MEDIUM; SPEED_HIGH].

(** Since the base fan object supports a set list of fan speeds, some of
    them are reused when mapping to the 5 WeMo speeds. *)
Definition WEMO_FAN_SPEED_TO_HASS : list (FanMode * string) :=
  [ (Off, SPEED_OFF);
    (Minimum, SPEED_LOW);
    (Low, SPEED_LOW);
    (Medium, SPEED_MEDIUM);
    (High, SPEED_HIGH);
    (Maximum, SPEED_HIGH) ].

(** [{v: k for (k, v) in WEMO_FAN_SPEED_TO_HASS.items()
      if k not in [FanMode.Low, FanMode.High]}]. *)
Definition HASS_FAN_SPEED_TO_WEMO : list (string * FanMode) :=
  foldl (λ d '(k, v), dict_set d v k) []
    (filter (λ '(k, v), k ∉ [Low; High]) WEMO_FAN_SPEED_TO_HASS).

End Fan.

(** ** The humidifier entity *)

Definition ATTR_CURRENT_HUMIDITY : string := "current_humidity".
Definition ATTR_TARGET_HUMIDITY : string := "target_humidity".
Definition ATTR_FAN_MODE : string := "fan_mode".
Definition ATTR_FILTER_LIFE : string := "filter_life".
Definition ATTR_FILTER_EXPIRED : string := "filter_expired".
Definition ATTR_WATER_LEVEL : string := "water_level".

(** The two exception classes the entity handles, and the one Python raises
    for a local variable that was never assigned. *)
Definition ActionException (msg : string) : lib_exn :=
  OtherException "ActionException" msg.
Definition AttributeError (msg : string) : lib_exn :=
  OtherException "AttributeError" msg.
Definition UnboundLocalError (msg : string) : lib_exn :=
  OtherException "UnboundLocalError" msg.

Definition is_ActionException (e : exn) : bool :=
  match e with
  | LibError (OtherException cls _) => bool_decide (cls = "ActionException")
  | _ => false
  end.

Definition is_AttributeError (e : exn) : bool :=
  match e with
  | LibError (OtherException cls _) => bool_decide (cls = "AttributeError")
  | _ => false
  end.

(** The pywemo humidifier behind the entity, over a device state [D]: the
    methods the entity calls, which may change the device, and the
    attributes it reads; each may raise. *)
Class Humidifier (D : Type) := {
  wemo_get_state : bool → D → outcome lib_exn value * D;
  wemo_fan_mode_string : D → outcome lib_exn value;
  wemo_desired_humidity_percent : D → outcome lib_exn value;
  wemo_current_humidity_percent : D → outcome lib_exn value;
  wemo_water_level_string : D → outcome lib_exn value;
  wemo_filter_life_percent : D → outcome lib_exn value;
  wemo_filter_expired : D → outcome lib_exn value;
  wemo_fan_mode : D → outcome lib_exn FanMode;
  wemo_set_state : option FanMode → D → outcome lib_exn unit * D;
  wemo_set_humidity : DesiredHumidity → D → outcome lib_exn unit * D;
  wemo_reset_filter_life : D → outcome lib_exn unit * D;
  wemo_reconnect_with_device : D → outcome lib_exn unit * D
}.

(** The target humidity is a float; the entity only compares it with integer
    literals: [t < n], [n <= t] and [t >= n]. *)
Class TargetHumidity (T : Type) := {
  lt_int : T → Z → bool;
  int_le : Z → T → bool;
  ge_int : T → Z → bool
}.

(** The entity: the device, the fields of the base class that the platform
    reads and writes, the six state attributes by their names, the last fan
    mode seen on, and the number of state updates scheduled. *)
Record WemoHumidifier (D : Type) := {
  wemo : D;
  _state : value;
  _available : bool;
  device_state_attributes : gmap string value;
  _last_fan_on_mode : FanMode;
  scheduled_updates : nat
}.
Arguments wemo {D} _.
Arguments _state {D} _.
Arguments _available {D} _.
Arguments device_state_attributes {D} _.
Arguments _last_fan_on_mode {D} _.
Arguments scheduled_updates {D} _.

Section HumidifierEntity.
Context {D T : Type} `{!Humidifier D, !TargetHumidity T, !FanSpeeds}.

Definition with_wemo (e : WemoHumidifier D) (d : D) : WemoHumidifier D :=
  {| wemo := d; _state := _state e; _available := _available e;
     device_state_attributes := device_state_attributes e;
     _last_fan_on_mode := _last_fan_on_mode e;
     scheduled_updates := scheduled_updates e |}.

Definition with_state (e : WemoHumidifier D) (v : value) : WemoHumidifier D :=
  {| wemo := wemo e; _state := v; _available := _available e;
     device_state_attributes := device_state_attributes e;
     _last_fan_on_mode := _last_fan_on_mode e;
     scheduled_updates := scheduled_updates e |}.

Definition with_available (e : WemoHumidifier D) (b : bool) : WemoHumidifier D :=
  {| wemo := wemo e; _state := _state e; _available := b;
     device_state_attributes := device_state_attributes e;
     _last_fan_on_mode := _last_fan_on_mode e;
     scheduled_updates := scheduled_updates e |}.

Definition with_attributes (e : WemoHumidifier D) (a : gmap string value)
    : WemoHumidifier D :=
  {| wemo := wemo e; _state := _state e; _available := _available e;
     device_state_attributes := a;
     _last_fan_on_mode := _last_fan_on_mode e;
     scheduled_updates := scheduled_updates e |}.

Definition with_last_fan_on_mode (e : WemoHumidifier D) (m : FanMode)
    : WemoHumidifier D :=
  {| wemo := wemo e; _state := _state e; _available := _available e;
     device_state_attributes := device_state_attributes e;
     _last_fan_on_mode := m;
     scheduled_updates := scheduled_updates e |}.

Definition with_scheduled_updates (e : WemoHumidifier D) (n : nat)
    : WemoHumidifier D :=
  {| wemo := wemo e; _state := _state e; _available := _available e;
     device_state_attributes := device_state_attributes e;
     _last_fan_on_mode := _last_fan_on_mode e;
     scheduled_updates := n |}.

(** Initialize the entity; [state] and [available] are what the base class
    sets. *)
Definition WemoHumidifier_init (device : D) (state : value) (available : bool)
    : WemoHumidifier D :=
  {| wemo := device; _state := state; _available := available;
     device_state_attributes :=
       {[ATTR_CURRENT_HUMIDITY := VNone; ATTR_TARGET_HUMIDITY := VNone;
         ATTR_FAN_MODE := VNone; ATTR_WATER_LEVEL := VNone;
         ATTR_FILTER_LIFE := VNone; ATTR_FILTER_EXPIRED := VNone]};
     _last_fan_on_mode := Medium;
     scheduled_updates := 0 |}.

(** A method call on [self.wemo]. *)
Definition wemo_call {A} (f : D → outcome lib_exn A * D) : M (WemoHumidifier D) A :=
  λ e, match f (wemo e) with
       | (Ok a, d) => (Ok a, with_wemo e d)
       | (Raise err, d) => (Raise (LibError err), with_wemo e d)
       end.

(** An attribute read on [self.wemo]. *)
Definition wemo_read {A} (f : D → outcome lib_exn A) : M (WemoHumidifier D) A :=
  λ e, match f (wemo e) with
       | Ok a => (Ok a, e)
       | Raise err => (Raise (LibError err), e)
       end.

Definition set_attribute (key : string) (v : value) : M (WemoHumidifier D) unit :=
  modify (λ e, with_attributes e (<[key := v]> (device_state_attributes e))).

Definition schedule_update_ha_state : M (WemoHumidifier D) unit :=
  modify (λ e, with_scheduled_updates e (S (scheduled_updates e))).

(** The [try] block of [_update]: the state and the attributes are read from
    the device one after the other. *)
Definition poll_device (force_update : bool) : M (WemoHumidifier D) unit :=
  st ← wemo_call (wemo_get_state force_update);
  modify (λ e, with_state e st);;
  v ← wemo_read wemo_fan_mode_string; set_attribute ATTR_FAN_MODE v;;
  v ← wemo_read wemo_desired_humidity_percent; set_attribute ATTR_TARGET_HUMIDITY v;;
  v ← wemo_read wemo_current_humidity_percent; set_attribute ATTR_CURRENT_HUMIDITY v;;
  v ← wemo_read wemo_water_level_string; set_attribute ATTR_WATER_LEVEL v;;
  v ← wemo_read wemo_filter_life_percent; set_attribute ATTR_FILTER_LIFE v;;
  v ← wemo_read wemo_filter_expired; set_attribute ATTR_FILTER_EXPIRED v;;
  m ← wemo_read wemo_fan_mode;
  (if decide (m ≠ Off)
   then m ← wemo_read wemo_fan_mode; modify (λ e, with_last_fan_on_mode e m)
   else mret tt);;
  e ← get_state;
  if negb (_available e) then modify (λ e, with_available e true) else mret tt.

(** Update the device state. *)
Definition _update (force_update : bool) : M (WemoHumidifier D) unit :=
  try_except (poll_device force_update)
    (λ err,
       if is_AttributeError err || is_ActionException err
       then modify (λ e, with_available e false);;
            wemo_call wemo_reconnect_with_device
       else raise err).

(** [try: call  except ActionException: self._available = False]. *)
Definition guarded (call : M (WemoHumidifier D) unit) : M (WemoHumidifier D) unit :=
  try_except call
    (λ err,
       if is_ActionException err
       then modify (λ e, with_available e false)
       else raise err).

(** Set the fan_mode of the Humidifier. *)
Definition set_speed (speed : string) : M (WemoHumidifier D) unit :=
  guarded (wemo_call (wemo_set_state (dict_get HASS_FAN_SPEED_TO_WEMO speed)));;
  schedule_update_ha_state.

(** Turn the switch on. *)
Definition turn_on (speed : option string) : M (WemoHumidifier D) unit :=
  match speed with
  | None =>
      guarded (e ← get_state;
               wemo_call (wemo_set_state (Some (_last_fan_on_mode e))))
  | Some speed => set_speed speed
  end;;
  schedule_update_ha_state.

(** Turn the switch off. *)
Definition turn_off : M (WemoHumidifier D) unit :=
  guarded (wemo_call (wemo_set_state (Some Off)));;
  schedule_update_ha_state.

(** The level for a target, or nothing when no branch of the chain is
    taken. *)
Definition pywemo_humidity (target_humidity : T) : option DesiredHumidity :=
  if lt_int target_humidity 50 then Some FortyFivePercent
  else if int_le 50 target_humidity && lt_int target_humidity 55 then Some FiftyPercent
  else if int_le 55 target_humidity && lt_int target_humidity 60
  then Some FiftyFivePercent
  else if int_le 60 target_humidity && lt_int target_humidity 100
  then Some SixtyPercent
  else if ge_int target_humidity 100 then Some OneHundredPercent
  else None.

(** Set the target humidity level for the Humidifier. *)
Definition set_humidity (target_humidity : T) : M (WemoHumidifier D) unit :=
  guarded
    (match pywemo_humidity target_humidity with
     | Some level => wemo_call (wemo_set_humidity level)
     | None =>
         raise (LibError
                  (UnboundLocalError
                     "local variable 'pywemo_humidity' referenced before assignment"))
     end);;
  schedule_update_ha_state.

(** Reset the filter life to 100%. *)
Definition reset_filter_life : M (WemoHumidifier D) unit :=
  guarded (wemo_call wemo_reset_filter_life);;
  schedule_update_ha_state.

(** What the host may ask of the entity. *)
Inductive Command :=
| Update (force_update : bool)
| TurnOn (speed : option string)
| TurnOff
| SetSpeed (speed : string)
| SetHumidity (target_humidity : T)
| ResetFilterLife.

Definition run_command (c : Command) : M (WemoHumidifier D) unit :=
  match c with
  | Update force_update => _update force_update
  | TurnOn speed => turn_on speed
  | TurnOff => turn_off
  | SetSpeed speed => set_speed speed
  | SetHumidity target_humidity => set_humidity target_humidity
  | ResetFilterLife => reset_filter_life
  end.

(** A sequence of requests; an error ends a request, not the sequence. *)
Fixpoint run_commands (cs : list Command) (e : WemoHumidifier D) : WemoHumidifier D :=
  match cs with
  | [] => e
  | c :: rest => run_commands rest (run_command c e).2
  end.

(** Properties of the entity that do not depend on the device. *)
Definition device_independent (P : WemoHumidifier D → Prop) : Prop :=
  ∀ e d, P e → P (with_wemo e d).

End HumidifierEntity.

(** The value of a level in percent, as its member is named. *)
Definition percent (level : DesiredHumidity) : Z :=
  match level with
  | FortyFivePercent => 45
  | FiftyPercent => 50
  | FiftyFivePercent => 55
  | SixtyPercent => 60
  | OneHundredPercent => 100
  end.

(** ** Fixtures of the fan tests *)

(** The speed names of the fan component. *)
Definition HASS_SPEEDS : FanSpeeds :=
  {| SPEED_OFF := "off"; SPEED_LOW := "low";
     SPEED_MEDIUM := "medium"; SPEED_HIGH := "high" |}.

(** The mock device of the tests: what [get_state] returns, the fan mode,
    whether the device answers at all, and the calls of [set_state] and
    [set_humidity] it has seen. *)
Record MockHumidifier := {
  get_state_return_value : value;
  fan_mode_value : FanMode;
  reachable : bool;
  set_state_calls : list (option FanMode);
  set_humidity_calls : list DesiredHumidity
}.

Definition mock_answer {A} (d : MockHumidifier) (a : A) : outcome lib_exn A :=
  if reachable d then Ok a else Raise (ActionException "unreachable").

Definition mock_humidifier : Humidifier MockHumidifier :=
  {| wemo_get_state := λ _ d, (mock_answer d (get_state_return_value d), d);
     wemo_fan_mode_string := λ d, mock_answer d (VStr "Medium");
     wemo_desired_humidity_percent := λ d, mock_answer d (VInt 50);
     wemo_current_humidity_percent := λ d, mock_answer d (VInt 40);
     wemo_water_level_string := λ d, mock_answer d (VStr "Good");
     wemo_filter_life_percent := λ d, mock_answer d (VInt 100);
     wemo_filter_expired := λ d, mock_answer d (VInt 0);
     wemo_fan_mode := λ d, mock_answer d (fan_mode_value d);
     wemo_set_state := λ m d,
       (mock_answer d tt,
        {| get_state_return_value := get_state_return_value d;
           fan_mode_value := fan_mode_value d;
           reachable := reachable d;
           set_state_calls := set_state_calls d ++ [m];
           set_humidity_calls := set_humidity_calls d |});
     wemo_set_humidity := λ level d,
       (mock_answer d tt,
        {| get_state_return_value := get_state_return_value d;
           fan_mode_value := fan_mode_value d;
           reachable := reachable d;
           set_state_calls := set_state_calls d;
           set_humidity_calls := set_humidity_calls d ++ [level] |});
     wemo_reset_filter_life := λ d, (mock_answer d tt, d);
     wemo_reconnect_with_device := λ d, (Ok tt, d) |}.

Definition pywemo_humidifier (state : value) (answers : bool) : MockHumidifier :=
  {| get_state_return_value := state; fan_mode_value := Medium;
     reachable := answers; set_state_calls := []; set_humidity_calls := [] |}.

(** The entity of the tests, on a device that answers or not. *)
Definition wemo_entity (answers : bool) : WemoHumidifier MockHumidifier :=
  WemoHumidifier_init (pywemo_humidifier (VInt 1) answers) VNone true.

(** Whole numbers as targets, and a target that is not a number: every
    comparison with it is false. *)
Definition integer_humidity : TargetHumidity Z :=
  {| lt_int := λ t n, bool_decide (t < n)%Z;
     int_le := λ n t, bool_decide (n ≤ t)%Z;
     ge_int := λ t n, bool_decide (n ≤ t)%Z |}.

Inductive NotANumber := NaN.

Definition nan_humidity : TargetHumidity NotANumber :=
  {| lt_int := λ _ _, false; int_le := λ _ _, false; ge_int := λ _ _, false |}.

(** ** Conditions on flow steps *)

(** The identities present in the store. *)
Abbreviation uids h := (omap unique_id (entries h)).

(** What a flow step may do to the store: identities, number of records and
    device registry stay; a create result names an identity without a record,
    or the identity the flow already had; a form leaves the flow as it was. *)
Definition step_post (h : Hass) (f : WemoFlowHandler)
    (r : result FlowResult) (s : FlowState) : Prop :=
  uids (hass s) = uids h
  ∧ length (entries (hass s)) = length (entries h)
  ∧ devices (hass s) = devices h
  ∧ (∀ t d, r = Ok (CreateEntryResult t d) →
       ∃ u, flow_unique_id (flow s) = Some u
            ∧ (u ∉ uids h ∨ (flow_unique_id f = Some u ∧ truthy_str u = true)))
  ∧ (∀ a b c, r = Ok (FormResult a b c) → flow s = f).

(** What a flow step hands to the flow manager. *)
Definition flow_post (h : Hass) (r : result FlowResult) (s : FlowState) : Prop :=
  uids (hass s) = uids h
  ∧ length (entries (hass s)) = length (entries h)
  ∧ (∀ t d, r = Ok (CreateEntryResult t d) →
       ∃ u, flow_unique_id (flow s) = Some u ∧ u ∉ uids h)
  ∧ (∀ a b c, r = Ok (FormResult a b c) → flow_checked (hass s) (flow s)).

(** * Properties *)

(** Unfolding of the monad operations. *)
Ltac unfold_monad :=
  unfold mbind, M_bind, bind, mret, M_ret, ret, raise, try_except,
    get_state, modify in *.

(** ** Category classifier *)

Example classify_table :
  map classify ["Bridge"; "CoffeeMaker"; "Dimmer"; "Humidifier"; "Insight";
                "LightSwitch"; "Maker"; "Motion"; "Sensor"; "Socket"]
  = ["light"; "switch"; "light"; "fan"; "switch";
     "switch"; "switch"; "binary_sensor"; "binary_sensor"; "switch"].
Proof. reflexivity. Qed.

(** C6: [classify] returns one of the four categories for every model name,
    every name outside the ten names of the table maps to switch, and
    "Humidifier" maps to fan. *)
Theorem classify_total (m : string) :
  classify m ∈ [BINARY_SENSOR_DOMAIN; FAN_DOMAIN; LIGHT_DOMAIN; SWITCH_DOMAIN]
  ∧ (m ∉ ["Bridge"; "CoffeeMaker"; "Dimmer"; "Humidifier"; "Insight";
          "LightSwitch"; "Maker"; "Motion"; "Sensor"; "Socket"]
     → classify m = SWITCH_DOMAIN)
  ∧ classify "Humidifier" = FAN_DOMAIN.
Proof.
  unfold classify. split; [|split; [|reflexivity]].
  - destruct (WEMO_MODEL_DISPATCH !! m) as [d|] eqn:Hm; simpl.
    + apply elem_of_list_to_map_2 in Hm.
      unfold WEMO_MODEL_DISPATCH_items in Hm.
      repeat (apply elem_of_cons in Hm as [Hm|Hm];
              [injection Hm as -> ->; set_solver|]).
      by apply elem_of_nil in Hm.
    + set_solver.
  - intros Hm.
    assert (WEMO_MODEL_DISPATCH !! m = None) as ->; [|done].
    by apply not_elem_of_list_to_map_1.
Qed.

(** A model name outside the table. *)
Lemma classify_total_witness :
  classify "Thermostat" ∈ [BINARY_SENSOR_DOMAIN; FAN_DOMAIN; LIGHT_DOMAIN; SWITCH_DOMAIN]
  ∧ classify "Thermostat" = SWITCH_DOMAIN.
Proof.
  destruct (classify_total "Thermostat") as (Hin & Hsw & _).
  split; [exact Hin|]. apply Hsw.
  intros Hm. repeat (apply elem_of_cons in Hm as [Hm|Hm]; [discriminate Hm|]).
  by apply elem_of_nil in Hm.
Defined.

(** ** Static configuration parsing *)

Lemma append_cons (c : ascii) (s t : string) :
  String c s +:+ t = String c (s +:+ t).
Proof. reflexivity. Qed.

Lemma split_first_absent (sep : ascii) (s : string) :
  Str.contains sep s = false → Str.split_first sep s = None.
Proof.
  induction s as [|c s IH]; simpl; [done|].
  destruct (Ascii.eqb c sep); simpl; [done|].
  intros Hs. by rewrite IH.
Qed.

Lemma split_first_at (sep : ascii) (h t : string) :
  Str.contains sep h = false →
  Str.split_first sep (h +:+ String sep t) = Some (h, t).
Proof.
  induction h as [|c h IH]; intros Hh.
  - change (Str.split_first sep (String sep t) = Some (EmptyString, t)).
    simpl. by rewrite Ascii.eqb_refl.
  - rewrite append_cons. simpl in *.
    destruct (Ascii.eqb c sep); simpl in *; [done|].
    by rewrite IH.
Qed.

(** [s.partition(sep)] splits at the first separator. *)
Lemma partition_first (sep : ascii) (h t : string) :
  Str.contains sep h = false →
  Str.partition sep (h +:+ String sep t) = (h, String sep EmptyString, t).
Proof. intros Hh. unfold Str.partition. by rewrite split_first_at. Qed.

Lemma partition_absent (sep : ascii) (s : string) :
  Str.contains sep s = false →
  Str.partition sep s = (s, EmptyString, EmptyString).
Proof. intros Hs. unfold Str.partition. by rewrite split_first_absent. Qed.

Lemma truthy_str_true (s : string) : s ≠ "" → truthy_str s = true.
Proof. by destruct s. Qed.

Lemma cv_port_range (s : string) (p : Z) : cv_port s = Ok p → 1 ≤ p ≤ 65535.
Proof.
  unfold cv_port. destruct (Str.to_int s) as [q|]; [|done].
  destruct (q <? 1) eqn:H1; [done|]. destruct (65535 <? q) eqn:H2; [done|].
  intros [= <-]. lia.
Qed.

Lemma static_schema_invalid (items : list string) (s : string) (e : exn) :
  s ∈ items → coerce_host_port s = Raise e →
  ∃ e', static_schema items = Raise e'.
Proof.
  intros Hin Hs. induction Hin as [s items|s s' items Hin IH]; simpl.
  - rewrite Hs. eauto.
  - destruct (coerce_host_port s'); [|eauto].
    destruct (IH Hs) as [e' ->]. eauto.
Qed.

Example coerce_host_port_second_colon :
  Str.partition ":" "a:b:c" = ("a", ":", "b:c")
  ∧ coerce_host_port "a:b:c" = Raise (Invalid "expected int").
Proof. split; reflexivity. Qed.

Example coerce_host_port_trailing_colon :
  coerce_host_port "wemo.local:" = Ok ("wemo.local", 0).
Proof. reflexivity. Qed.

Example coerce_host_port_out_of_range :
  coerce_host_port "wemo.local:70000" = Raise (Invalid "value must be at most 65535")
  ∧ coerce_host_port "wemo.local:0" = Raise (Invalid "value must be at least 1").
Proof. split; reflexivity. Qed.

(** C9: an entry of the static configuration is split at its first colon.
    "host:port" yields the host and the port validated as a port number, a
    bare "host" yields port 0, an empty host is a validation error and fails
    the component setup with the state, and so the log of network calls,
    untouched; "127.0.0.1:50000" yields host "127.0.0.1" and port 50000. *)
Theorem coerce_host_port_spec :
  (∀ host port : string,
     Str.contains ":" host = false → host ≠ "" → port ≠ "" →
     coerce_host_port (host +:+ ":" +:+ port)
       = match cv_port port with
         | Ok p => Ok (host, p)
         | Raise e => Raise e
         end
     ∧ ∀ p, coerce_host_port (host +:+ ":" +:+ port) = Ok (host, p) →
            cv_port port = Ok p ∧ 1 ≤ p ≤ 65535)
  ∧ (∀ host : string,
       Str.contains ":" host = false → host ≠ "" →
       coerce_host_port host = Ok (host, 0))
  ∧ (∀ rest : string,
       coerce_host_port (":" +:+ rest) = Raise (Invalid "host cannot be empty"))
  ∧ coerce_host_port "" = Raise (Invalid "host cannot be empty")
  ∧ (∀ (P : Pywemo) (static : list string) (h : Hass),
       "" ∈ static → setup_component static h = (Ok false, h))
  ∧ coerce_host_port "127.0.0.1:50000" = Ok ("127.0.0.1", 50000).
Proof.
  assert (Hcolon : ∀ host port : string,
     Str.contains ":" host = false → host ≠ "" → port ≠ "" →
     coerce_host_port (host +:+ ":" +:+ port)
       = match cv_port port with
         | Ok p => Ok (host, p)
         | Raise e => Raise e
         end).
  { intros host port Hh Hne Hp. unfold coerce_host_port.
    change (":" +:+ port) with (String ":" port).
    rewrite partition_first by done.
    by rewrite !truthy_str_true. }
  split; [|split; [|split; [|split; [|split]]]]; try reflexivity.
  - intros host port Hh Hne Hp. split; [by apply Hcolon|].
    intros p. rewrite Hcolon by done.
    destruct (cv_port port) eqn:Hport; [|done].
    intros [= ->]. split; [done|]. by apply cv_port_range in Hport.
  - intros host Hh Hne. unfold coerce_host_port.
    rewrite partition_absent by done.
    by rewrite truthy_str_true.
  - intros P static h Hin. unfold setup_component.
    destruct (static_schema_invalid static "" (Invalid "host cannot be empty") Hin)
      as [e' ->]; done.
Qed.

(** The endpoint of the test suite, a bare host, and a configuration that
    holds an entry with an empty host. *)
Lemma coerce_host_port_spec_witness :
  coerce_host_port ("127.0.0.1" +:+ ":" +:+ "50000") = Ok ("127.0.0.1", 50000)
  ∧ coerce_host_port "wemo.local" = Ok ("wemo.local", 0)
  ∧ setup_component (H := pywemo_mock "Insight") ["127.0.0.1:50000"; ""] empty_hass
      = (Ok false, empty_hass).
Proof.
  destruct coerce_host_port_spec as (Hcolon & Hbare & _ & _ & Hsetup & _).
  split; [|split].
  - refine (eq_trans (proj1 (Hcolon "127.0.0.1" "50000" _ _ _)) _); done.
  - by apply Hbare.
  - apply Hsetup. rewrite !elem_of_cons. auto.
Defined.

(** ** Endpoint resolver *)

Section ResolverProperties.
Context `{!Pywemo}.

Lemma get_wemo_device_no_url (host port : value) :
  setup_url_for_address host port = None →
  ∃ msg, _get_wemo_device host port
         = (Raise (CannotDeterminePortError msg), [CallSetupUrl host port]).
Proof. intros Hurl. unfold _get_wemo_device. rewrite Hurl. eauto. Qed.

Lemma get_wemo_device_url (host port : value) (url : string) :
  setup_url_for_address host port = Some url →
  (∀ msg, (_get_wemo_device host port).1 ≠ Raise (CannotDeterminePortError msg))
  ∧ (_get_wemo_device host port).2 = [CallSetupUrl host port; CallDescription url].
Proof.
  intros Hurl. unfold _get_wemo_device. rewrite Hurl.
  destruct (device_from_description url) as [d|[]]; done.
Qed.

(** C4, amended: the resolver fails with [CannotDeterminePortError] exactly
    when the setup-URL derivation yields no URL, whether or not a port was
    supplied, and it then makes no description fetch; in particular so for
    port 0. *)
Theorem get_wemo_device_cannot_determine_port (host port : value) :
  ((∃ msg, (_get_wemo_device host port).1 = Raise (CannotDeterminePortError msg))
   ↔ setup_url_for_address host port = None)
  ∧ (setup_url_for_address host port = None →
     (_get_wemo_device host port).2 = [CallSetupUrl host port])
  ∧ (setup_url_for_address host (VInt 0) = None →
     (∃ msg, (_get_wemo_device host (VInt 0)).1 = Raise (CannotDeterminePortError msg))
     ∧ ∀ url, CallDescription url ∉ (_get_wemo_device host (VInt 0)).2).
Proof.
  split; [split|split].
  - intros [msg Hmsg].
    destruct (setup_url_for_address host port) as [url|] eqn:Hurl; [|done].
    destruct (get_wemo_device_url host port url Hurl) as [Hne _].
    by destruct (Hne msg).
  - intros Hurl. destruct (get_wemo_device_no_url host port Hurl) as [msg ->]. eauto.
  - intros Hurl. by destruct (get_wemo_device_no_url host port Hurl) as [msg ->].
  - intros Hurl. destruct (get_wemo_device_no_url host (VInt 0) Hurl) as [msg ->].
    split; [eauto|]. intros url. simpl. rewrite elem_of_cons, elem_of_nil. by intros [|].
Qed.

(** C5: when the description fetch raises a connection or timeout error of
    the transport, the resolver raises [ConnectError], and the cause of the
    raised error is the transport error. *)
Theorem get_wemo_device_connect_error (host port : value) (url : string)
    (err : lib_exn) :
  setup_url_for_address host port = Some url →
  device_from_description url = Raise err →
  (∃ msg, err = RequestsConnectionError msg ∨ err = RequestsTimeout msg) →
  ∃ msg e,
    (_get_wemo_device host port).1 = Raise e
    ∧ e = ConnectError msg err
    ∧ is_ConnectError e = true
    ∧ is_CannotDeterminePortError e = false
    ∧ exn_cause e = Some err.
Proof.
  intros Hurl Hfetch [m [-> | ->]]; unfold _get_wemo_device;
    rewrite Hurl, Hfetch; simpl; eauto 10.
Qed.

End ResolverProperties.

(** C4, as stated, fails: with a port supplied and no URL derived, as
    [test_get_wemo_device_bad_port] sets it up, the resolver raises
    [CannotDeterminePortError] as well. *)
Lemma cannot_determine_port_with_port_supplied :
  ¬ (∀ (P : Pywemo) (host port : value),
       (∃ msg, (_get_wemo_device host port).1 = Raise (CannotDeterminePortError msg))
       ↔ (port = VInt 0 ∧ setup_url_for_address host port = None)).
Proof.
  intros Hall.
  destruct (Hall pywemo_no_url (VStr MOCK_HOST) (VInt MOCK_PORT)) as [Hport _].
  destruct Hport as [Hport _]; [|discriminate Hport].
  eexists. reflexivity.
Qed.

(** No URL for an endpoint without a port. *)
Lemma get_wemo_device_cannot_determine_port_witness :
  (∃ msg, (_get_wemo_device (H := pywemo_no_url) (VStr MOCK_HOST) (VInt 0)).1
          = Raise (CannotDeterminePortError msg))
  ∧ ∀ url, CallDescription url
           ∉ (_get_wemo_device (H := pywemo_no_url) (VStr MOCK_HOST) (VInt 0)).2.
Proof.
  destruct (get_wemo_device_cannot_determine_port (H := pywemo_no_url)
              (VStr MOCK_HOST) (VInt 0)) as (_ & _ & Hzero).
  apply Hzero. reflexivity.
Defined.

(** The refused connection of [test_get_wemo_device_failed_connection]. *)
Lemma get_wemo_device_connect_error_witness :
  ∃ msg e,
    (_get_wemo_device (H := pywemo_failed_connection) (VStr MOCK_HOST) (VInt MOCK_PORT)).1
      = Raise e
    ∧ e = ConnectError msg (RequestsConnectionError "")
    ∧ is_ConnectError e = true
    ∧ is_CannotDeterminePortError e = false
    ∧ exn_cause e = Some (RequestsConnectionError "").
Proof.
  apply (get_wemo_device_connect_error (H := pywemo_failed_connection)
           (VStr MOCK_HOST) (VInt MOCK_PORT) MOCK_URL (RequestsConnectionError ""));
    [reflexivity | reflexivity | eauto].
Defined.

(** ** Resolution cache *)

Section CacheProperties.
Context `{!Pywemo}.

(** A cache hit returns the cached handle; the take variant removes it. *)
Lemma async_get_wemo_device_hit (config_data : gmap string value)
    (host port : value) (device : WeMoDevice) (remove_cache : bool) (h : Hass) :
  config_data !! CONF_HOST = Some host →
  config_data !! CONF_PORT = Some port →
  pywemo_wemodevice_cache h !! cache_key host port = Some device →
  async_get_wemo_device config_data remove_cache h
  = (Ok device,
     if remove_cache
     then with_cache h (delete (cache_key host port) (pywemo_wemodevice_cache h))
     else h).
Proof.
  intros Hhost Hport Hhit. unfold async_get_wemo_device, getitem, cache_lookup.
  rewrite Hhost, Hport. unfold_monad. destruct remove_cache; by rewrite Hhit.
Qed.

(** A cache miss resolves the endpoint and stores the handle under the key,
    in both variants of the lookup. *)
Lemma async_get_wemo_device_miss (config_data : gmap string value)
    (host port : value) (device : WeMoDevice) (calls : list NetCall)
    (remove_cache : bool) (h : Hass) :
  config_data !! CONF_HOST = Some host →
  config_data !! CONF_PORT = Some port →
  pywemo_wemodevice_cache h !! cache_key host port = None →
  _get_wemo_device host port = (Ok device, calls) →
  async_get_wemo_device config_data remove_cache h
  = (Ok device,
     with_cache (with_net_log h (net_log h ++ calls))
       (<[cache_key host port := device]> (pywemo_wemodevice_cache h))).
Proof.
  intros Hhost Hport Hmiss Hget.
  unfold async_get_wemo_device, getitem, cache_lookup, executor_get_wemo_device.
  rewrite Hhost, Hport. unfold_monad.
  destruct remove_cache; rewrite Hmiss, Hget; simpl; [|done].
  by rewrite delete_id.
Qed.

(** Resolution touches the cache and the log of calls only. *)
Lemma async_get_wemo_device_frame (config_data : gmap string value)
    (remove_cache : bool) (h : Hass) :
  let h' := (async_get_wemo_device config_data remove_cache h).2 in
  entries h' = entries h ∧ devices h' = devices h ∧ tasks h' = tasks h
  ∧ discovery_info h' = discovery_info h ∧ entry_counter h' = entry_counter h.
Proof.
  unfold async_get_wemo_device, getitem, cache_lookup, executor_get_wemo_device.
  destruct (config_data !! CONF_HOST) as [host|]; [|done].
  destruct (config_data !! CONF_PORT) as [port|]; [|done].
  unfold_monad.
  destruct remove_cache;
    destruct (pywemo_wemodevice_cache h !! cache_key host port); simpl; try done;
    destruct (_get_wemo_device host port) as [[d|e] calls]; done.
Qed.

End CacheProperties.

(** The hand-over the cache is meant for: the flow resolves the endpoint,
    the platform takes the handle, and the cache is empty again. *)
Example take_after_resolve :
  pywemo_wemodevice_cache
    (async_get_wemo_device (H := pywemo_mock "Insight") MOCK_FLOW_DATA true
       (async_get_wemo_device (H := pywemo_mock "Insight") MOCK_FLOW_DATA false
          empty_hass).2).2
  = ∅.
Proof. vm_compute. reflexivity. Qed.

(** C7: with the take variant on an empty cache the endpoint is resolved and
    the handle is handed to the caller, yet the handle is also stored under
    the key "127.0.0.1:50000" and stays there. *)
Theorem take_on_cache_miss_leaves_entry :
  (async_get_wemo_device (H := pywemo_mock "Insight") MOCK_FLOW_DATA true empty_hass).1
    = Ok (pywemo_device "Insight")
  ∧ pywemo_wemodevice_cache
      (async_get_wemo_device (H := pywemo_mock "Insight") MOCK_FLOW_DATA true empty_hass).2
      !! "127.0.0.1:50000"
    = Some (pywemo_device "Insight").
Proof. split; vm_compute; reflexivity. Qed.

(** ** Entry setup *)

Section SetupProperties.
Context `{!Pywemo}.

(** C8: when the stored category of a record differs from the category
    classified from the resolved device, setting the record up rewrites the
    category field of that record only: every other field of its data, its
    identity, version, title and source, the other records and the number of
    records stay as they were.  When the stored category agrees, the records
    are left untouched. *)
Theorem async_setup_entry_category (h h1 : Hass) (entry : nat)
    (e : ConfigEntry) (device : WeMoDevice) :
  entries h !! entry = Some e →
  async_get_wemo_device (data e) false h = (Ok device, h1) →
  (async_setup_entry entry h).1 = Ok true
  ∧ (data e !! CONF_DOMAIN ≠ Some (VStr (classify (model_name device))) →
     ∃ e',
       entries (async_setup_entry entry h).2 = <[entry := e']> (entries h)
       ∧ data e' !! CONF_DOMAIN = Some (VStr (classify (model_name device)))
       ∧ (∀ k, k ≠ CONF_DOMAIN → data e' !! k = data e !! k)
       ∧ unique_id e' = unique_id e ∧ entry_id e' = entry_id e
       ∧ version e' = version e ∧ title e' = title e ∧ source e' = source e
       ∧ length (entries (async_setup_entry entry h).2) = length (entries h)
       ∧ ∀ j, j ≠ entry →
           entries (async_setup_entry entry h).2 !! j = entries h !! j)
  ∧ (data e !! CONF_DOMAIN = Some (VStr (classify (model_name device))) →
     entries (async_setup_entry entry h).2 = entries h).
Proof.
  intros Hentry Hget.
  pose proof (async_get_wemo_device_frame (data e) false h) as Hframe.
  rewrite Hget in Hframe. simpl in Hframe. destruct Hframe as (Hes & _).
  unfold async_setup_entry, async_update_entry, async_create_task, deref.
  unfold_monad. rewrite Hentry, Hget.
  destruct (decide (data e !! CONF_DOMAIN
                    = Some (VStr (classify (model_name device))))) as [Heq|Hne].
  - simpl. split; [done|]. split; [done|]. by intros _.
  - rewrite Hes, Hentry.
    destruct (decide (data e = <[CONF_DOMAIN := VStr (classify (model_name device))]> (data e)))
      as [Hsame|Hdiff].
    { exfalso. apply Hne. rewrite Hsame. apply lookup_insert_eq. }
    simpl. split; [done|]. split; [|done]. intros _.
    exists (with_data e (<[CONF_DOMAIN := VStr (classify (model_name device))]> (data e))).
    rewrite Hes. simpl. split; [done|].
    split; [apply lookup_insert_eq|].
    split; [intros k Hk; by apply lookup_insert_ne|].
    repeat (split; [done|]).
    split; [apply length_insert|].
    intros j Hj. by apply list_lookup_insert_ne.
Qed.

End SetupProperties.

(** The record of [test_static_config_update] has no category yet; the mock
    device is an Insight, a switch. *)
Lemma async_setup_entry_category_witness :
  (async_setup_entry (H := pywemo_mock "Insight") 0 (hass_with [old_entry] [])).1 = Ok true
  ∧ ∃ e',
      entries (async_setup_entry (H := pywemo_mock "Insight") 0 (hass_with [old_entry] [])).2
        = [e']
      ∧ data e' !! CONF_DOMAIN = Some (VStr SWITCH_DOMAIN)
      ∧ data e' !! CONF_HOST = Some (VStr "old_host")
      ∧ data e' !! CONF_PORT = Some (VInt 111)
      ∧ unique_id e' = Some MOCK_SERIAL_NUMBER.
Proof.
  destruct (async_setup_entry_category (H := pywemo_mock "Insight")
              (hass_with [old_entry] [])
              (async_get_wemo_device (H := pywemo_mock "Insight")
                 (data old_entry) false (hass_with [old_entry] [])).2
              0%nat old_entry (pywemo_device "Insight") eq_refl)
    as (Hok & Hupd & _).
  { vm_compute. reflexivity. }
  split; [exact Hok|].
  destruct Hupd as (e' & Hes & Hdom & Hother & Huid & _).
  { vm_compute. discriminate. }
  exists e'. split; [exact Hes|]. split; [exact Hdom|].
  split; [|split].
  - rewrite Hother; [reflexivity | discriminate].
  - rewrite Hother; [reflexivity | discriminate].
  - rewrite Huid. reflexivity.
Defined.

(** ** Schema migrator *)

Lemma forallb_bool_decide {A} (P : A → Prop) `{!∀ x, Decision (P x)} (l : list A) :
  forallb (λ x, bool_decide (P x)) l = true ↔ ∀ x, x ∈ l → P x.
Proof.
  rewrite forallb_forall. split; intros Hall x Hx.
  - apply list_elem_of_In in Hx. apply Hall in Hx. by apply bool_decide_eq_true in Hx.
  - apply list_elem_of_In in Hx. apply bool_decide_eq_true. by apply Hall.
Qed.

Lemma snoc_neq {A} (l : list A) (x : A) : l ++ [x] ≠ l.
Proof.
  intros Heq. apply (f_equal length) in Heq.
  rewrite length_app in Heq. simpl in Heq. lia.
Qed.

Lemma all_devices_migrated_forallb (h : Hass) (e : ConfigEntry) :
  forallb (λ device, bool_decide (1 < size (config_entries device))%nat)
    (async_entries_for_config_entry (devices h) (entry_id e)) = true
  ↔ all_devices_migrated h e.
Proof.
  unfold all_devices_migrated.
  apply (forallb_bool_decide (λ device, (1 < size (config_entries device))%nat)).
Qed.

Lemma all_devices_migrated_cases (h : Hass) (e : ConfigEntry) :
  all_devices_migrated h e ∨ ¬ all_devices_migrated h e.
Proof.
  destruct (forallb (λ device, bool_decide (1 < size (config_entries device))%nat)
              (async_entries_for_config_entry (devices h) (entry_id e))) eqn:Hall.
  - left. by apply all_devices_migrated_forallb.
  - right. intros Hall'. apply all_devices_migrated_forallb in Hall'. congruence.
Qed.

(** All associated devices migrated: the removal of the record is scheduled
    and nothing else changes. *)
Lemma async_migrate_entry_all (h : Hass) (entry : nat) (e : ConfigEntry) :
  entries h !! entry = Some e → version e = 1 →
  all_devices_migrated h e →
  async_migrate_entry entry h
  = (Ok false, with_tasks h (tasks h ++ [RemoveEntry (entry_id e)])).
Proof.
  intros Hentry Hv Hall. unfold async_migrate_entry, async_create_task, deref.
  unfold_monad. rewrite Hentry.
  destruct (decide (version e = 1)); [|done].
  apply all_devices_migrated_forallb in Hall. by rewrite Hall.
Qed.

(** Some associated device not migrated: the state is left as it was. *)
Lemma async_migrate_entry_some (h : Hass) (entry : nat) (e : ConfigEntry) :
  entries h !! entry = Some e → version e = 1 →
  ¬ all_devices_migrated h e →
  async_migrate_entry entry h = (Ok false, h).
Proof.
  intros Hentry Hv Hsome. unfold async_migrate_entry, async_create_task, deref.
  unfold_monad. rewrite Hentry.
  destruct (decide (version e = 1)); [|done].
  destruct (forallb _ _) eqn:Hall; [|done].
  by apply all_devices_migrated_forallb in Hall.
Qed.

Lemma migrate_superseded (h : Hass) (entry : nat) (e : ConfigEntry) :
  entries h !! entry = Some e → version e = 1 →
  all_devices_migrated h e → migrate entry h = Some superseded.
Proof.
  intros Hentry Hv Hall. unfold migrate.
  rewrite Hentry, (async_migrate_entry_all h entry e) by done. simpl.
  by destruct (decide _).
Qed.

Lemma migrate_retain (h : Hass) (entry : nat) (e : ConfigEntry) :
  entries h !! entry = Some e → version e = 1 →
  ¬ all_devices_migrated h e → migrate entry h = Some retain.
Proof.
  intros Hentry Hv Hsome. unfold migrate.
  rewrite Hentry, (async_migrate_entry_some h entry e) by done. simpl.
  destruct (decide _) as [Heq|]; [|done].
  symmetry in Heq. by apply snoc_neq in Heq.
Qed.

Lemma async_remove_removes (h : Hass) (e : ConfigEntry) :
  e ∉ entries (async_remove (entry_id e) h).2.
Proof.
  unfold async_remove. unfold_monad. simpl.
  rewrite list_elem_of_filter. by intros [Hne _].
Qed.

(** C1: for a version-1 record the migration answers "not yet complete";
    it yields superseded, scheduling the removal of the record, exactly when
    every device associated with the record is associated with more than one
    config entry, and it yields retain, leaving the state as it was, exactly
    when some associated device is not.  Running the scheduled removal takes
    the record out of the store. *)
Theorem async_migrate_entry_version_1 (h : Hass) (entry : nat) (e : ConfigEntry) :
  entries h !! entry = Some e → version e = 1 →
  (async_migrate_entry entry h).1 = Ok false
  ∧ (migrate entry h = Some superseded ↔ all_devices_migrated h e)
  ∧ (migrate entry h = Some retain ↔ ¬ all_devices_migrated h e)
  ∧ (all_devices_migrated h e →
     (async_migrate_entry entry h).2
       = with_tasks h (tasks h ++ [RemoveEntry (entry_id e)])
     ∧ e ∉ entries (async_remove (entry_id e) (async_migrate_entry entry h).2).2)
  ∧ (¬ all_devices_migrated h e →
     (async_migrate_entry entry h).2 = h ∧ e ∈ entries (async_migrate_entry entry h).2).
Proof.
  intros Hentry Hv.
  destruct (all_devices_migrated_cases h e) as [Hall|Hsome].
  - rewrite (async_migrate_entry_all h entry e), (migrate_superseded h entry e) by done.
    simpl. split; [done|]. split; [done|]. split; [split; [done|by intros []]|].
    split; [|done]. intros _. split; [done|]. apply async_remove_removes.
  - rewrite (async_migrate_entry_some h entry e), (migrate_retain h entry e) by done.
    simpl. split; [done|]. split; [split; [done|by intros ?]|]. split; [done|].
    split; [done|]. intros _. split; [done|]. by eapply list_elem_of_lookup_2.
Qed.

(** C10: a version-1 record with no associated device is superseded and its
    removal is scheduled. *)
Theorem async_migrate_entry_no_devices (h : Hass) (entry : nat) (e : ConfigEntry) :
  entries h !! entry = Some e → version e = 1 →
  async_entries_for_config_entry (devices h) (entry_id e) = [] →
  migrate entry h = Some superseded
  ∧ async_migrate_entry entry h
    = (Ok false, with_tasks h (tasks h ++ [RemoveEntry (entry_id e)])).
Proof.
  intros Hentry Hv Hnone.
  assert (all_devices_migrated h e) as Hall.
  { intros device. rewrite Hnone. by intros ?%elem_of_nil. }
  split; [by eapply migrate_superseded | by apply async_migrate_entry_all].
Qed.

(** The two migration tests: the device that references both records lets
    the version-1 record go, the device that references it alone keeps it. *)
Lemma async_migrate_entry_version_1_witness :
  migrate 0 (hass_with [v1_entry] [migrated_device]) = Some superseded
  ∧ migrate 0 (hass_with [v1_entry] [v1_only_device]) = Some retain
  ∧ (async_migrate_entry 0 (hass_with [v1_entry] [v1_only_device])).2
    = hass_with [v1_entry] [v1_only_device].
Proof.
  destruct (async_migrate_entry_version_1
              (hass_with [v1_entry] [migrated_device]) 0 v1_entry eq_refl eq_refl)
    as (_ & [_ Hsup] & _).
  destruct (async_migrate_entry_version_1
              (hass_with [v1_entry] [v1_only_device]) 0 v1_entry eq_refl eq_refl)
    as (_ & _ & [_ Hret] & _ & Hkeep).
  assert (¬ all_devices_migrated (hass_with [v1_entry] [v1_only_device]) v1_entry)
    as Hsome.
  { intros Hall. apply all_devices_migrated_forallb in Hall.
    vm_compute in Hall. discriminate Hall. }
  split; [|split].
  - apply Hsup. apply all_devices_migrated_forallb. vm_compute. reflexivity.
  - apply Hret, Hsome.
  - apply Hkeep, Hsome.
Defined.

(** A version-1 record that no device references. *)
Lemma async_migrate_entry_no_devices_witness :
  migrate 0 (hass_with [v1_entry] []) = Some superseded
  ∧ async_migrate_entry 0 (hass_with [v1_entry] [])
    = (Ok false, with_tasks (hass_with [v1_entry] []) [RemoveEntry "v1"]).
Proof.
  apply (async_migrate_entry_no_devices (hass_with [v1_entry] []) 0 v1_entry);
    reflexivity.
Defined.

(** ** Entry reconciler *)

Lemma with_data_id (e : ConfigEntry) : with_data e (data e) = e.
Proof. by destruct e. Qed.

Lemma with_entries_id (h : Hass) : with_entries h (entries h) = h.
Proof. by destruct h. Qed.

Lemma find_unique_id_Some (uid : string) (es : list ConfigEntry) (i : nat) :
  find_unique_id uid es = Some i →
  ∃ e, es !! i = Some e ∧ unique_id e = Some uid.
Proof.
  revert i. induction es as [|e es IH]; intros i; simpl; [done|].
  destruct (decide (unique_id e = Some uid)) as [Heq|Hne].
  - intros [= <-]. eauto.
  - destruct (find_unique_id uid es) as [j|]; [|done].
    intros [= <-]. simpl. by apply IH.
Qed.

Lemma find_unique_id_None (uid : string) (es : list ConfigEntry) :
  find_unique_id uid es = None ↔ uid ∉ omap unique_id es.
Proof.
  induction es as [|e es IH]; simpl.
  - split; [intros _; apply not_elem_of_nil | done].
  - destruct (decide (unique_id e = Some uid)) as [Heq|Hne].
    + rewrite Heq. simpl. split; [done|]. intros Hnot. destruct Hnot. by left.
    + destruct (unique_id e) as [u|] eqn:Hu; simpl.
      * rewrite not_elem_of_cons, <- IH.
        destruct (find_unique_id uid es); simpl.
        { split; [done|]. by intros [_ ?]. }
        split; [|done]. intros _. split; [|done]. intros ->. by apply Hne.
      * rewrite <- IH. by destruct (find_unique_id uid es).
Qed.

(** Rewriting the data of a record in place keeps the identities. *)
Lemma omap_unique_id_insert (es : list ConfigEntry) (i : nat) (e : ConfigEntry)
    (d : gmap string value) :
  es !! i = Some e →
  omap unique_id (<[i := with_data e d]> es) = omap unique_id es.
Proof.
  revert i. induction es as [|e0 es IH]; intros [|i]; simpl; try done.
  - by intros [= ->].
  - intros Hi. destruct (unique_id e0); [f_equal|]; by apply IH.
Qed.

Section ReconcilerLemmas.
Context `{!Pywemo}.

Lemma abort_check_no_identity (updates : gmap string value) (h : Hass)
    (f : WemoFlowHandler) :
  flow_unique_id f = None →
  _abort_if_unique_id_configured updates {| hass := h; flow := f |}
  = (Ok tt, {| hass := h; flow := f |}).
Proof.
  intros Hf. unfold _abort_if_unique_id_configured, get_flow. unfold_monad.
  simpl. by rewrite Hf.
Qed.

Lemma abort_check_absent (updates : gmap string value) (h : Hass)
    (f : WemoFlowHandler) (uid : string) :
  flow_unique_id f = Some uid →
  find_unique_id uid (entries h) = None →
  _abort_if_unique_id_configured updates {| hass := h; flow := f |}
  = (Ok tt, {| hass := h; flow := f |}).
Proof.
  intros Hf Hfind. unfold _abort_if_unique_id_configured, get_flow. unfold_monad.
  simpl. rewrite Hf. simpl. by rewrite Hfind.
Qed.

Lemma abort_check_present (updates : gmap string value) (h : Hass)
    (f : WemoFlowHandler) (uid : string) (i : nat) (e : ConfigEntry) :
  flow_unique_id f = Some uid →
  find_unique_id uid (entries h) = Some i →
  entries h !! i = Some e →
  _abort_if_unique_id_configured updates {| hass := h; flow := f |}
  = (Raise (AbortFlow "already_configured"),
     {| hass := with_entries h (<[i := with_data e (updates ∪ data e)]> (entries h));
        flow := f |}).
Proof.
  intros Hf Hfind He.
  unfold _abort_if_unique_id_configured, get_flow, in_hass, async_update_entry, deref.
  unfold_monad. simpl. rewrite Hf. simpl. rewrite Hfind. simpl.
  rewrite He. simpl. rewrite He. simpl.
  destruct (decide (data e = updates ∪ data e)) as [Heq|Hne]; simpl; [|done].
  rewrite <- Heq, with_data_id, list_insert_id, with_entries_id; done.
Qed.

Lemma set_unique_id_and_update_absent (user_input : gmap string value)
    (uid : string) (h : Hass) (f : WemoFlowHandler) :
  find_unique_id uid (entries h) = None →
  _async_set_unique_id_and_update user_input uid {| hass := h; flow := f |}
  = (Ok tt, {| hass := h; flow := with_unique_id f (Some uid) |}).
Proof.
  intros Hfind. unfold _async_set_unique_id_and_update, async_set_unique_id, modify_flow.
  unfold_monad. simpl.
  by rewrite (abort_check_absent user_input h (with_unique_id f (Some uid)) uid).
Qed.

Lemma set_unique_id_and_update_present (user_input : gmap string value)
    (uid : string) (h : Hass) (f : WemoFlowHandler) (i : nat) (e : ConfigEntry) :
  find_unique_id uid (entries h) = Some i →
  entries h !! i = Some e →
  _async_set_unique_id_and_update user_input uid {| hass := h; flow := f |}
  = (Raise (AbortFlow "already_configured"),
     {| hass := with_entries h (<[i := with_data e (user_input ∪ data e)]> (entries h));
        flow := with_unique_id f (Some uid) |}).
Proof.
  intros Hfind He. unfold _async_set_unique_id_and_update, async_set_unique_id, modify_flow.
  unfold_monad. simpl.
  by rewrite (abort_check_present user_input h (with_unique_id f (Some uid)) uid i e).
Qed.

(** The three ways through [async_step_user]. *)
Lemma async_step_user_no_input (user_input : option (gmap string value))
    (s : FlowState) :
  default ∅ user_input = ∅ →
  async_step_user user_input s = (Ok (FormResult STEP_ID_USER false ∅), s).
Proof.
  intros Hempty. unfold async_step_user, truthy_dict. rewrite Hempty.
  by rewrite bool_decide_eq_true_2.
Qed.

Lemma async_step_user_failed (user_input : option (gmap string value))
    (h h1 : Hass) (f : WemoFlowHandler) (err : exn) :
  default ∅ user_input ≠ ∅ →
  async_get_wemo_device (default ∅ user_input ∪ {[CONF_PORT := VInt 0]}) false h
    = (Raise err, h1) →
  async_step_user user_input {| hass := h; flow := f |}
  = (if is_CannotDeterminePortError err
     then Ok (FormResult STEP_ID_USER true {["base" := ERROR_CANNOT_DETERMINE_PORT]})
     else if is_ConnectError err
     then Ok (FormResult STEP_ID_USER false {["base" := ERROR_CANNOT_CONNECT]})
     else Raise err,
     {| hass := h1; flow := f |}).
Proof.
  intros Hinput Hget. unfold async_step_user, truthy_dict, in_hass.
  rewrite bool_decide_eq_false_2 by done. unfold_monad. simpl. rewrite Hget.
  destruct (is_CannotDeterminePortError err); [done|].
  destruct (is_ConnectError err); done.
Qed.

Lemma async_step_user_connected (user_input : option (gmap string value))
    (h h1 : Hass) (f : WemoFlowHandler) (device : WeMoDevice) :
  default ∅ user_input ≠ ∅ →
  async_get_wemo_device (default ∅ user_input ∪ {[CONF_PORT := VInt 0]}) false h
    = (Ok device, h1) →
  async_step_user user_input {| hass := h; flow := f |}
  = if not_unique_id f
    then match _async_set_unique_id_and_update (default ∅ user_input)
                 (serialnumber device) {| hass := h1; flow := f |} with
         | (Ok _, s) =>
             (Ok (CreateEntryResult (name device)
                    (default ∅ user_input ∪ {[CONF_PORT := VInt 0]})), s)
         | (Raise err, s) => (Raise err, s)
         end
    else (Ok (CreateEntryResult (name device)
                (default ∅ user_input ∪ {[CONF_PORT := VInt 0]})),
          {| hass := h1; flow := f |}).
Proof.
  intros Hinput Hget. unfold async_step_user, truthy_dict, in_hass, get_flow.
  rewrite bool_decide_eq_false_2 by done. unfold_monad. simpl. rewrite Hget. simpl.
  destruct (not_unique_id f); [|done].
  by destruct (_async_set_unique_id_and_update _ _ _) as [[[]|err] s].
Qed.

Lemma not_unique_id_false (f : WemoFlowHandler) :
  not_unique_id f = false →
  ∃ u, flow_unique_id f = Some u ∧ truthy_str u = true.
Proof.
  unfold not_unique_id. destruct (flow_unique_id f) as [u|]; [|done].
  intros Hu. exists u. split; [done|]. by destruct (truthy_str u).
Qed.

Lemma async_step_user_post (user_input : option (gmap string value))
    (h : Hass) (f : WemoFlowHandler) (r : result FlowResult) (s : FlowState) :
  async_step_user user_input {| hass := h; flow := f |} = (r, s) →
  step_post h f r s.
Proof.
  intros Hstep. unfold step_post.
  destruct (decide (default ∅ user_input = ∅)) as [Hempty|Hinput].
  { rewrite async_step_user_no_input in Hstep by done.
    injection Hstep as <- <-. simpl. repeat split; try done. }
  destruct (async_get_wemo_device (default ∅ user_input ∪ {[CONF_PORT := VInt 0]})
              false h) as [[device|err] h1] eqn:Hget;
    pose proof (async_get_wemo_device_frame
                  (default ∅ user_input ∪ {[CONF_PORT := VInt 0]}) false h) as Hframe;
    rewrite Hget in Hframe; simpl in Hframe;
    destruct Hframe as (Hes & Hdevs & _).
  - rewrite (async_step_user_connected user_input h h1 f device) in Hstep by done.
    destruct (not_unique_id f) eqn:Hnot.
    + destruct (find_unique_id (serialnumber device) (entries h1)) as [i|] eqn:Hfind.
      * destruct (find_unique_id_Some _ _ _ Hfind) as (e & He & _).
        rewrite (set_unique_id_and_update_present _ _ h1 f i e) in Hstep by done.
        injection Hstep as <- <-. simpl.
        rewrite omap_unique_id_insert, length_insert, Hes, Hdevs by done.
        repeat split; done.
      * rewrite set_unique_id_and_update_absent in Hstep by done.
        injection Hstep as <- <-. simpl. rewrite Hes, Hdevs.
        repeat split; try done.
        intros t d _. exists (serialnumber device). split; [done|]. left.
        apply find_unique_id_None. by rewrite <- Hes.
    + injection Hstep as <- <-. simpl. rewrite Hes, Hdevs.
      repeat split; try done.
      intros t d _. destruct (not_unique_id_false f Hnot) as (u & Hu & Htruthy).
      exists u. auto.
  - rewrite (async_step_user_failed user_input h h1 f err) in Hstep by done.
    injection Hstep as <- <-. simpl. rewrite Hes, Hdevs.
    repeat split; try done.
    intros t d. destruct (is_CannotDeterminePortError err); [done|].
    destruct (is_ConnectError err); done.
Qed.

Lemma async_step_confirm_post (user_input : option (gmap string value))
    (h : Hass) (f : WemoFlowHandler) (r : result FlowResult) (s : FlowState) :
  async_step_confirm user_input {| hass := h; flow := f |} = (r, s) →
  step_post h f r s.
Proof.
  unfold async_step_confirm, get_flow. unfold_monad. simpl.
  destruct user_input as [ui|]; simpl; [apply async_step_user_post|].
  destruct (async_get_device (flow_unique_id f) (devices h));
    [apply async_step_user_post|].
  intros [= <- <-]. unfold step_post. simpl. repeat split; done.
Qed.

Lemma step_post_flow_post (h : Hass) (f : WemoFlowHandler)
    (r : result FlowResult) (s : FlowState) :
  flow_checked h f → step_post h f r s → flow_post h r s.
Proof.
  intros Hchecked (Huids & Hlen & _ & Hcreate & Hform).
  split; [done|]. split; [done|]. split.
  - intros t d Hr. destruct (Hcreate t d Hr) as (u & Hu & [Hnew|[Hold Htruthy]]);
      exists u; split; try done. by apply Hchecked.
  - intros a b c Hr. rewrite (Hform a b c Hr).
    unfold flow_checked. rewrite Huids. apply Hchecked.
Qed.

Lemma async_step_ssdp_post (info : DiscoveryInfo) (h : Hass) (f : WemoFlowHandler)
    (r : result FlowResult) (s : FlowState) :
  async_step_ssdp info {| hass := h; flow := f |} = (r, s) →
  flow_post h r s.
Proof.
  unfold async_step_ssdp, in_hass, modify_flow.
  unfold mbind, M_bind, bind at 1 2, modify. simpl.
  set (h0 := with_discovery_info h _). set (f0 := with_context f _ _).
  assert (entries h0 = entries h) as Hes by done.
  unfold bind.
  destruct (find_unique_id (upnp_serial info) (entries h0)) as [i|] eqn:Hfind.
  - destruct (find_unique_id_Some _ _ _ Hfind) as (e & He & _).
    rewrite (set_unique_id_and_update_present _ _ h0 f0 i e) by done.
    intros [= <- <-]. unfold flow_post. simpl. rewrite Hes in He.
    rewrite omap_unique_id_insert, length_insert by done.
    repeat split; done.
  - rewrite set_unique_id_and_update_absent by done.
    intros Hconfirm. apply async_step_confirm_post in Hconfirm.
    apply (step_post_flow_post h0) in Hconfirm; [exact Hconfirm|].
    intros u [= <-] _. by apply find_unique_id_None.
Qed.

(** Setting a record up keeps the identities and the number of records. *)
Lemma async_setup_entry_frame (entry : nat) (h : Hass) :
  uids (async_setup_entry entry h).2 = uids h
  ∧ length (entries (async_setup_entry entry h).2) = length (entries h).
Proof.
  unfold async_setup_entry, async_update_entry, async_create_task, deref.
  unfold_monad.
  destruct (entries h !! entry) as [e|] eqn:Hentry; [|done].
  pose proof (async_get_wemo_device_frame (data e) false h) as Hframe.
  destruct (async_get_wemo_device (data e) false h) as [[device|err] h1];
    simpl in Hframe; destruct Hframe as (Hes & _); [|simpl; by rewrite Hes].
  destruct (decide (data e !! CONF_DOMAIN = Some _)); simpl; [by rewrite Hes|].
  rewrite Hes, Hentry.
  destruct (decide (data e = _)); simpl; rewrite ?Hes; [done|].
  by rewrite omap_unique_id_insert, length_insert.
Qed.

(** Adding the record of a flow appends the identity of the flow. *)
Lemma async_add_entry_spec (t : string) (d : gmap string value) (h : Hass)
    (f : WemoFlowHandler) :
  ∃ h', async_add_entry t d {| hass := h; flow := f |}
        = (Ok tt, {| hass := h'; flow := f |})
        ∧ uids h' = uids h ++ option_list (flow_unique_id f)
        ∧ length (entries h') = S (length (entries h)).
Proof.
  unfold async_add_entry, get_flow, in_hass. unfold_monad. simpl.
  set (h2 := with_entry_counter _ _).
  pose proof (async_setup_entry_frame (length (entries h)) h2) as [Huids Hlen].
  assert (uids h2 = uids h ++ option_list (flow_unique_id f)) as Huids2.
  { subst h2. simpl. rewrite omap_app. simpl. by destruct (flow_unique_id f). }
  assert (length (entries h2) = S (length (entries h))) as Hlen2.
  { subst h2. simpl. rewrite length_app. simpl. lia. }
  destruct (async_setup_entry (length (entries h)) h2) as [[b|err] h3];
    simpl in *; exists h3; rewrite Huids, Hlen; done.
Qed.

(** A flow step under the flow manager keeps the identities distinct. *)
Lemma flow_step_inv (step : M FlowState FlowResult) (h : Hass) (f : WemoFlowHandler)
    (r : result FlowResult) (s : FlowState) :
  (∀ r0 s0, step {| hass := h; flow := f |} = (r0, s0) → flow_post h r0 s0) →
  unique_ids_distinct (entries h) →
  flow_step step {| hass := h; flow := f |} = (r, s) →
  unique_ids_distinct (entries (hass s))
  ∧ (length (entries h) ≤ length (entries (hass s)) ≤ S (length (entries h)))%nat
  ∧ (∀ a b c, r = Ok (FormResult a b c) →
       uids (hass s) = uids h
       ∧ length (entries (hass s)) = length (entries h)
       ∧ flow_checked (hass s) (flow s)).
Proof.
  intros Hstep Hdistinct. unfold flow_step. unfold_monad.
  destruct (step {| hass := h; flow := f |}) as [r0 [h0 f0]] eqn:Hrun.
  destruct (Hstep r0 _ eq_refl) as (Huids & Hlen & Hcreate & Hform).
  simpl in *. unfold unique_ids_distinct in *.
  destruct r0 as [[step_id req errors|t d|reason]|err].
  - intros [= <- <-]. simpl. rewrite Huids, Hlen.
    split; [done|]. split; [lia|]. intros a b c _. split; [done|].
    split; [done|]. by eapply Hform.
  - destruct (Hcreate t d eq_refl) as (u & Hu & Hnew).
    destruct (async_add_entry_spec t d h0 f0) as (h' & -> & Huids' & Hlen').
    intros [= <- <-]. simpl. rewrite Huids', Hlen', Huids, Hlen, Hu. simpl.
    split; [|split; [lia|done]].
    apply NoDup_app. split; [done|]. split; [|apply NoDup_singleton].
    intros x Hx. rewrite elem_of_cons, elem_of_nil. intros [->|[]]. done.
  - intros [= <- <-]. simpl. rewrite Huids, Hlen. split; [done|]. split; [lia|done].
  - destruct err; intros [= <- <-]; simpl; rewrite Huids, Hlen;
      (split; [done|]; split; [lia|done]).
Qed.

Lemma flow_step_user_no_input (s : FlowState) :
  flow_step (async_step_user None) s = (Ok (FormResult STEP_ID_USER false ∅), s).
Proof.
  unfold flow_step. unfold_monad. by rewrite async_step_user_no_input.
Qed.

Lemma flow_steps_inv (req : FlowRequest) (h : Hass) (f : WemoFlowHandler) :
  flow_checked h f →
  unique_ids_distinct (entries h) →
  unique_ids_distinct (entries (hass (flow_steps req {| hass := h; flow := f |}).2))
  ∧ (length (entries h)
     ≤ length (entries (hass (flow_steps req {| hass := h; flow := f |}).2))
     ≤ S (length (entries h)))%nat.
Proof.
  intros Hchecked Hdistinct. destruct req as [d|d|info confirmed]; simpl.
  - destruct (flow_step (async_step_import (Some d)) _) as [r s] eqn:Hrun.
    apply flow_step_inv in Hrun as (Hinv & Hlen & _); [done| |done].
    intros r0 s0 Hstep. apply async_step_user_post in Hstep.
    by eapply step_post_flow_post.
  - unfold mbind, M_bind, bind. rewrite flow_step_user_no_input.
    destruct (flow_step (async_step_user (Some d)) _) as [r s] eqn:Hrun.
    apply flow_step_inv in Hrun as (Hinv & Hlen & _); [done| |done].
    intros r0 s0 Hstep. apply async_step_user_post in Hstep.
    by eapply step_post_flow_post.
  - unfold mbind, M_bind, bind.
    destruct (flow_step (async_step_ssdp info) _) as [r [h1 f1]] eqn:Hrun.
    apply flow_step_inv in Hrun as (Hinv & Hlen & Hform); [| |done].
    2:{ intros r0 s0 Hstep. by apply async_step_ssdp_post in Hstep. }
    simpl in *.
    destruct r as [[step_id req errors|t d|reason]|err]; simpl; try done.
    destruct (confirmed && bool_decide (step_id = STEP_ID_CONFIRM)); simpl; [|done].
    destruct (Hform _ _ _ eq_refl) as (Huids & Hsame & Hchecked1).
    destruct (flow_step (async_step_confirm (Some ∅)) _) as [r s] eqn:Hrun.
    apply flow_step_inv in Hrun as (Hinv2 & Hlen2 & _); [| |done].
    2:{ intros r0 s0 Hstep. apply async_step_confirm_post in Hstep.
        by eapply step_post_flow_post. }
    simpl. split; [done|]. lia.
Qed.

Lemma new_flow_checked (h : Hass) (src : string) : flow_checked h (new_flow src).
Proof. by intros u. Qed.

(** A whole flow keeps the identities distinct and adds at most one record. *)
Lemma reconcile_inv (req : FlowRequest) (h : Hass) :
  unique_ids_distinct (entries h) →
  unique_ids_distinct (entries (reconcile req h).2)
  ∧ (length (entries h) ≤ length (entries (reconcile req h).2)
     ≤ S (length (entries h)))%nat.
Proof.
  intros Hdistinct. unfold reconcile.
  pose proof (flow_steps_inv req h (new_flow (flow_source_of req))
                (new_flow_checked h _) Hdistinct) as Hinv.
  by destruct (flow_steps req _) as [r s].
Qed.

Lemma reconcile_all_inv (reqs : list FlowRequest) (h : Hass) :
  unique_ids_distinct (entries h) →
  unique_ids_distinct (entries (reconcile_all reqs h).2).
Proof.
  revert h. induction reqs as [|req reqs IH]; intros h Hdistinct; [done|].
  simpl. unfold_monad.
  pose proof (reconcile_inv req h Hdistinct) as [Hinv _].
  destruct (reconcile req h) as [[r|err] h1]; simpl in *; by apply IH.
Qed.

Lemma union_default_port (d : gmap string value) (port : value) :
  d !! CONF_PORT = Some port → d ∪ {[CONF_PORT := VInt 0]} = d.
Proof.
  intros Hport. apply map_eq. intros k.
  destruct (d !! k) as [v|] eqn:Hk.
  - by apply lookup_union_Some_l.
  - rewrite lookup_union_r by done.
    apply lookup_singleton_ne. intros <-. congruence.
Qed.

Lemma has_port_nonempty (d : gmap string value) (port : value) :
  d !! CONF_PORT = Some port → d ≠ ∅.
Proof. intros Hport ->. by rewrite lookup_empty in Hport. Qed.

(** The user step under the flow manager, for a request whose device
    resolves and whose identity has a record: the record is updated in place
    and the flow ends as a duplicate. *)
Lemma flow_step_user_existing (d : gmap string value) (port : value)
    (h h1 : Hass) (f : WemoFlowHandler) (device : WeMoDevice) (i : nat)
    (e : ConfigEntry) :
  d !! CONF_PORT = Some port →
  not_unique_id f = true →
  async_get_wemo_device d false h = (Ok device, h1) →
  find_unique_id (serialnumber device) (entries h) = Some i →
  entries h !! i = Some e →
  flow_step (async_step_user (Some d)) {| hass := h; flow := f |}
  = (Ok (AbortResult "already_configured"),
     {| hass := with_entries h1 (<[i := with_data e (d ∪ data e)]> (entries h));
        flow := with_unique_id f (Some (serialnumber device)) |}).
Proof.
  intros Hport Hnot Hget Hfind He.
  pose proof (async_get_wemo_device_frame d false h) as Hframe.
  rewrite Hget in Hframe. simpl in Hframe. destruct Hframe as (Hes & _).
  unfold flow_step. unfold_monad.
  rewrite (async_step_user_connected (Some d) h h1 f device); simpl;
    rewrite ?(union_default_port d port) by done;
    [|by eapply has_port_nonempty|done].
  rewrite Hnot.
  rewrite (set_unique_id_and_update_present d _ h1 f i e) by (by rewrite Hes).
  by rewrite Hes.
Qed.

(** The same step when the identity has no record yet: a record is added. *)
Lemma flow_step_user_new (d : gmap string value) (port : value)
    (h h1 : Hass) (f : WemoFlowHandler) (device : WeMoDevice) :
  d !! CONF_PORT = Some port →
  not_unique_id f = true →
  async_get_wemo_device d false h = (Ok device, h1) →
  find_unique_id (serialnumber device) (entries h) = None →
  flow_step (async_step_user (Some d)) {| hass := h; flow := f |}
  = (Ok (CreateEntryResult (name device) d),
     (async_add_entry (name device) d
        {| hass := h1; flow := with_unique_id f (Some (serialnumber device)) |}).2).
Proof.
  intros Hport Hnot Hget Hfind.
  pose proof (async_get_wemo_device_frame d false h) as Hframe.
  rewrite Hget in Hframe. simpl in Hframe. destruct Hframe as (Hes & _).
  unfold flow_step. unfold_monad.
  rewrite (async_step_user_connected (Some d) h h1 f device); simpl;
    rewrite ?(union_default_port d port) by done;
    [|by eapply has_port_nonempty|done].
  rewrite Hnot.
  rewrite (set_unique_id_and_update_absent d _ h1 f) by (by rewrite Hes).
  destruct (async_add_entry_spec (name device) d h1
              (with_unique_id f (Some (serialnumber device)))) as (h' & -> & _).
  done.
Qed.

(** Adding the record of an endpoint that is in the cache leaves the cache
    as it is: the setup of the new record finds the handle there. *)
Lemma async_add_entry_cache (t : string) (d : gmap string value) (host port : value)
    (device : WeMoDevice) (h : Hass) (f : WemoFlowHandler) :
  d !! CONF_HOST = Some host →
  d !! CONF_PORT = Some port →
  pywemo_wemodevice_cache h !! cache_key host port = Some device →
  pywemo_wemodevice_cache (hass (async_add_entry t d {| hass := h; flow := f |}).2)
  = pywemo_wemodevice_cache h.
Proof.
  intros Hhost Hport Hhit.
  unfold async_add_entry, get_flow, in_hass. unfold_monad. simpl.
  set (e := {| entry_id := _ |}). set (h2 := with_entry_counter _ _).
  assert (entries h2 !! length (entries h) = Some e) as Hentry.
  { subst h2. simpl. by rewrite list_lookup_middle. }
  assert (async_get_wemo_device (data e) false h2 = (Ok device, h2)) as Hget.
  { by rewrite (async_get_wemo_device_hit d host port device false h2). }
  assert (pywemo_wemodevice_cache h2 = pywemo_wemodevice_cache h) as Hcache by done.
  clearbody h2.
  unfold async_setup_entry, async_update_entry, async_create_task, deref.
  unfold_monad. rewrite Hentry, Hget.
  destruct (decide (data e !! CONF_DOMAIN = Some _)); simpl; [done|].
  rewrite Hentry. by destruct (decide (data e = _)).
Qed.

Lemma get_wemo_device_resolved (host port : value) (url : string)
    (device : WeMoDevice) :
  setup_url_for_address host port = Some url →
  device_from_description url = Ok device →
  _get_wemo_device host port
  = (Ok device, [CallSetupUrl host port; CallDescription url]).
Proof. intros Hurl Hfetch. unfold _get_wemo_device. by rewrite Hurl, Hfetch. Qed.

(** The same endpoint imported twice into a store without records: the
    first flow creates the record, the second one is rejected. *)
Lemma reconcile_import_twice (h : Hass) (host port : value) (url : string)
    (device : WeMoDevice) :
  entries h = [] →
  pywemo_wemodevice_cache h !! cache_key host port = None →
  setup_url_for_address host port = Some url →
  device_from_description url = Ok device →
  (reconcile (ImportRequest {[CONF_HOST := host; CONF_PORT := port]}) h).1
    = Ok (CreateEntryResult (name device) {[CONF_HOST := host; CONF_PORT := port]})
  ∧ (reconcile (ImportRequest {[CONF_HOST := host; CONF_PORT := port]})
       (reconcile (ImportRequest {[CONF_HOST := host; CONF_PORT := port]}) h).2).1
    = Ok (AbortResult "already_configured")
  ∧ uids (reconcile (ImportRequest {[CONF_HOST := host; CONF_PORT := port]})
            (reconcile (ImportRequest {[CONF_HOST := host; CONF_PORT := port]}) h).2).2
    = [serialnumber device]
  ∧ length (entries
       (reconcile (ImportRequest {[CONF_HOST := host; CONF_PORT := port]})
          (reconcile (ImportRequest {[CONF_HOST := host; CONF_PORT := port]}) h).2).2)
    = 1%nat.
Proof.
  intros Hempty Hmiss Hurl Hfetch.
  set (d := ({[CONF_HOST := host; CONF_PORT := port]} : gmap string value)).
  assert (d !! CONF_HOST = Some host) as Hhost by apply lookup_insert_eq.
  assert (d !! CONF_PORT = Some port) as Hport.
  { subst d. rewrite lookup_insert_ne by done. apply lookup_singleton_eq. }
  pose proof (get_wemo_device_resolved host port url device Hurl Hfetch) as Hget.
  pose proof (async_get_wemo_device_miss d host port device _ false h
                Hhost Hport Hmiss Hget) as Hres.
  set (h1 := with_cache _ _) in Hres.
  assert (pywemo_wemodevice_cache h1 !! cache_key host port = Some device) as Hhit1.
  { subst h1. simpl. apply lookup_insert_eq. }
  (* first flow *)
  assert (find_unique_id (serialnumber device) (entries h) = None) as Hfind.
  { by rewrite Hempty. }
  pose proof (flow_step_user_new d port h h1 (new_flow SOURCE_IMPORT) device
                Hport eq_refl Hres Hfind) as Hfirst.
  destruct (async_add_entry_spec (name device) d h1
              (with_unique_id (new_flow SOURCE_IMPORT) (Some (serialnumber device))))
    as (h2 & Hadd & Huids2 & Hlen2).
  pose proof (async_add_entry_cache (name device) d host port device h1
                (with_unique_id (new_flow SOURCE_IMPORT) (Some (serialnumber device)))
                Hhost Hport Hhit1) as Hcache2.
  rewrite Hadd in Hfirst, Hcache2. simpl in Hfirst, Hcache2.
  assert (reconcile (ImportRequest d) h
          = (Ok (CreateEntryResult (name device) d), h2)) as ->.
  { unfold reconcile. simpl. unfold async_step_import. by rewrite Hfirst. }
  simpl. split; [done|].
  assert (entries h1 = []) as Hempty1 by done.
  rewrite Hempty1 in Huids2, Hlen2. simpl in Huids2, Hlen2.
  (* second flow *)
  assert (async_get_wemo_device d false h2 = (Ok device, h2)) as Hres2.
  { rewrite (async_get_wemo_device_hit d host port device false h2); try done.
    by rewrite Hcache2. }
  destruct (find_unique_id (serialnumber device) (entries h2)) as [i|] eqn:Hfind2.
  2:{ apply find_unique_id_None in Hfind2. rewrite Huids2 in Hfind2.
      destruct Hfind2. by left. }
  destruct (find_unique_id_Some _ _ _ Hfind2) as (e & He & _).
  pose proof (flow_step_user_existing d port h2 h2 (new_flow SOURCE_IMPORT) device i e
                Hport eq_refl Hres2 Hfind2 He) as Hsecond.
  assert (reconcile (ImportRequest d) h2
          = (Ok (AbortResult "already_configured"),
             with_entries h2 (<[i := with_data e (d ∪ data e)]> (entries h2)))) as ->.
  { unfold reconcile. simpl. unfold async_step_import. by rewrite Hsecond. }
  simpl. rewrite omap_unique_id_insert, length_insert by done. done.
Qed.

(** The user step for any request whose device resolves to an identity that
    has a record. *)
Lemma flow_step_user_duplicate (d : gmap string value)
    (h h1 : Hass) (f : WemoFlowHandler) (device : WeMoDevice) (i : nat)
    (e : ConfigEntry) :
  d ≠ ∅ →
  not_unique_id f = true →
  async_get_wemo_device (d ∪ {[CONF_PORT := VInt 0]}) false h = (Ok device, h1) →
  find_unique_id (serialnumber device) (entries h) = Some i →
  entries h !! i = Some e →
  flow_step (async_step_user (Some d)) {| hass := h; flow := f |}
  = (Ok (AbortResult "already_configured"),
     {| hass := with_entries h1 (<[i := with_data e (d ∪ data e)]> (entries h));
        flow := with_unique_id f (Some (serialnumber device)) |}).
Proof.
  intros Hinput Hnot Hget Hfind He.
  pose proof (async_get_wemo_device_frame (d ∪ {[CONF_PORT := VInt 0]}) false h)
    as Hframe.
  rewrite Hget in Hframe. simpl in Hframe. destruct Hframe as (Hes & _).
  unfold flow_step. unfold_monad.
  rewrite (async_step_user_connected (Some d) h h1 f device) by done.
  rewrite Hnot. simpl.
  rewrite (set_unique_id_and_update_present d _ h1 f i e) by (by rewrite Hes).
  by rewrite Hes.
Qed.

Lemma async_step_ssdp_duplicate (info : DiscoveryInfo) (h : Hass)
    (f : WemoFlowHandler) (i : nat) (e : ConfigEntry) :
  find_unique_id (upnp_serial info) (entries h) = Some i →
  entries h !! i = Some e →
  ∃ s, async_step_ssdp info {| hass := h; flow := f |}
       = (Raise (AbortFlow "already_configured"), s)
       ∧ entries (hass s)
         = <[i := with_data e
                    ({[CONF_HOST := location_hostname info;
                       CONF_PORT := location_port info]} ∪ data e)]> (entries h).
Proof.
  intros Hfind He.
  unfold async_step_ssdp, in_hass, modify_flow.
  unfold mbind, M_bind, bind at 1 2, modify. simpl.
  set (h0 := with_discovery_info h _). set (f0 := with_context f _ _).
  unfold bind.
  rewrite (set_unique_id_and_update_present _ _ h0 f0 i e) by done.
  eexists. split; [done|]. done.
Qed.

(** A request about an identity that has a record ends as a duplicate: the
    record is rewritten in place with the address fields of the request and
    nothing is created. *)
Lemma reconcile_duplicate (req : FlowRequest) (h : Hass) (uid : string)
    (i : nat) (e : ConfigEntry) :
  request_identity req h = Some uid →
  find_unique_id uid (entries h) = Some i →
  entries h !! i = Some e →
  (reconcile req h).1 = Ok (AbortResult "already_configured")
  ∧ entries (reconcile req h).2
    = <[i := with_data e (request_updates req ∪ data e)]> (entries h).
Proof.
  intros Hid Hfind He.
  assert (∀ d src, request_identity (ImportRequest d) h = Some uid →
            ∃ s, flow_step (async_step_user (Some d))
                   {| hass := h; flow := new_flow src |}
                 = (Ok (AbortResult "already_configured"), s)
                 ∧ entries (hass s) = <[i := with_data e (d ∪ data e)]> (entries h))
    as Huser.
  { intros d src. simpl. unfold truthy_dict.
    destruct (decide (d = ∅)) as [->|Hinput].
    { by rewrite bool_decide_eq_true_2. }
    rewrite bool_decide_eq_false_2 by done. simpl.
    destruct (async_get_wemo_device (d ∪ {[CONF_PORT := VInt 0]}) false h)
      as [[device|err] h1] eqn:Hget; simpl; [|done].
    intros [= <-]. eexists. split; [by eapply flow_step_user_duplicate|done]. }
  unfold reconcile. destruct req as [d|d|info confirmed];
    cbn [flow_steps flow_source_of request_updates].
  - destruct (Huser d SOURCE_IMPORT Hid) as (s & Hrun & Hes).
    unfold async_step_import. by rewrite Hrun.
  - destruct (Huser d SOURCE_USER Hid) as (s & Hrun & Hes).
    unfold mbind, M_bind, bind. rewrite flow_step_user_no_input. by rewrite Hrun.
  - simpl in Hid. injection Hid as <-.
    destruct (async_step_ssdp_duplicate info h (new_flow SOURCE_SSDP) i e Hfind He)
      as (s & Hrun & Hes).
    unfold flow_step. unfold_monad. by rewrite Hrun.
Qed.

(** The same static entry twice: one record. *)
Lemma setup_component_twice (s host : string) (port : Z) (url : string)
    (device : WeMoDevice) :
  coerce_host_port s = Ok (host, port) →
  setup_url_for_address (VStr host) (VInt port) = Some url →
  device_from_description url = Ok device →
  (setup_component [s; s] empty_hass).1 = Ok true
  ∧ length (entries (setup_component [s; s] empty_hass).2) = 1%nat
  ∧ uids (setup_component [s; s] empty_hass).2 = [serialnumber device].
Proof.
  intros Hs Hurl Hfetch. unfold setup_component. simpl. rewrite Hs.
  unfold async_setup, run_scheduled_flows, async_create_task. unfold_monad. simpl.
  unfold_monad.
  set (h0 := with_tasks _ _).
  pose proof (reconcile_import_twice h0 (VStr host) (VInt port) url device
                eq_refl (lookup_empty _) Hurl Hfetch) as (H1 & H2 & H3 & H4).
  destruct (reconcile _ h0) as [[r1|e1] h1]; simpl in *; [|done].
  destruct (reconcile _ h1) as [[r2|e2] h2]; simpl in *; done.
Qed.

End ReconcilerLemmas.

Section ReconcilerProperties.
Context `{!Pywemo}.

Lemma address_fields (host port : value) (old : gmap string value) :
  ({[CONF_HOST := host; CONF_PORT := port]} ∪ old) !! CONF_HOST = Some host
  ∧ ({[CONF_HOST := host; CONF_PORT := port]} ∪ old) !! CONF_PORT = Some port
  ∧ ∀ k, k ≠ CONF_HOST → k ≠ CONF_PORT →
         ({[CONF_HOST := host; CONF_PORT := port]} ∪ old) !! k = old !! k.
Proof.
  split; [|split].
  - apply lookup_union_Some_l. apply lookup_insert_eq.
  - apply lookup_union_Some_l. rewrite lookup_insert_ne by done.
    apply lookup_singleton_eq.
  - intros k Hhost Hport. apply lookup_union_r.
    rewrite lookup_insert_ne by done. by apply lookup_singleton_ne.
Qed.



End ReconcilerProperties.



Section DedupProperties.
Context `{!Pywemo}.

(** C2: a request whose identity already has a record is rejected as
    "already_configured" and creates no record, in
    [_async_set_unique_id_and_update] and in every flow that goes through
    it; after any sequence of flows the store holds at most one record per
    identity; and the same static entry supplied twice yields exactly one
    record. *)
Theorem unique_id_dedup :
  (∀ (user_input : gmap string value) (uid : string) (h : Hass)
     (f : WemoFlowHandler),
     uid ∈ omap unique_id (entries h) →
     (_async_set_unique_id_and_update user_input uid {| hass := h; flow := f |}).1
       = Raise (AbortFlow "already_configured")
     ∧ omap unique_id
         (entries (hass (_async_set_unique_id_and_update user_input uid
                           {| hass := h; flow := f |}).2))
       = omap unique_id (entries h))
  ∧ (∀ (req : FlowRequest) (h : Hass) (uid : string),
       request_identity req h = Some uid →
       uid ∈ omap unique_id (entries h) →
       (reconcile req h).1 = Ok (AbortResult "already_configured")
       ∧ length (entries (reconcile req h).2) = length (entries h)
       ∧ omap unique_id (entries (reconcile req h).2) = omap unique_id (entries h))
  ∧ (∀ (reqs : list FlowRequest) (h : Hass),
       unique_ids_distinct (entries h) →
       unique_ids_distinct (entries (reconcile_all reqs h).2))
  ∧ (∀ (s host : string) (port : Z) (url : string) (device : WeMoDevice),
       coerce_host_port s = Ok (host, port) →
       setup_url_for_address (VStr host) (VInt port) = Some url →
       device_from_description url = Ok device →
       (setup_component [s; s] empty_hass).1 = Ok true
       ∧ length (entries (setup_component [s; s] empty_hass).2) = 1%nat
       ∧ omap unique_id (entries (setup_component [s; s] empty_hass).2)
         = [serialnumber device]).
Proof.
  split; [|split; [|split]].
  - intros user_input uid h f Hin.
    destruct (find_unique_id uid (entries h)) as [i|] eqn:Hfind.
    2:{ by apply find_unique_id_None in Hfind. }
    destruct (find_unique_id_Some _ _ _ Hfind) as (e & He & _).
    rewrite (set_unique_id_and_update_present user_input uid h f i e) by done.
    simpl. by rewrite omap_unique_id_insert.
  - intros req h uid Hid Hin.
    destruct (find_unique_id uid (entries h)) as [i|] eqn:Hfind.
    2:{ by apply find_unique_id_None in Hfind. }
    destruct (find_unique_id_Some _ _ _ Hfind) as (e & He & _).
    destruct (reconcile_duplicate req h uid i e Hid Hfind He) as [-> ->].
    by rewrite length_insert, omap_unique_id_insert.
  - apply reconcile_all_inv.
  - apply setup_component_twice.
Qed.

End DedupProperties.

(** [test_static_duplicate_static_entry], and the import of the endpoint of
    a device that has a record. *)
Lemma unique_id_dedup_witness :
  (reconcile (H := pywemo_mock "Insight") (ImportRequest MOCK_FLOW_DATA)
     (hass_with [old_entry] [])).1 = Ok (AbortResult "already_configured")
  ∧ length (entries (reconcile (H := pywemo_mock "Insight")
                       (ImportRequest MOCK_FLOW_DATA)
                       (hass_with [old_entry] [])).2) = 1%nat
  ∧ unique_ids_distinct
      (entries (reconcile_all (H := pywemo_mock "Insight")
                  [ImportRequest MOCK_FLOW_DATA; ImportRequest MOCK_FLOW_DATA]
                  empty_hass).2)
  ∧ length (entries (setup_component (H := pywemo_mock "Insight")
                       ["127.0.0.1:50000"; "127.0.0.1:50000"] empty_hass).2)
    = 1%nat
  ∧ omap unique_id
      (entries (setup_component (H := pywemo_mock "Insight")
                  ["127.0.0.1:50000"; "127.0.0.1:50000"] empty_hass).2)
    = [MOCK_SERIAL_NUMBER].
Proof.
  destruct (unique_id_dedup (H := pywemo_mock "Insight"))
    as (_ & Hdup & Hinv & Htwice).
  destruct (Hdup (ImportRequest MOCK_FLOW_DATA) (hass_with [old_entry] [])
              MOCK_SERIAL_NUMBER) as (Hres & Hlen & _).
  { vm_compute. reflexivity. }
  { simpl. apply elem_of_cons. left. reflexivity. }
  destruct (Htwice "127.0.0.1:50000" MOCK_HOST MOCK_PORT MOCK_URL
              (pywemo_device "Insight") eq_refl eq_refl eq_refl)
    as (_ & Hone & Huid).
  split; [exact Hres|]. split; [exact Hlen|]. split; [|split].
  - apply Hinv. apply NoDup_nil. exact I.
  - exact Hone.
  - exact Huid.
Defined.

(** * Further properties *)

(** ** Static configuration parsing: accepted endpoints *)

Lemma split_first_Some (sep : ascii) (s h t : string) :
  Str.split_first sep s = Some (h, t) →
  s = h +:+ String sep t ∧ Str.contains sep h = false.
Proof.
  revert h. induction s as [|c s IH]; intros h; simpl; [done|].
  destruct (Ascii.eqb c sep) eqn:Hc.
  - apply Ascii.eqb_eq in Hc as ->. by intros [= <- <-].
  - destruct (Str.split_first sep s) as [[h' t']|]; [|done].
    intros [= <- <-]. destruct (IH h' eq_refl) as [-> Hh].
    split; [done|]. simpl. by rewrite Hc.
Qed.

Lemma split_first_None (sep : ascii) (s : string) :
  Str.split_first sep s = None → Str.contains sep s = false.
Proof.
  induction s as [|c s IH]; simpl; [done|].
  destruct (Ascii.eqb c sep); [done|].
  destruct (Str.split_first sep s) as [[h t]|]; [done|]. by intros _; apply IH.
Qed.

Lemma truthy_str_false (s : string) : truthy_str s = false → s = "".
Proof. by destruct s. Qed.

(** X1: whatever [coerce_host_port] accepts has a host that is not empty and
    holds no colon; the port is 0 exactly when the entry is the bare host or
    the host followed by a lone colon, and otherwise it is the validated
    text after the first colon, a number from 1 to 65535. *)
Theorem coerce_host_port_accepted (s host : string) (port : Z) :
  coerce_host_port s = Ok (host, port) →
  host ≠ ""
  ∧ Str.contains ":" host = false
  ∧ ((port = 0 ∧ (s = host ∨ s = host +:+ ":"))
     ∨ (∃ rest, rest ≠ "" ∧ s = host +:+ ":" +:+ rest
                ∧ cv_port rest = Ok port ∧ 1 ≤ port ≤ 65535)).
Proof.
  unfold coerce_host_port, Str.partition.
  destruct (Str.split_first ":" s) as [[h t]|] eqn:Hsplit.
  - apply split_first_Some in Hsplit as [-> Hh].
    destruct (truthy_str h) eqn:Hhost; simpl; [|done].
    destruct (truthy_str t) eqn:Hrest.
    + destruct (cv_port t) as [p|] eqn:Hport; [|done].
      intros [= <- <-]. split; [by destruct h|]. split; [done|]. right.
      exists t. split; [by destruct t|]. split; [done|]. split; [done|].
      by apply cv_port_range in Hport.
    + intros [= <- <-]. apply truthy_str_false in Hrest as ->.
      split; [by destruct h|]. split; [done|]. left. auto.
  - apply split_first_None in Hsplit.
    destruct (truthy_str s) eqn:Hhost; simpl; [|done].
    intros [= <- <-]. split; [by destruct s|]. split; [done|]. left. auto.
Qed.

Lemma coerce_host_port_accepted_witness :
  "127.0.0.1" ≠ ""
  ∧ Str.contains ":" "127.0.0.1" = false
  ∧ ((50000 = 0 ∧ ("127.0.0.1:50000" = "127.0.0.1"
                   ∨ "127.0.0.1:50000" = "127.0.0.1" +:+ ":"))
     ∨ (∃ rest, rest ≠ "" ∧ "127.0.0.1:50000" = "127.0.0.1" +:+ ":" +:+ rest
                ∧ cv_port rest = Ok 50000 ∧ 1 ≤ 50000 ≤ 65535)).
Proof. apply (coerce_host_port_accepted "127.0.0.1:50000"). reflexivity. Defined.

(** ** Resolution cache: what a call leaves behind *)

Section CacheFurther.
Context `{!Pywemo}.

Lemma async_get_wemo_device_ok_inv (config_data : gmap string value)
    (h h1 : Hass) (device : WeMoDevice) :
  async_get_wemo_device config_data false h = (Ok device, h1) →
  ∃ host port,
    config_data !! CONF_HOST = Some host
    ∧ config_data !! CONF_PORT = Some port
    ∧ pywemo_wemodevice_cache h1 !! cache_key host port = Some device.
Proof.
  unfold async_get_wemo_device, getitem, cache_lookup, executor_get_wemo_device.
  destruct (config_data !! CONF_HOST) as [host|]; [|done].
  destruct (config_data !! CONF_PORT) as [port|]; [|done].
  unfold_monad.
  destruct (pywemo_wemodevice_cache h !! cache_key host port) as [d|] eqn:Hc.
  - intros [= <- <-]. eauto.
  - destruct (_get_wemo_device host port) as [[d|e] calls]; [|done].
    intros [= <- <-]. exists host, port. simpl. by rewrite lookup_insert_eq.
Qed.

(** X2: after a call without [remove_cache] that returned a device, a
    further call with the same configuration, with or without
    [remove_cache], returns the same device from the cache and makes no call
    into pywemo; with [remove_cache] the further call also removes the
    handle, without it the handle stays. *)
Theorem async_get_wemo_device_once (config_data : gmap string value)
    (h h1 : Hass) (device : WeMoDevice) (remove_cache : bool) :
  async_get_wemo_device config_data false h = (Ok device, h1) →
  (async_get_wemo_device config_data remove_cache h1).1 = Ok device
  ∧ net_log (async_get_wemo_device config_data remove_cache h1).2 = net_log h1
  ∧ ∃ host port,
      config_data !! CONF_HOST = Some host
      ∧ config_data !! CONF_PORT = Some port
      ∧ pywemo_wemodevice_cache (async_get_wemo_device config_data remove_cache h1).2
          !! cache_key host port
        = (if remove_cache then None else Some device).
Proof.
  intros Hfirst.
  destruct (async_get_wemo_device_ok_inv _ _ _ _ Hfirst)
    as (host & port & Hhost & Hport & Hhit).
  rewrite (async_get_wemo_device_hit config_data host port device remove_cache h1)
    by done.
  simpl. split; [done|]. split; [by destruct remove_cache|].
  exists host, port. split; [done|]. split; [done|].
  destruct remove_cache; simpl; [apply lookup_delete_eq | done].
Qed.

(** X3: a failed call caches nothing.  Whatever the variant, when the call
    raises, the cache, the records, the device registry and the scheduled
    tasks are as before, and the error is a missing host or port key or the
    error of the resolver. *)
Theorem async_get_wemo_device_failure (config_data : gmap string value)
    (remove_cache : bool) (h h1 : Hass) (err : exn) :
  async_get_wemo_device config_data remove_cache h = (Raise err, h1) →
  pywemo_wemodevice_cache h1 = pywemo_wemodevice_cache h
  ∧ entries h1 = entries h ∧ devices h1 = devices h ∧ tasks h1 = tasks h
  ∧ ((err = KeyError CONF_HOST ∧ config_data !! CONF_HOST = None ∧ h1 = h)
     ∨ (err = KeyError CONF_PORT ∧ config_data !! CONF_PORT = None ∧ h1 = h)
     ∨ (∃ host port,
          config_data !! CONF_HOST = Some host
          ∧ config_data !! CONF_PORT = Some port
          ∧ pywemo_wemodevice_cache h !! cache_key host port = None
          ∧ (_get_wemo_device host port).1 = Raise err)).
Proof.
  unfold async_get_wemo_device, getitem, cache_lookup, executor_get_wemo_device.
  destruct (config_data !! CONF_HOST) as [host|] eqn:Hhost.
  2:{ intros [= <- <-]. repeat split; auto. }
  destruct (config_data !! CONF_PORT) as [port|] eqn:Hport.
  2:{ intros [= <- <-]. repeat split; auto. }
  unfold_monad.
  destruct remove_cache;
    destruct (pywemo_wemodevice_cache h !! cache_key host port) as [d|] eqn:Hc;
    simpl; try done;
    destruct (_get_wemo_device host port) as [[d|e] calls] eqn:Hget; try done;
    intros [= <- <-]; simpl; rewrite ?delete_id by done;
    (repeat split; try done); right; right; exists host, port; by rewrite Hget.
Qed.

End CacheFurther.

Lemma async_get_wemo_device_once_witness :
  (async_get_wemo_device (H := pywemo_mock "Insight") MOCK_FLOW_DATA true
     (async_get_wemo_device (H := pywemo_mock "Insight") MOCK_FLOW_DATA false
        empty_hass).2).1 = Ok (pywemo_device "Insight")
  ∧ net_log (async_get_wemo_device (H := pywemo_mock "Insight") MOCK_FLOW_DATA true
               (async_get_wemo_device (H := pywemo_mock "Insight") MOCK_FLOW_DATA false
                  empty_hass).2).2
    = [CallSetupUrl (VStr MOCK_HOST) (VInt MOCK_PORT); CallDescription MOCK_URL].
Proof.
  destruct (async_get_wemo_device_once (H := pywemo_mock "Insight") MOCK_FLOW_DATA
              empty_hass
              (async_get_wemo_device (H := pywemo_mock "Insight") MOCK_FLOW_DATA false
                 empty_hass).2
              (pywemo_device "Insight") true) as (Hres & Hlog & _).
  { vm_compute. reflexivity. }
  split; [exact Hres|]. rewrite Hlog. vm_compute. reflexivity.
Defined.

Lemma async_get_wemo_device_failure_witness :
  pywemo_wemodevice_cache
    (async_get_wemo_device (H := pywemo_failed_connection) MOCK_FLOW_DATA false
       empty_hass).2 = ∅
  ∧ entries (async_get_wemo_device (H := pywemo_failed_connection) MOCK_FLOW_DATA false
               empty_hass).2 = [].
Proof.
  destruct (async_get_wemo_device_failure (H := pywemo_failed_connection)
              MOCK_FLOW_DATA false empty_hass
              (async_get_wemo_device (H := pywemo_failed_connection) MOCK_FLOW_DATA
                 false empty_hass).2
              (ConnectError
                 "Unable to access WeMo at http://127.0.0.1:50000/setup.xml ()"
                 (RequestsConnectionError ""))) as (Hcache & Hes & _).
  { vm_compute. reflexivity. }
  split; [exact Hcache | exact Hes].
Defined.

(** ** Entry setup: failure and repetition *)

Section SetupFurther.
Context `{!Pywemo}.

(** The state a successful setup leaves. *)
Lemma async_setup_entry_ok (h h1 : Hass) (entry : nat) (e : ConfigEntry)
    (device : WeMoDevice) :
  entries h !! entry = Some e →
  async_get_wemo_device (data e) false h = (Ok device, h1) →
  async_setup_entry entry h
  = (Ok true,
     with_tasks
       (with_entries h1
          (<[entry := with_data e
                        (<[CONF_DOMAIN := VStr (classify (model_name device))]> (data e))]>
             (entries h)))
       (tasks h ++ [ForwardEntrySetup entry (classify (model_name device))])).
Proof.
  intros Hentry Hget.
  pose proof (async_get_wemo_device_frame (data e) false h) as Hframe.
  rewrite Hget in Hframe. simpl in Hframe. destruct Hframe as (Hes & _ & Hts & _).
  unfold async_setup_entry, async_update_entry, async_create_task, deref.
  unfold_monad. rewrite Hentry, Hget.
  destruct (decide (data e !! CONF_DOMAIN
                    = Some (VStr (classify (model_name device))))) as [Heq|Hne].
  - simpl. rewrite insert_id, with_data_id, list_insert_id by done.
    by rewrite <- Hes, with_entries_id, Hts.
  - rewrite Hes, Hentry.
    destruct (decide (data e = _)) as [Hsame|Hdiff]; simpl.
    + rewrite <- Hsame, with_data_id, list_insert_id by done.
      by rewrite <- Hes, with_entries_id, Hts.
    + by rewrite Hes, Hts.
Qed.

(** X4: when the device cannot be resolved, setting the record up raises the
    error of the resolver; no record is rewritten and nothing is forwarded
    to a platform. *)
Theorem async_setup_entry_not_ready (h h1 : Hass) (entry : nat) (e : ConfigEntry)
    (err : exn) :
  entries h !! entry = Some e →
  async_get_wemo_device (data e) false h = (Raise err, h1) →
  async_setup_entry entry h = (Raise err, h1)
  ∧ entries h1 = entries h
  ∧ tasks h1 = tasks h
  ∧ pywemo_wemodevice_cache h1 = pywemo_wemodevice_cache h.
Proof.
  intros Hentry Hget.
  destruct (async_get_wemo_device_failure _ _ _ _ _ Hget) as (Hc & Hes & _ & Hts & _).
  unfold async_setup_entry, deref. unfold_monad. by rewrite Hentry, Hget.
Qed.

(** X5: setting a record up is stable.  After a successful setup the stored
    category is the classified one, and setting the same record up again
    resolves nothing anew, leaves every record as it is and forwards to the
    same platform. *)
Theorem async_setup_entry_again (h h1 : Hass) (entry : nat) (e : ConfigEntry)
    (device : WeMoDevice) :
  entries h !! entry = Some e →
  async_get_wemo_device (data e) false h = (Ok device, h1) →
  ∃ e1,
    entries (async_setup_entry entry h).2 !! entry = Some e1
    ∧ data e1 !! CONF_DOMAIN = Some (VStr (classify (model_name device)))
    ∧ (async_setup_entry entry (async_setup_entry entry h).2).1 = Ok true
    ∧ entries (async_setup_entry entry (async_setup_entry entry h).2).2
      = entries (async_setup_entry entry h).2
    ∧ net_log (async_setup_entry entry (async_setup_entry entry h).2).2
      = net_log (async_setup_entry entry h).2
    ∧ tasks (async_setup_entry entry (async_setup_entry entry h).2).2
      = tasks h ++ [ForwardEntrySetup entry (classify (model_name device));
                    ForwardEntrySetup entry (classify (model_name device))].
Proof.
  intros Hentry Hget.
  destruct (async_get_wemo_device_ok_inv _ _ _ _ Hget)
    as (host & port & Hhost & Hport & Hhit).
  rewrite (async_setup_entry_ok h h1 entry e device) by done.
  set (e1 := with_data e _). set (h2 := with_tasks _ _). simpl.
  assert (entries h2 !! entry = Some e1) as Hentry2.
  { subst h2. simpl. apply list_lookup_insert_eq. by eapply lookup_lt_Some. }
  assert (async_get_wemo_device (data e1) false h2 = (Ok device, h2)) as Hget2.
  { apply (async_get_wemo_device_hit (data e1) host port device false h2).
    - subst e1. simpl. by rewrite lookup_insert_ne.
    - subst e1. simpl. by rewrite lookup_insert_ne.
    - done. }
  exists e1. split; [done|]. split; [apply lookup_insert_eq|].
  rewrite (async_setup_entry_ok h2 h2 entry e1 device) by done. simpl.
  split; [done|]. split; [|split; [done|]].
  - subst e1. simpl. rewrite insert_insert_eq.
    rewrite list_insert_insert_eq. done.
  - by rewrite <- app_assoc.
Qed.

End SetupFurther.

(** [test_get_wemo_device_failed_connection]. *)
Lemma async_setup_entry_not_ready_witness :
  (async_setup_entry (H := pywemo_failed_connection) 0 (hass_with [old_entry] [])).1
    = Raise (ConnectError
               "Unable to access WeMo at http://127.0.0.1:50000/setup.xml ()"
               (RequestsConnectionError ""))
  ∧ entries (async_setup_entry (H := pywemo_failed_connection) 0
               (hass_with [old_entry] [])).2 = [old_entry]
  ∧ tasks (async_setup_entry (H := pywemo_failed_connection) 0
             (hass_with [old_entry] [])).2 = [].
Proof.
  destruct (async_setup_entry_not_ready (H := pywemo_failed_connection)
              (hass_with [old_entry] [])
              (async_get_wemo_device (H := pywemo_failed_connection)
                 (data old_entry) false (hass_with [old_entry] [])).2
              0%nat old_entry
              (ConnectError
                 "Unable to access WeMo at http://127.0.0.1:50000/setup.xml ()"
                 (RequestsConnectionError "")) eq_refl)
    as (Hrun & Hes & Hts & _).
  { vm_compute. reflexivity. }
  rewrite Hrun. simpl. split; [reflexivity|]. split; [exact Hes | exact Hts].
Defined.

Lemma async_setup_entry_again_witness :
  ∃ e1,
    entries (async_setup_entry (H := pywemo_mock "Humidifier") 0
               (hass_with [old_entry] [])).2 !! 0%nat = Some e1
    ∧ data e1 !! CONF_DOMAIN = Some (VStr FAN_DOMAIN)
    ∧ entries (async_setup_entry (H := pywemo_mock "Humidifier") 0
                 (async_setup_entry (H := pywemo_mock "Humidifier") 0
                    (hass_with [old_entry] [])).2).2
      = entries (async_setup_entry (H := pywemo_mock "Humidifier") 0
                   (hass_with [old_entry] [])).2.
Proof.
  destruct (async_setup_entry_again (H := pywemo_mock "Humidifier")
              (hass_with [old_entry] [])
              (async_get_wemo_device (H := pywemo_mock "Humidifier")
                 (data old_entry) false (hass_with [old_entry] [])).2
              0%nat old_entry (pywemo_device "Humidifier") eq_refl)
    as (e1 & He1 & Hdom & _ & Hes & _).
  { vm_compute. reflexivity. }
  exists e1. split; [exact He1|]. split; [exact Hdom | exact Hes].
Defined.

(** ** Migration, unloading and the binary sensor platform *)

(** X6: migration never touches the records, the device registry or the
    cache, and it answers True, scheduling nothing, exactly for the records
    whose version is not 1. *)
Theorem async_migrate_entry_frame (h : Hass) (entry : nat) (e : ConfigEntry) :
  entries h !! entry = Some e →
  entries (async_migrate_entry entry h).2 = entries h
  ∧ devices (async_migrate_entry entry h).2 = devices h
  ∧ pywemo_wemodevice_cache (async_migrate_entry entry h).2 = pywemo_wemodevice_cache h
  ∧ ((async_migrate_entry entry h).1 = Ok true ↔ version e ≠ 1)
  ∧ (version e ≠ 1 → async_migrate_entry entry h = (Ok true, h)).
Proof.
  intros Hentry. unfold async_migrate_entry, async_create_task, deref.
  unfold_monad. rewrite Hentry.
  destruct (decide (version e = 1)) as [Hv|Hv].
  - destruct (forallb _ _); simpl; repeat split; try done.
  - simpl. repeat split; done.
Qed.

Lemma async_migrate_entry_frame_witness :
  entries (async_migrate_entry 0 (hass_with [old_entry] [migrated_device])).2
    = [old_entry]
  ∧ (async_migrate_entry 0 (hass_with [old_entry] [migrated_device])).1 = Ok true.
Proof.
  destruct (async_migrate_entry_frame (hass_with [old_entry] [migrated_device])
              0 old_entry eq_refl) as (Hes & _ & _ & [_ Htrue] & _).
  split; [exact Hes|]. apply Htrue. discriminate.
Defined.

Section PlatformProperties.
Context `{!Pywemo}.
Variable async_forward_entry_unload : nat → value → M Hass bool.

(** X7: a record that was never set up cannot be unloaded: without a stored
    category the unload raises [KeyError] and the host is not asked.  After a
    successful setup the unload asks the host for the platform the setup
    forwarded to. *)
Theorem async_unload_entry_after_setup (h h1 : Hass) (entry : nat)
    (e : ConfigEntry) (device : WeMoDevice) :
  entries h !! entry = Some e →
  async_get_wemo_device (data e) false h = (Ok device, h1) →
  (data e !! CONF_DOMAIN = None →
   async_unload_entry async_forward_entry_unload entry h
   = (Raise (KeyError CONF_DOMAIN), h))
  ∧ async_unload_entry async_forward_entry_unload entry (async_setup_entry entry h).2
    = async_forward_entry_unload entry (VStr (classify (model_name device)))
        (async_setup_entry entry h).2
  ∧ last (tasks (async_setup_entry entry h).2)
    = Some (ForwardEntrySetup entry (classify (model_name device))).
Proof.
  intros Hentry Hget. split; [|split].
  - intros Hnone. unfold async_unload_entry, deref, getitem. unfold_monad.
    by rewrite Hentry, Hnone.
  - rewrite (async_setup_entry_ok h h1 entry e device) by done. simpl.
    unfold async_unload_entry, deref, getitem. unfold_monad. simpl.
    rewrite list_lookup_insert_eq by (by eapply lookup_lt_Some). simpl.
    by rewrite lookup_insert_eq.
  - rewrite (async_setup_entry_ok h h1 entry e device) by done. simpl.
    apply last_snoc.
Qed.

(** X8: the platform takes the handle the entry setup resolved.  After a
    successful entry setup, the binary sensor setup returns that same device
    without any call into pywemo, and the cache no longer holds it. *)
Theorem binary_sensor_takes_handle (h h1 : Hass) (entry : nat)
    (e : ConfigEntry) (device : WeMoDevice) :
  entries h !! entry = Some e →
  async_get_wemo_device (data e) false h = (Ok device, h1) →
  (binary_sensor_async_setup_entry entry (async_setup_entry entry h).2).1
    = Ok [device]
  ∧ net_log (binary_sensor_async_setup_entry entry (async_setup_entry entry h).2).2
    = net_log h1
  ∧ ∃ host port,
      data e !! CONF_HOST = Some host ∧ data e !! CONF_PORT = Some port
      ∧ pywemo_wemodevice_cache
          (binary_sensor_async_setup_entry entry (async_setup_entry entry h).2).2
          !! cache_key host port = None.
Proof.
  intros Hentry Hget.
  destruct (async_get_wemo_device_ok_inv _ _ _ _ Hget)
    as (host & port & Hhost & Hport & Hhit).
  rewrite (async_setup_entry_ok h h1 entry e device) by done.
  set (e1 := with_data e _). set (h2 := with_tasks _ _). simpl.
  assert (entries h2 !! entry = Some e1) as Hentry2.
  { subst h2. simpl. apply list_lookup_insert_eq. by eapply lookup_lt_Some. }
  unfold binary_sensor_async_setup_entry, deref. unfold_monad. rewrite Hentry2.
  rewrite (async_get_wemo_device_hit (data e1) host port device true h2);
    [| subst e1; simpl; by rewrite lookup_insert_ne
     | subst e1; simpl; by rewrite lookup_insert_ne
     | done].
  simpl. split; [done|]. split; [done|].
  exists host, port. split; [done|]. split; [done|]. apply lookup_delete_eq.
Qed.

End PlatformProperties.

Lemma async_unload_entry_after_setup_witness :
  async_unload_entry (λ _ _, mret true) 0 (hass_with [old_entry] [])
    = (Raise (KeyError CONF_DOMAIN), hass_with [old_entry] [])
  ∧ (async_unload_entry (λ _ domain, mret (bool_decide (domain = VStr SWITCH_DOMAIN))) 0
       (async_setup_entry (H := pywemo_mock "Insight") 0 (hass_with [old_entry] [])).2).1
    = Ok true.
Proof.
  split.
  - destruct (async_unload_entry_after_setup (H := pywemo_mock "Insight")
                (λ _ _, mret true) (hass_with [old_entry] [])
                (async_get_wemo_device (H := pywemo_mock "Insight")
                   (data old_entry) false (hass_with [old_entry] [])).2
                0%nat old_entry (pywemo_device "Insight") eq_refl) as (Hkey & _).
    { vm_compute. reflexivity. }
    apply Hkey. reflexivity.
  - destruct (async_unload_entry_after_setup (H := pywemo_mock "Insight")
                (λ _ domain, mret (bool_decide (domain = VStr SWITCH_DOMAIN)))
                (hass_with [old_entry] [])
                (async_get_wemo_device (H := pywemo_mock "Insight")
                   (data old_entry) false (hass_with [old_entry] [])).2
                0%nat old_entry (pywemo_device "Insight") eq_refl) as (_ & Hrun & _).
    { vm_compute. reflexivity. }
    rewrite Hrun. reflexivity.
Defined.

Lemma binary_sensor_takes_handle_witness :
  (binary_sensor_async_setup_entry (H := pywemo_mock "Motion") 0
     (async_setup_entry (H := pywemo_mock "Motion") 0 (hass_with [old_entry] [])).2).1
    = Ok [pywemo_device "Motion"]
  ∧ net_log (binary_sensor_async_setup_entry (H := pywemo_mock "Motion") 0
               (async_setup_entry (H := pywemo_mock "Motion") 0
                  (hass_with [old_entry] [])).2).2
    = [CallSetupUrl (VStr "old_host") (VInt 111); CallDescription MOCK_URL].
Proof.
  destruct (binary_sensor_takes_handle (H := pywemo_mock "Motion")
              (hass_with [old_entry] [])
              (async_get_wemo_device (H := pywemo_mock "Motion")
                 (data old_entry) false (hass_with [old_entry] [])).2
              0%nat old_entry (pywemo_device "Motion") eq_refl) as (Hres & Hlog & _).
  { vm_compute. reflexivity. }
  split; [exact Hres|]. rewrite Hlog. vm_compute. reflexivity.
Defined.

(** ** Flows: errors, new records, discovery *)

Section FlowFurther.
Context `{!Pywemo}.

Lemma get_wemo_device_error (host port : value) (err : exn) :
  (_get_wemo_device host port).1 = Raise err →
  (∃ msg, err = CannotDeterminePortError msg)
  ∨ (∃ msg cause, err = ConnectError msg cause)
  ∨ (∃ cause, err = LibError cause).
Proof.
  unfold _get_wemo_device.
  destruct (setup_url_for_address host port) as [url|]; simpl.
  - destruct (device_from_description url) as [d|[m|m|c m]]; simpl;
      intros [= <-]; eauto.
  - intros [= <-]. eauto.
Qed.

(** The resolver never raises [AbortFlow]. *)
Lemma async_get_wemo_device_not_abort (config_data : gmap string value)
    (remove_cache : bool) (h h1 : Hass) (reason : string) :
  async_get_wemo_device config_data remove_cache h ≠ (Raise (AbortFlow reason), h1).
Proof.
  intros Hget.
  destruct (async_get_wemo_device_failure _ _ _ _ _ Hget)
    as (_ & _ & _ & _ & [[? _]|[[? _]|(host & port & _ & _ & _ & Herr)]]);
    try done.
  apply get_wemo_device_error in Herr as [[? ?]|[(? & ? & ?)|[? ?]]]; done.
Qed.

(** X9: the user step turns the two connection errors into a form and
    nothing else.  When the resolver fails, an import or manual flow creates
    and rewrites no record and caches nothing; it answers with the form that
    requires the port for [CannotDeterminePortError], with the form that
    reports "cannot_connect" for any other [ConnectError], and with the
    error itself for every other failure, a missing host among them. *)
Theorem user_flow_resolver_failure (req : FlowRequest) (d : gmap string value)
    (h h1 : Hass) (err : exn) :
  req = ImportRequest d ∨ req = UserRequest d →
  d ≠ ∅ →
  async_get_wemo_device (d ∪ {[CONF_PORT := VInt 0]}) false h = (Raise err, h1) →
  (reconcile req h).1
  = (if is_CannotDeterminePortError err
     then Ok (FormResult STEP_ID_USER true {["base" := ERROR_CANNOT_DETERMINE_PORT]})
     else if is_ConnectError err
     then Ok (FormResult STEP_ID_USER false {["base" := ERROR_CANNOT_CONNECT]})
     else Raise err)
  ∧ entries (reconcile req h).2 = entries h
  ∧ pywemo_wemodevice_cache (reconcile req h).2 = pywemo_wemodevice_cache h
  ∧ tasks (reconcile req h).2 = tasks h.
Proof.
  intros Hreq Hinput Hget.
  destruct (async_get_wemo_device_failure _ _ _ _ _ Hget) as (Hc & Hes & _ & Hts & _).
  assert (∀ src,
    flow_step (async_step_user (Some d)) {| hass := h; flow := new_flow src |}
    = (if is_CannotDeterminePortError err
       then Ok (FormResult STEP_ID_USER true {["base" := ERROR_CANNOT_DETERMINE_PORT]})
       else if is_ConnectError err
       then Ok (FormResult STEP_ID_USER false {["base" := ERROR_CANNOT_CONNECT]})
       else Raise err,
       {| hass := h1; flow := new_flow src |})) as Hstep.
  { intros src. unfold flow_step. unfold_monad.
    rewrite (async_step_user_failed (Some d) h h1 (new_flow src) err) by done.
    destruct (is_CannotDeterminePortError err); [done|].
    destruct (is_ConnectError err); [done|].
    destruct err; try done.
    by destruct (async_get_wemo_device_not_abort _ _ _ _ _ Hget). }
  unfold reconcile. destruct Hreq as [-> | ->]; cbn [flow_steps flow_source_of].
  - unfold async_step_import. by rewrite Hstep.
  - unfold mbind, M_bind, bind. rewrite flow_step_user_no_input. by rewrite Hstep.
Qed.

End FlowFurther.

(** [test_user_with_missing_required_port] and [test_ssdp_unable_to_connect],
    and a request without a host. *)
Lemma user_flow_resolver_failure_witness :
  (reconcile (H := pywemo_no_url) (UserRequest {[CONF_HOST := VStr MOCK_HOST]})
     empty_hass).1
    = Ok (FormResult STEP_ID_USER true {["base" := ERROR_CANNOT_DETERMINE_PORT]})
  ∧ (reconcile (H := pywemo_failed_connection) (ImportRequest MOCK_FLOW_DATA)
       empty_hass).1
    = Ok (FormResult STEP_ID_USER false {["base" := ERROR_CANNOT_CONNECT]})
  ∧ (reconcile (H := pywemo_mock "Insight")
       (UserRequest {[CONF_PORT := VInt MOCK_PORT]}) empty_hass).1
    = Raise (KeyError CONF_HOST).
Proof.
  split; [|split].
  - destruct (user_flow_resolver_failure (H := pywemo_no_url)
                (UserRequest {[CONF_HOST := VStr MOCK_HOST]})
                {[CONF_HOST := VStr MOCK_HOST]} empty_hass
                (async_get_wemo_device (H := pywemo_no_url)
                   ({[CONF_HOST := VStr MOCK_HOST]} ∪ {[CONF_PORT := VInt 0]})
                   false empty_hass).2
                (CannotDeterminePortError
                   "Unable to get description url for WeMo at: 127.0.0.1"))
      as (Hres & _).
    + right. reflexivity.
    + vm_compute. discriminate.
    + vm_compute. reflexivity.
    + exact Hres.
  - destruct (user_flow_resolver_failure (H := pywemo_failed_connection)
                (ImportRequest MOCK_FLOW_DATA) MOCK_FLOW_DATA empty_hass
                (async_get_wemo_device (H := pywemo_failed_connection)
                   (MOCK_FLOW_DATA ∪ {[CONF_PORT := VInt 0]}) false empty_hass).2
                (ConnectError
                   "Unable to access WeMo at http://127.0.0.1:50000/setup.xml ()"
                   (RequestsConnectionError "")))
      as (Hres & _).
    + left. reflexivity.
    + vm_compute. discriminate.
    + vm_compute. reflexivity.
    + exact Hres.
  - destruct (user_flow_resolver_failure (H := pywemo_mock "Insight")
                (UserRequest {[CONF_PORT := VInt MOCK_PORT]})
                {[CONF_PORT := VInt MOCK_PORT]} empty_hass empty_hass
                (KeyError CONF_HOST))
      as (Hres & _).
    + right. reflexivity.
    + vm_compute. discriminate.
    + vm_compute. reflexivity.
    + exact Hres.
Defined.

Section NewRecords.
Context `{!Pywemo}.

(** The record a flow adds, once the host has set it up. *)
Lemma async_add_entry_ok (t : string) (d : gmap string value) (host port : value)
    (device : WeMoDevice) (h : Hass) (f : WemoFlowHandler) :
  d !! CONF_HOST = Some host →
  d !! CONF_PORT = Some port →
  pywemo_wemodevice_cache h !! cache_key host port = Some device →
  ∃ h',
    async_add_entry t d {| hass := h; flow := f |}
    = (Ok tt, {| hass := h'; flow := f |})
    ∧ entries h'
      = entries h
        ++ [ {| entry_id := pretty (entry_counter h);
                version := CONFIG_ENTRY_VERSION;
                title := t;
                data := <[CONF_DOMAIN := VStr (classify (model_name device))]> d;
                source := flow_source f;
                unique_id := flow_unique_id f |} ]
    ∧ tasks h'
      = tasks h ++ [ForwardEntrySetup (length (entries h))
                      (classify (model_name device))]
    ∧ net_log h' = net_log h
    ∧ pywemo_wemodevice_cache h' = pywemo_wemodevice_cache h
    ∧ discovery_info h' = discovery_info h
    ∧ devices h' = devices h.
Proof.
  intros Hhost Hport Hhit.
  unfold async_add_entry, get_flow, in_hass. unfold_monad. simpl.
  set (e := {| entry_id := _ |}). set (h2 := with_entry_counter _ _).
  assert (entries h2 !! length (entries h) = Some e) as Hentry.
  { subst h2. simpl. by rewrite list_lookup_middle. }
  assert (async_get_wemo_device (data e) false h2 = (Ok device, h2)) as Hget.
  { by rewrite (async_get_wemo_device_hit d host port device false h2). }
  rewrite (async_setup_entry_ok h2 h2 (length (entries h)) e device) by done.
  simpl. eexists. split; [done|]. simpl.
  split; [|done].
  rewrite insert_app_r_alt by done. by rewrite Nat.sub_diag.
Qed.

(** X10: a request for a device without a record adds exactly one record.
    When an import or manual request resolves to a device whose serial
    number no record carries, the flow answers with a create result titled
    with the name of the device; the new record is appended with that serial
    number as its identity, the current schema version, the supplied fields,
    port 0 when none was supplied, and the classified category; its setup is
    forwarded to that platform and the device is not resolved a second
    time. *)
Theorem reconcile_new_device (req : FlowRequest) (d : gmap string value)
    (h h1 : Hass) (device : WeMoDevice) :
  req = ImportRequest d ∨ req = UserRequest d →
  d ≠ ∅ →
  async_get_wemo_device (d ∪ {[CONF_PORT := VInt 0]}) false h = (Ok device, h1) →
  serialnumber device ∉ omap unique_id (entries h) →
  (reconcile req h).1
    = Ok (CreateEntryResult (name device) (d ∪ {[CONF_PORT := VInt 0]}))
  ∧ entries (reconcile req h).2
    = entries h
      ++ [ {| entry_id := pretty (entry_counter h);
              version := CONFIG_ENTRY_VERSION;
              title := name device;
              data := <[CONF_DOMAIN := VStr (classify (model_name device))]>
                        (d ∪ {[CONF_PORT := VInt 0]});
              source := flow_source_of req;
              unique_id := Some (serialnumber device) |} ]
  ∧ tasks (reconcile req h).2
    = tasks h ++ [ForwardEntrySetup (length (entries h))
                    (classify (model_name device))]
  ∧ net_log (reconcile req h).2 = net_log h1.
Proof.
  intros Hreq Hinput Hget Hnew.
  apply find_unique_id_None in Hnew.
  pose proof (async_get_wemo_device_frame (d ∪ {[CONF_PORT := VInt 0]}) false h)
    as Hframe.
  rewrite Hget in Hframe. simpl in Hframe.
  destruct Hframe as (Hes & _ & Hts & _ & Hcounter).
  destruct (async_get_wemo_device_ok_inv _ _ _ _ Hget)
    as (host & port & Hhost & Hport & Hhit).
  assert (∀ src,
    ∃ h',
      flow_step (async_step_user (Some d)) {| hass := h; flow := new_flow src |}
      = (Ok (CreateEntryResult (name device) (d ∪ {[CONF_PORT := VInt 0]})),
         {| hass := h';
            flow := with_unique_id (new_flow src) (Some (serialnumber device)) |})
      ∧ entries h'
        = entries h
          ++ [ {| entry_id := pretty (entry_counter h);
                  version := CONFIG_ENTRY_VERSION;
                  title := name device;
                  data := <[CONF_DOMAIN := VStr (classify (model_name device))]>
                            (d ∪ {[CONF_PORT := VInt 0]});
                  source := src;
                  unique_id := Some (serialnumber device) |} ]
      ∧ tasks h'
        = tasks h ++ [ForwardEntrySetup (length (entries h))
                        (classify (model_name device))]
      ∧ net_log h' = net_log h1) as Hstep.
  { intros src.
    destruct (async_add_entry_ok (name device) (d ∪ {[CONF_PORT := VInt 0]})
                host port device h1
                (with_unique_id (new_flow src) (Some (serialnumber device)))
                Hhost Hport Hhit)
      as (h' & Hadd & Hes' & Hts' & Hlog' & _).
    exists h'. rewrite Hes, Hts, Hcounter in *. split; [|done].
    unfold flow_step. unfold_monad.
    rewrite (async_step_user_connected (Some d) h h1 (new_flow src) device) by done.
    simpl.
    rewrite (set_unique_id_and_update_absent d _ h1 (new_flow src))
      by (by rewrite Hes).
    by rewrite Hadd. }
  unfold reconcile. destruct Hreq as [-> | ->]; cbn [flow_steps flow_source_of].
  - destruct (Hstep SOURCE_IMPORT) as (h' & Hrun & Hes' & Hts' & Hlog').
    unfold async_step_import. by rewrite Hrun.
  - destruct (Hstep SOURCE_USER) as (h' & Hrun & Hes' & Hts' & Hlog').
    unfold mbind, M_bind, bind. rewrite flow_step_user_no_input. by rewrite Hrun.
Qed.

End NewRecords.

(** [test_user_without_port]: the record of a request without a port. *)
Lemma reconcile_new_device_witness :
  (reconcile (H := pywemo_mock "Humidifier")
     (UserRequest {[CONF_HOST := VStr MOCK_HOST]}) empty_hass).1
    = Ok (CreateEntryResult MOCK_NAME
            {[CONF_HOST := VStr MOCK_HOST; CONF_PORT := VInt 0]})
  ∧ entries (reconcile (H := pywemo_mock "Humidifier")
               (UserRequest {[CONF_HOST := VStr MOCK_HOST]}) empty_hass).2
    = [ {| entry_id := "0"; version := 2; title := MOCK_NAME;
           data := {[CONF_DOMAIN := VStr FAN_DOMAIN; CONF_HOST := VStr MOCK_HOST;
                     CONF_PORT := VInt 0]};
           source := SOURCE_USER; unique_id := Some MOCK_SERIAL_NUMBER |} ].
Proof.
  destruct (reconcile_new_device (H := pywemo_mock "Humidifier")
              (UserRequest {[CONF_HOST := VStr MOCK_HOST]})
              {[CONF_HOST := VStr MOCK_HOST]} empty_hass
              (async_get_wemo_device (H := pywemo_mock "Humidifier")
                 ({[CONF_HOST := VStr MOCK_HOST]} ∪ {[CONF_PORT := VInt 0]})
                 false empty_hass).2
              (pywemo_device "Humidifier"))
    as (Hres & Hes & _).
  - right. reflexivity.
  - vm_compute. discriminate.
  - vm_compute. reflexivity.
  - apply not_elem_of_nil.
  - rewrite Hres, Hes. split; vm_compute; reflexivity.
Defined.

Section Discovery.
Context `{!Pywemo}.
Local Arguments async_get_device : simpl never.

(** The SSDP step for an identity without a record: the discovery is stored,
    the flow takes the identity and the address of the discovery, and the
    confirm step decides. *)
Lemma async_step_ssdp_new (info : DiscoveryInfo) (h : Hass) (f : WemoFlowHandler) :
  find_unique_id (upnp_serial info) (entries h) = None →
  async_step_ssdp info {| hass := h; flow := f |}
  = async_step_confirm None
      {| hass := with_discovery_info h (<[upnp_serial info := info]> (discovery_info h));
         flow := with_unique_id
                   (with_context f
                      {[CONF_HOST := location_hostname info;
                        CONF_PORT := location_port info]}
                      (upnp_friendly_name info))
                   (Some (upnp_serial info)) |}.
Proof.
  intros Hfind. unfold async_step_ssdp, in_hass, modify_flow.
  unfold mbind, M_bind, bind at 1 2, modify. simpl.
  unfold bind. by rewrite set_unique_id_and_update_absent.
Qed.

(** X11: an SSDP discovery of a device that has no record and is not in the
    device registry waits for the operator.  The flow answers with the
    confirm form; it creates and rewrites no record, makes no call into
    pywemo and caches nothing, and it has stored the discovery under its
    serial number. *)
Theorem ssdp_waits_for_confirmation (info : DiscoveryInfo) (h : Hass) :
  upnp_serial info ∉ omap unique_id (entries h) →
  async_get_device (Some (upnp_serial info)) (devices h) = false →
  reconcile (SsdpRequest info false) h
  = (Ok (FormResult STEP_ID_CONFIRM false ∅),
     with_discovery_info h (<[upnp_serial info := info]> (discovery_info h))).
Proof.
  intros Hnew Hdev. apply find_unique_id_None in Hnew.
  unfold reconcile. cbn [flow_steps flow_source_of].
  unfold flow_step. unfold_monad.
  rewrite async_step_ssdp_new by done.
  unfold async_step_confirm, get_flow. unfold_monad. simpl.
  by rewrite Hdev.
Qed.

(** X12: the record of an SSDP flow carries the serial number of the
    discovery.  When the discovery has a serial number that no record
    carries, and the operator confirms or the device registry knows the
    device, and the discovered address resolves, the flow appends one record
    whose identity is the serial number of the discovery, whatever serial
    number the resolved device reports, and whose data are the discovered
    host and port with the classified category. *)
Theorem ssdp_creates_record (info : DiscoveryInfo) (confirmed : bool)
    (h h1 : Hass) (device : WeMoDevice) :
  upnp_serial info ≠ "" →
  upnp_serial info ∉ omap unique_id (entries h) →
  confirmed = true ∨ async_get_device (Some (upnp_serial info)) (devices h) = true →
  async_get_wemo_device
    {[CONF_HOST := location_hostname info; CONF_PORT := location_port info]} false
    (with_discovery_info h (<[upnp_serial info := info]> (discovery_info h)))
    = (Ok device, h1) →
  (reconcile (SsdpRequest info confirmed) h).1
    = Ok (CreateEntryResult (name device)
            {[CONF_HOST := location_hostname info; CONF_PORT := location_port info]})
  ∧ entries (reconcile (SsdpRequest info confirmed) h).2
    = entries h
      ++ [ {| entry_id := pretty (entry_counter h);
              version := CONFIG_ENTRY_VERSION;
              title := name device;
              data := <[CONF_DOMAIN := VStr (classify (model_name device))]>
                        {[CONF_HOST := location_hostname info;
                          CONF_PORT := location_port info]};
              source := SOURCE_SSDP;
              unique_id := Some (upnp_serial info) |} ].
Proof.
  intros Hserial Hnew Hgo Hget. apply find_unique_id_None in Hnew.
  set (ui := ({[CONF_HOST := location_hostname info;
                CONF_PORT := location_port info]} : gmap string value)) in *.
  set (h0 := with_discovery_info h _) in *.
  set (f0 := with_unique_id (with_context (new_flow SOURCE_SSDP) ui
                               (upnp_friendly_name info))
               (Some (upnp_serial info))).
  assert (ui !! CONF_PORT = Some (location_port info)) as Hhas.
  { subst ui. rewrite lookup_insert_ne by done. apply lookup_singleton_eq. }
  assert (ui ∪ {[CONF_PORT := VInt 0]} = ui) as Hdata
    by (by eapply union_default_port).
  pose proof (async_get_wemo_device_frame ui false h0) as Hframe.
  rewrite Hget in Hframe. simpl in Hframe.
  destruct Hframe as (Hes & _ & _ & _ & Hcounter).
  destruct (async_get_wemo_device_ok_inv _ _ _ _ Hget)
    as (host & port & Hhost & Hport & Hhit).
  destruct (async_add_entry_ok (name device) ui host port device h1 f0
              Hhost Hport Hhit) as (h' & Hadd & Hes' & _).
  (* the user step, reached from the confirm step *)
  assert (flow_step (async_step_user (Some ui)) {| hass := h0; flow := f0 |}
          = (Ok (CreateEntryResult (name device) ui), {| hass := h'; flow := f0 |}))
    as Huser.
  { unfold flow_step. unfold_monad.
    rewrite (async_step_user_connected (Some ui) h0 h1 f0 device);
      simpl; rewrite ?Hdata; [|by eapply has_port_nonempty|done].
    assert (not_unique_id f0 = false) as ->.
    { unfold not_unique_id. simpl. by destruct (upnp_serial info). }
    by rewrite Hadd. }
  assert (entries h' = entries h ++
            [ {| entry_id := pretty (entry_counter h);
                 version := CONFIG_ENTRY_VERSION;
                 title := name device;
                 data := <[CONF_DOMAIN := VStr (classify (model_name device))]> ui;
                 source := SOURCE_SSDP;
                 unique_id := Some (upnp_serial info) |} ]) as Hfinal.
  { rewrite Hes', Hes, Hcounter. done. }
  unfold reconcile. cbn [flow_steps flow_source_of].
  unfold mbind, M_bind, bind.
  destruct (async_get_device (Some (upnp_serial info)) (devices h)) eqn:Hdev.
  - (* known to the device registry: no confirmation *)
    assert (flow_step (async_step_ssdp info)
              {| hass := h; flow := new_flow SOURCE_SSDP |}
            = (Ok (CreateEntryResult (name device) ui),
               {| hass := h'; flow := f0 |})) as ->.
    { rewrite <- Huser. unfold flow_step. unfold_monad.
      rewrite async_step_ssdp_new by done.
      unfold async_step_confirm, get_flow. unfold_monad. simpl.
      by rewrite Hdev. }
    done.
  - destruct Hgo as [-> | ?]; [|done].
    assert (flow_step (async_step_ssdp info)
              {| hass := h; flow := new_flow SOURCE_SSDP |}
            = (Ok (FormResult STEP_ID_CONFIRM false ∅),
               {| hass := h0; flow := f0 |})) as ->.
    { unfold flow_step. unfold_monad.
      rewrite async_step_ssdp_new by done.
      unfold async_step_confirm, get_flow. unfold_monad. simpl.
      by rewrite Hdev. }
    simpl.
    assert (flow_step (async_step_confirm (Some ∅)) {| hass := h0; flow := f0 |}
            = (Ok (CreateEntryResult (name device) ui),
               {| hass := h'; flow := f0 |})) as ->; [|done].
    rewrite <- Huser. unfold flow_step, async_step_confirm, get_flow.
    unfold_monad. done.
Qed.

End Discovery.

(** [test_ssdp]: the discovery of a new device, before and after the
    operator confirms. *)
Lemma ssdp_waits_for_confirmation_witness :
  reconcile (H := pywemo_mock "Insight") (SsdpRequest MOCK_DISCOVERY_INFO false)
    empty_hass
  = (Ok (FormResult STEP_ID_CONFIRM false ∅),
     with_discovery_info empty_hass {[MOCK_SERIAL_NUMBER := MOCK_DISCOVERY_INFO]}).
Proof.
  apply (ssdp_waits_for_confirmation (H := pywemo_mock "Insight")
           MOCK_DISCOVERY_INFO empty_hass).
  - apply not_elem_of_nil.
  - reflexivity.
Defined.

Lemma ssdp_creates_record_witness :
  (reconcile (H := pywemo_mock "Insight") (SsdpRequest MOCK_DISCOVERY_INFO true)
     empty_hass).1
    = Ok (CreateEntryResult MOCK_NAME MOCK_FLOW_DATA)
  ∧ omap unique_id
      (entries (reconcile (H := pywemo_mock "Insight")
                  (SsdpRequest MOCK_DISCOVERY_INFO true) empty_hass).2)
    = [MOCK_SERIAL_NUMBER].
Proof.
  destruct (ssdp_creates_record (H := pywemo_mock "Insight")
              MOCK_DISCOVERY_INFO true empty_hass
              (async_get_wemo_device (H := pywemo_mock "Insight") MOCK_FLOW_DATA false
                 (with_discovery_info empty_hass
                    {[MOCK_SERIAL_NUMBER := MOCK_DISCOVERY_INFO]})).2
              (pywemo_device "Insight"))
    as (Hres & Hes).
  - discriminate.
  - apply not_elem_of_nil.
  - left. reflexivity.
  - vm_compute. reflexivity.
  - split; [exact Hres|]. rewrite Hes. reflexivity.
Defined.

Section DiscoveryStore.
Context `{!Pywemo}.

Lemma set_unique_id_and_update_discovery (user_input : gmap string value)
    (uid : string) (h : Hass) (f : WemoFlowHandler) :
  discovery_info
    (hass (_async_set_unique_id_and_update user_input uid
             {| hass := h; flow := f |}).2)
  = discovery_info h.
Proof.
  destruct (find_unique_id uid (entries h)) as [i|] eqn:Hfind.
  - destruct (find_unique_id_Some _ _ _ Hfind) as (e & He & _).
    by rewrite (set_unique_id_and_update_present user_input uid h f i e).
  - by rewrite set_unique_id_and_update_absent.
Qed.

Lemma async_step_user_discovery (user_input : option (gmap string value))
    (h : Hass) (f : WemoFlowHandler) :
  discovery_info (hass (async_step_user user_input {| hass := h; flow := f |}).2)
  = discovery_info h.
Proof.
  destruct (decide (default ∅ user_input = ∅)) as [Hempty|Hinput].
  { by rewrite async_step_user_no_input. }
  pose proof (async_get_wemo_device_frame
                (default ∅ user_input ∪ {[CONF_PORT := VInt 0]}) false h) as Hframe.
  destruct (async_get_wemo_device (default ∅ user_input ∪ {[CONF_PORT := VInt 0]})
              false h) as [[device|err] h1] eqn:Hget;
    simpl in Hframe; destruct Hframe as (_ & _ & _ & Hdisc & _).
  - rewrite (async_step_user_connected user_input h h1 f device) by done.
    destruct (not_unique_id f); [|done].
    pose proof (set_unique_id_and_update_discovery (default ∅ user_input)
                  (serialnumber device) h1 f) as Hset.
    destruct (_async_set_unique_id_and_update _ _ _) as [[[]|err] s];
      simpl in *; congruence.
  - rewrite (async_step_user_failed user_input h h1 f err) by done. done.
Qed.

Lemma async_step_confirm_discovery (user_input : option (gmap string value))
    (h : Hass) (f : WemoFlowHandler) :
  discovery_info (hass (async_step_confirm user_input {| hass := h; flow := f |}).2)
  = discovery_info h.
Proof.
  unfold async_step_confirm, get_flow. unfold_monad. simpl.
  destruct user_input as [ui|]; simpl; [apply async_step_user_discovery|].
  destruct (async_get_device (flow_unique_id f) (devices h));
    [apply async_step_user_discovery | done].
Qed.

Lemma async_step_ssdp_discovery (info : DiscoveryInfo) (h : Hass)
    (f : WemoFlowHandler) :
  discovery_info (hass (async_step_ssdp info {| hass := h; flow := f |}).2)
  = <[upnp_serial info := info]> (discovery_info h).
Proof.
  destruct (find_unique_id (upnp_serial info) (entries h)) as [i|] eqn:Hfind.
  - destruct (find_unique_id_Some _ _ _ Hfind) as (e & He & _).
    unfold async_step_ssdp, in_hass, modify_flow.
    unfold mbind, M_bind, bind at 1 2, modify. simpl. unfold bind.
    by rewrite (set_unique_id_and_update_present _ _ _ _ i e).
  - rewrite async_step_ssdp_new by done.
    by rewrite async_step_confirm_discovery.
Qed.

Lemma async_setup_entry_discovery (entry : nat) (h : Hass) :
  discovery_info (async_setup_entry entry h).2 = discovery_info h.
Proof.
  unfold async_setup_entry, async_update_entry, async_create_task, deref.
  unfold_monad.
  destruct (entries h !! entry) as [e|] eqn:Hentry; [|done].
  pose proof (async_get_wemo_device_frame (data e) false h) as Hframe.
  destruct (async_get_wemo_device (data e) false h) as [[device|err] h1];
    simpl in Hframe; destruct Hframe as (Hes & _ & _ & Hdisc & _); [|done].
  destruct (decide (data e !! CONF_DOMAIN = Some _)); simpl; [done|].
  rewrite Hes, Hentry. by destruct (decide (data e = _)).
Qed.

Lemma flow_step_discovery (step : M FlowState FlowResult) (s : FlowState) :
  discovery_info (hass (flow_step step s).2) = discovery_info (hass (step s).2).
Proof.
  unfold flow_step. unfold_monad.
  destruct (step s) as [[[step_id req errors|t d|reason]|err] [h f]]; simpl;
    try done.
  - unfold async_add_entry, get_flow, in_hass. unfold_monad. simpl.
    set (h2 := with_entry_counter _ _).
    pose proof (async_setup_entry_discovery (length (entries h)) h2) as Hsetup.
    by destruct (async_setup_entry (length (entries h)) h2) as [[b|err] h3].
  - by destruct err.
Qed.

(** X13: discoveries are remembered.  Every SSDP flow stores its discovery
    under the serial number, whether it ends in a form, a record or a
    duplicate, and no other flow touches the store; un-ignoring a serial
    number replays the stored discovery, and without one it ends as
    "no_devices_found" and changes nothing. *)
Theorem discovery_remembered :
  (∀ (req : FlowRequest) (h : Hass),
     discovery_info (reconcile req h).2
     = match req with
       | SsdpRequest info _ => <[upnp_serial info := info]> (discovery_info h)
       | _ => discovery_info h
       end)
  ∧ (∀ (uid : string) (info : DiscoveryInfo) (s : FlowState),
       discovery_info (hass s) !! uid = Some info →
       async_step_unignore uid s = async_step_ssdp info s)
  ∧ (∀ (uid : string) (s : FlowState),
       discovery_info (hass s) !! uid = None →
       async_step_unignore uid s = (Ok (AbortResult REASON_NO_DEVICES_FOUND), s)).
Proof.
  split; [|split].
  - intros req h. unfold reconcile.
    destruct req as [d|d|info confirmed]; cbn [flow_steps flow_source_of].
    + pose proof (flow_step_discovery (async_step_import (Some d))
                    {| hass := h; flow := new_flow SOURCE_IMPORT |}) as Hd.
      unfold async_step_import in *. rewrite async_step_user_discovery in Hd.
      by destruct (flow_step _ _).
    + unfold mbind, M_bind, bind. rewrite flow_step_user_no_input.
      pose proof (flow_step_discovery (async_step_user (Some d))
                    {| hass := h; flow := new_flow SOURCE_USER |}) as Hd.
      rewrite async_step_user_discovery in Hd.
      by destruct (flow_step _ _).
    + unfold mbind, M_bind, bind.
      pose proof (flow_step_discovery (async_step_ssdp info)
                    {| hass := h; flow := new_flow SOURCE_SSDP |}) as Hd.
      rewrite async_step_ssdp_discovery in Hd.
      destruct (flow_step (async_step_ssdp info) _)
        as [[[step_id req errors|t d|reason]|err] [h1 f1]]; simpl in *; try done.
      destruct (confirmed && bool_decide (step_id = STEP_ID_CONFIRM)); [|done].
      pose proof (flow_step_discovery (async_step_confirm (Some ∅))
                    {| hass := h1; flow := f1 |}) as Hd2.
      rewrite async_step_confirm_discovery in Hd2.
      destruct (flow_step (async_step_confirm (Some ∅)) _). simpl in *. congruence.
  - intros uid info s Hs. unfold async_step_unignore. unfold_monad. by rewrite Hs.
  - intros uid s Hs. unfold async_step_unignore. unfold_monad. by rewrite Hs.
Qed.

End DiscoveryStore.

(** [test_ignore_and_unignore] and [test_unignore_with_no_previous_discovery]:
    the discovery of a device that already has a record is stored all the
    same. *)
Lemma discovery_remembered_witness :
  discovery_info
    (reconcile (H := pywemo_mock "Insight") (SsdpRequest MOCK_DISCOVERY_INFO false)
       (hass_with [old_entry] [])).2 !! MOCK_SERIAL_NUMBER
    = Some MOCK_DISCOVERY_INFO
  ∧ async_step_unignore (H := pywemo_mock "Insight") MOCK_SERIAL_NUMBER
      {| hass := empty_hass; flow := new_flow SOURCE_UNIGNORE |}
    = (Ok (AbortResult REASON_NO_DEVICES_FOUND),
       {| hass := empty_hass; flow := new_flow SOURCE_UNIGNORE |}).
Proof.
  destruct (discovery_remembered (H := pywemo_mock "Insight"))
    as (Hstore & _ & Hnone).
  split.
  - rewrite Hstore. apply lookup_insert_eq.
  - apply Hnone. reflexivity.
Defined.

(** ** Static configuration in bulk *)

Section BulkStatic.
Context `{!Pywemo}.

Lemma async_setup_static_tasks (static : list (string * Z)) (h : Hass) :
  async_setup_static static h
  = (Ok tt, with_tasks h (tasks h ++ map import_task static)).
Proof.
  revert h. induction static as [|[host port] static IH]; intros h; simpl.
  - rewrite app_nil_r. by destruct h.
  - unfold async_create_task. unfold_monad. rewrite IH. simpl.
    by rewrite <- app_assoc.
Qed.

Lemma static_schema_length (static : list string) (endpoints : list (string * Z)) :
  static_schema static = Ok endpoints → length endpoints = length static.
Proof.
  revert endpoints. induction static as [|s static IH]; intros endpoints; simpl.
  - by intros [= <-].
  - destruct (coerce_host_port s); [|done].
    destruct (static_schema static) as [eps|]; [|done].
    intros [= <-]. simpl. by rewrite (IH eps).
Qed.

Lemma reconcile_all_bound (reqs : list FlowRequest) (h : Hass) :
  unique_ids_distinct (entries h) →
  (reconcile_all reqs h).1 = Ok tt
  ∧ unique_ids_distinct (entries (reconcile_all reqs h).2)
  ∧ (length (entries h) ≤ length (entries (reconcile_all reqs h).2)
     ≤ length (entries h) + length reqs)%nat.
Proof.
  revert h. induction reqs as [|req reqs IH]; intros h Hdistinct; simpl.
  { split; [done|]. split; [done|]. lia. }
  unfold_monad.
  pose proof (reconcile_inv req h Hdistinct) as [Hinv Hlen].
  destruct (reconcile req h) as [[r|err] h1]; simpl in *;
    destruct (IH h1 Hinv) as (Hok & Hinv' & Hlen');
    destruct (reconcile_all reqs h1) as [[[]|err'] h2]; simpl in *; try done;
    (split; [done|]; split; [done|]; lia).
Qed.

Lemma flow_requests_import (static : list (string * Z)) :
  length (flow_requests (map import_task static)) = length static.
Proof. induction static as [|ep static IH]; simpl; [done|]. by rewrite IH. Qed.

(** X14: a static configuration of n valid entries starts n import flows, in
    order, and they add at most n records and never a second record for an
    identity: with no other flow pending, the component setup succeeds, the
    identities stay distinct, and the number of records grows by at most the
    number of entries. *)
Theorem setup_component_bulk (static : list string) (endpoints : list (string * Z))
    (h : Hass) :
  static_schema static = Ok endpoints →
  flow_requests (tasks h) = [] →
  unique_ids_distinct (entries h) →
  (async_setup endpoints h).1 = Ok true
  ∧ tasks (async_setup endpoints h).2 = tasks h ++ map import_task endpoints
  ∧ (setup_component static h).1 = Ok true
  ∧ unique_ids_distinct (entries (setup_component static h).2)
  ∧ (length (entries h) ≤ length (entries (setup_component static h).2)
     ≤ length (entries h) + length static)%nat.
Proof.
  intros Hschema Hpending Hdistinct.
  assert (async_setup endpoints h
          = (Ok true, with_tasks h (tasks h ++ map import_task endpoints))) as Hsetup.
  { unfold async_setup. unfold_monad. by rewrite async_setup_static_tasks. }
  rewrite Hsetup. simpl. split; [done|]. split; [done|].
  unfold setup_component. rewrite Hschema.
  unfold mbind, M_bind, bind. rewrite Hsetup.
  unfold run_scheduled_flows. unfold_monad. simpl.
  set (h0 := with_tasks _ _).
  assert (unique_ids_distinct (entries h0)) as Hdistinct0 by done.
  pose proof (reconcile_all_bound
                (flow_requests (tasks h ++ map import_task endpoints)) h0 Hdistinct0)
    as (Hok & Hinv & Hlen).
  assert (length (flow_requests (tasks h ++ map import_task endpoints))
          = length static) as Hcount.
  { unfold flow_requests in *. rewrite omap_app, Hpending. simpl.
    rewrite <- (static_schema_length static endpoints Hschema).
    apply flow_requests_import. }
  rewrite Hcount in Hlen.
  destruct (reconcile_all _ h0) as [[[]|err] h1]; simpl in *; done.
Qed.

End BulkStatic.

(** Three static entries, two of them for the same endpoint. *)
Lemma setup_component_bulk_witness :
  (setup_component (H := pywemo_mock "Insight")
     ["127.0.0.1:50000"; "127.0.0.1"; "127.0.0.1:50000"] empty_hass).1 = Ok true
  ∧ unique_ids_distinct
      (entries (setup_component (H := pywemo_mock "Insight")
                  ["127.0.0.1:50000"; "127.0.0.1"; "127.0.0.1:50000"] empty_hass).2)
  ∧ (length (entries (setup_component (H := pywemo_mock "Insight")
                        ["127.0.0.1:50000"; "127.0.0.1"; "127.0.0.1:50000"]
                        empty_hass).2) ≤ 3)%nat.
Proof.
  destruct (setup_component_bulk (H := pywemo_mock "Insight")
              ["127.0.0.1:50000"; "127.0.0.1"; "127.0.0.1:50000"]
              [("127.0.0.1", 50000); ("127.0.0.1", 0); ("127.0.0.1", 50000)]
              empty_hass eq_refl eq_refl)
    as (_ & _ & Hok & Hinv & Hlen).
  { apply NoDup_nil. exact I. }
  split; [exact Hok|]. split; [exact Hinv|]. apply Hlen.
Defined.

(** ** Humidifier: speed tables *)

Section FanTables.
Context `{!FanSpeeds}.

(** X15: with four distinct speed names the comprehension that inverts the
    speed table loses nothing: [HASS_FAN_SPEED_TO_WEMO] has exactly the four
    supported speeds as keys, never yields Low or High, and translating a
    supported speed to a fan mode and back gives the speed again; every fan
    mode translates to a supported speed, and back to itself unless it is
    Low or High. *)
Theorem fan_speed_round_trip :
  NoDup SUPPORTED_SPEEDS →
  (HASS_FAN_SPEED_TO_WEMO
   = [(SPEED_OFF, Off); (SPEED_LOW, Minimum); (SPEED_MEDIUM, Medium);
      (SPEED_HIGH, Maximum)])
  ∧ (∀ speed, speed ∈ SUPPORTED_SPEEDS →
       ∃ m, dict_get HASS_FAN_SPEED_TO_WEMO speed = Some m
            ∧ (m ∉ [Low; High])
            ∧ dict_get WEMO_FAN_SPEED_TO_HASS m = Some speed)
  ∧ (∀ speed, speed ∉ SUPPORTED_SPEEDS →
       dict_get HASS_FAN_SPEED_TO_WEMO speed = None)
  ∧ (∀ m, ∃ speed,
       dict_get WEMO_FAN_SPEED_TO_HASS m = Some speed
       ∧ speed ∈ SUPPORTED_SPEEDS
       ∧ (m ∉ [Low; High] → dict_get HASS_FAN_SPEED_TO_WEMO speed = Some m)).
Proof.
  unfold SUPPORTED_SPEEDS. intros Hdistinct.
  rewrite !NoDup_cons in Hdistinct. destruct Hdistinct as (Ha & Hb & Hc & _).
  rewrite !not_elem_of_cons in Ha. rewrite !not_elem_of_cons in Hb.
  rewrite !not_elem_of_cons in Hc.
  destruct Ha as (H1 & H2 & H3 & _), Hb as (H4 & H5 & _), Hc as (H6 & _).
  assert (HASS_FAN_SPEED_TO_WEMO
          = [(SPEED_OFF, Off); (SPEED_LOW, Minimum); (SPEED_MEDIUM, Medium);
             (SPEED_HIGH, Maximum)]) as Htable.
  { unfold HASS_FAN_SPEED_TO_WEMO, WEMO_FAN_SPEED_TO_HASS.
    change (filter _ _) with [(Off, SPEED_OFF); (Minimum, SPEED_LOW);
                              (Medium, SPEED_MEDIUM); (Maximum, SPEED_HIGH)].
    simpl. repeat (case_decide; try congruence; simpl). }
  split; [done|]. rewrite Htable. unfold WEMO_FAN_SPEED_TO_HASS.
  assert (∀ m : FanMode, m ≠ Low → m ≠ High → m ∉ [Low; High]) as Hnot.
  { intros m ? ?. rewrite !not_elem_of_cons. repeat split; try done.
    apply not_elem_of_nil. }
  split; [|split].
  - intros speed Hin. rewrite !elem_of_cons, elem_of_nil in Hin.
    destruct Hin as [->|[->|[->|[->|[]]]]]; simpl;
      repeat (case_decide; try congruence; simpl);
      eexists; (split; [reflexivity|]); (split; [by apply Hnot|]); done.
  - intros speed Hout. rewrite !not_elem_of_cons in Hout.
    destruct Hout as (? & ? & ? & ? & _). simpl.
    repeat (case_decide; try congruence; simpl).
  - intros m. destruct m; simpl; eexists; (split; [reflexivity|]);
      (split; [rewrite !elem_of_cons; auto 6|]);
      rewrite !not_elem_of_cons; intros (? & ? & _); try done;
      repeat (case_decide; try congruence; simpl).
Qed.

End FanTables.

(** The speed names of the fan component. *)
Lemma fan_speed_round_trip_witness :
  dict_get
    (HASS_FAN_SPEED_TO_WEMO
       (H := {| SPEED_OFF := "off"; SPEED_LOW := "low";
                         SPEED_MEDIUM := "medium"; SPEED_HIGH := "high" |}))
    "high" = Some Maximum.
Proof.
  destruct (fan_speed_round_trip
              (H := {| SPEED_OFF := "off"; SPEED_LOW := "low";
                                SPEED_MEDIUM := "medium"; SPEED_HIGH := "high" |}))
    as (Htable & _).
  { unfold SUPPORTED_SPEEDS. simpl.
    repeat (apply NoDup_cons_2;
            [rewrite ?elem_of_cons, elem_of_nil; intuition discriminate|]).
    apply NoDup_nil_2. }
  rewrite Htable. reflexivity.
Defined.

(** ** Humidifier entity: invariants of the requests *)

(** A coroutine keeps a property of the state, whether it returns or
    raises. *)
Lemma keeps_bind {S A B} (P : S → Prop) (m : M S A) (k : A → M S B) :
  (∀ s, P s → P (m s).2) →
  (∀ a s, P s → P (k a s).2) →
  ∀ s, P s → P ((m ≫= k) s).2.
Proof.
  intros Hm Hk s Hs. unfold mbind, M_bind, bind.
  specialize (Hm s Hs). destruct (m s) as [[a|err] s1]; simpl in *; auto.
Qed.

Lemma keeps_try_except {S A} (P : S → Prop) (m : M S A) (handler : exn → M S A) :
  (∀ s, P s → P (m s).2) →
  (∀ err s, P s → P (handler err s).2) →
  ∀ s, P s → P (try_except m handler s).2.
Proof.
  intros Hm Hh s Hs. unfold try_except.
  specialize (Hm s Hs). destruct (m s) as [[a|err] s1]; simpl in *; auto.
Qed.

Section EntityProperties.
Context {D T : Type} `{!Humidifier D, !TargetHumidity T, !FanSpeeds}.

Lemma keeps_wemo_call {A} (P : WemoHumidifier D → Prop)
    (f : D → outcome lib_exn A * D) :
  device_independent P → ∀ e, P e → P (wemo_call f e).2.
Proof.
  intros Hind e He. unfold wemo_call.
  destruct (f (wemo e)) as [[a|err] d]; simpl; by apply Hind.
Qed.

Lemma keeps_wemo_read {A} (P : WemoHumidifier D → Prop)
    (f : D → outcome lib_exn A) :
  ∀ e, P e → P (wemo_read f e).2.
Proof. intros e He. unfold wemo_read. by destruct (f (wemo e)). Qed.

Lemma keeps_guarded (P : WemoHumidifier D → Prop) (call : M (WemoHumidifier D) unit) :
  (∀ e, P e → P (with_available e false)) →
  (∀ e, P e → P (call e).2) →
  ∀ e, P e → P (guarded call e).2.
Proof.
  intros Hav Hcall. unfold guarded. apply keeps_try_except; [done|].
  intros err e He. destruct (is_ActionException err); simpl; auto.
Qed.

(** A request other than an update keeps every property that depends
    neither on the device, nor on the availability being true, nor on the
    number of scheduled updates. *)
Lemma request_keeps (P : WemoHumidifier D → Prop) (c : Command) :
  (∀ force_update, c ≠ Update force_update) →
  device_independent P →
  (∀ e, P e → P (with_available e false)) →
  (∀ e n, P e → P (with_scheduled_updates e n)) →
  ∀ e, P e → P (run_command c e).2.
Proof.
  intros Hc Hdev Hav Hsched.
  assert (∀ e, P e → P (schedule_update_ha_state e).2) as Hschedule.
  { intros e He. by apply Hsched. }
  assert (∀ speed e, P e → P (set_speed speed e).2) as Hspeed.
  { intros speed. unfold set_speed. apply keeps_bind; [|done].
    apply keeps_guarded; [done|]. by apply keeps_wemo_call. }
  destruct c as [f|[speed|]| |speed|t|]; simpl.
  - by destruct (Hc f).
  - unfold turn_on. apply keeps_bind; [|done]. apply Hspeed.
  - unfold turn_on. apply keeps_bind; [|done].
    apply keeps_guarded; [done|]. apply keeps_bind; [done|].
    intros e0. by apply keeps_wemo_call.
  - unfold turn_off. apply keeps_bind; [|done].
    apply keeps_guarded; [done|]. by apply keeps_wemo_call.
  - apply Hspeed.
  - unfold set_humidity. apply keeps_bind; [|done].
    apply keeps_guarded; [done|].
    destruct (pywemo_humidity t); [by apply keeps_wemo_call | done].
  - unfold reset_filter_life. apply keeps_bind; [|done].
    apply keeps_guarded; [done|]. by apply keeps_wemo_call.
Qed.

(** An update keeps the last fan mode seen on away from Off. *)
Lemma update_keeps_last_on (force_update : bool) (e : WemoHumidifier D) :
  _last_fan_on_mode e ≠ Off →
  _last_fan_on_mode (_update force_update e).2 ≠ Off.
Proof.
  set (P := λ e : WemoHumidifier D, _last_fan_on_mode e ≠ Off).
  assert (device_independent P) as Hdev by (by intros ? ?).
  revert e. change (∀ e, P e → P (_update force_update e).2).
  unfold _update, poll_device. apply keeps_try_except.
  - apply keeps_bind; [by apply keeps_wemo_call|]. intros st.
    apply keeps_bind; [done|]. intros _.
    repeat (apply keeps_bind; [by apply keeps_wemo_read|]; intros ?;
            apply keeps_bind; [done|]; intros _).
    intros e He. subst P. simpl in *. unfold wemo_read. unfold_monad.
    destruct (wemo_fan_mode (wemo e)) as [m|err] eqn:Hread; simpl; [|done].
    destruct (decide (m ≠ Off)) as [Hm|]; simpl.
    + rewrite Hread. simpl. by destruct (_available e).
    + by destruct (_available e).
  - intros err e He.
    destruct (is_AttributeError err || is_ActionException err); simpl; [|done].
    unfold mbind, M_bind, bind. simpl. by apply keeps_wemo_call.
Qed.

End EntityProperties.

Section EntityTheorems.
Context {D T : Type} `{!Humidifier D, !TargetHumidity T, !FanSpeeds}.

Lemma run_commands_keeps (P : WemoHumidifier D → Prop) (cs : list Command)
    (e : WemoHumidifier D) :
  (∀ c e, P e → P (run_command c e).2) → P e → P (run_commands cs e).
Proof.
  intros Hstep. revert e. induction cs as [|c cs IH]; intros e He; simpl; auto.
Qed.

(** X16: the last fan mode seen on is never Off.  It starts as Medium, only
    an update changes it, and only to a mode other than Off; so after any
    sequence of requests, turning the entity on without a speed asks the
    device for a mode other than Off. *)
Theorem last_fan_on_mode_never_off (cs : list Command) (device : D)
    (state : value) (available : bool) :
  _last_fan_on_mode (WemoHumidifier_init device state available) = Medium
  ∧ _last_fan_on_mode (run_commands cs (WemoHumidifier_init device state available))
    ≠ Off
  ∧ (∀ c e, (∀ force_update, c ≠ Update force_update) →
            _last_fan_on_mode (run_command c e).2 = _last_fan_on_mode e)
  ∧ (∃ m, m ≠ Off
          ∧ wemo (turn_on None
                    (run_commands cs
                       (WemoHumidifier_init device state available))).2
            = (wemo_set_state (Some m)
                 (wemo (run_commands cs
                          (WemoHumidifier_init device state available)))).2).
Proof.
  assert (∀ c e, _last_fan_on_mode e ≠ Off → _last_fan_on_mode (run_command c e).2 ≠ Off)
    as Hstep.
  { intros c e He.
    assert ((∃ f, c = Update f) ∨ ∀ f, c ≠ Update f) as [[f ->]|Hc].
    { destruct c; eauto. }
    - by apply update_keeps_last_on.
    - apply (request_keeps (λ e, _last_fan_on_mode e ≠ Off) c Hc); by try intros ?. }
  assert (_last_fan_on_mode
            (run_commands cs (WemoHumidifier_init device state available)) ≠ Off)
    as Hlast.
  { by apply (run_commands_keeps (λ e, _last_fan_on_mode e ≠ Off)). }
  split; [done|]. split; [done|]. split.
  - intros c e Hc.
    apply (request_keeps (λ x, _last_fan_on_mode x = _last_fan_on_mode e) c Hc);
      by try intros ?.
  - eexists. split; [exact Hlast|].
    set (e := run_commands cs _).
    unfold turn_on, guarded, schedule_update_ha_state, wemo_call. unfold_monad.
    destruct (wemo_set_state (Some (_last_fan_on_mode e)) (wemo e)) as [[[]|err] d];
      simpl; [done|].
    by destruct err as [| |cls msg]; [..|destruct (bool_decide _)].
Qed.

Lemma guarded_raises (call : M (WemoHumidifier D) unit) (e : WemoHumidifier D)
    (err : exn) :
  (guarded call e).1 = Raise err → is_ActionException err = false.
Proof.
  unfold guarded, try_except.
  destruct (call e) as [[[]|err'] e1]; simpl; [done|].
  destruct (is_ActionException err') eqn:Herr; simpl; [done|].
  by intros [= <-].
Qed.

Lemma then_schedule (m : M (WemoHumidifier D) unit) (e : WemoHumidifier D) :
  ((m;; schedule_update_ha_state) e).1 = (m e).1
  ∧ ((m e).1 = Ok tt →
     scheduled_updates ((m;; schedule_update_ha_state) e).2
     = S (scheduled_updates (m e).2)).
Proof.
  unfold schedule_update_ha_state. unfold_monad.
  by destruct (m e) as [[[]|err] e1].
Qed.

(** X17: a request never lets an [ActionException] of the device out, never
    makes the entity available, and schedules a state update whenever it
    returns.  For every request other than an update: an error it raises is
    no [ActionException]; if it returns, at least one more update is
    scheduled; an entity that was unavailable stays unavailable; and the
    state and the attributes shown are unchanged. *)
Theorem request_handles_action_exception (c : Command) (e : WemoHumidifier D) :
  (∀ force_update, c ≠ Update force_update) →
  (∀ err, (run_command c e).1 = Raise err → is_ActionException err = false)
  ∧ ((run_command c e).1 = Ok tt →
     (scheduled_updates e < scheduled_updates (run_command c e).2)%nat)
  ∧ (_available e = false → _available (run_command c e).2 = false)
  ∧ _state (run_command c e).2 = _state e
  ∧ device_state_attributes (run_command c e).2 = device_state_attributes e.
Proof.
  intros Hc. split; [|split; [|split; [|split]]].
  - assert (∀ speed e err, (set_speed speed e).1 = Raise err →
                           is_ActionException err = false) as Hspeed.
    { intros speed e0 err. unfold set_speed.
      destruct (then_schedule (guarded (wemo_call
                  (wemo_set_state (dict_get HASS_FAN_SPEED_TO_WEMO speed)))) e0)
        as [-> _].
      apply guarded_raises. }
    intros err. destruct c as [f|[speed|]| |speed|t|]; simpl.
    + by destruct (Hc f).
    + unfold turn_on. destruct (then_schedule (set_speed speed) e) as [-> _].
      apply Hspeed.
    + unfold turn_on.
      match goal with |- ((?m;; _) _).1 = _ → _ =>
        destruct (then_schedule m e) as [-> _] end.
      apply guarded_raises.
    + unfold turn_off.
      match goal with |- ((?m;; _) _).1 = _ → _ =>
        destruct (then_schedule m e) as [-> _] end.
      apply guarded_raises.
    + apply Hspeed.
    + unfold set_humidity.
      match goal with |- ((?m;; _) _).1 = _ → _ =>
        destruct (then_schedule m e) as [-> _] end.
      apply guarded_raises.
    + unfold reset_filter_life.
      match goal with |- ((?m;; _) _).1 = _ → _ =>
        destruct (then_schedule m e) as [-> _] end.
      apply guarded_raises.
  - pose proof (request_keeps
                  (λ x, (scheduled_updates e ≤ scheduled_updates x)%nat)) as Hmono.
    assert (∀ m : M (WemoHumidifier D) unit,
              (∀ x, (scheduled_updates e ≤ scheduled_updates x)%nat →
                    (scheduled_updates e ≤ scheduled_updates (m x).2)%nat) →
              ((m;; schedule_update_ha_state) e).1 = Ok tt →
              (scheduled_updates e
               < scheduled_updates ((m;; schedule_update_ha_state) e).2)%nat)
      as Hthen.
    { intros m Hm. destruct (then_schedule m e) as [-> Hs]. intros Hok.
      rewrite (Hs Hok). specialize (Hm e (le_n _)). lia. }
    assert (∀ (call : M (WemoHumidifier D) unit) x,
              (scheduled_updates (call x).2 = scheduled_updates x) →
              scheduled_updates (guarded call x).2 = scheduled_updates x)
      as Hguard.
    { intros call x Hcall. unfold guarded, try_except.
      destruct (call x) as [[[]|err] x1]; simpl in *; [done|].
      by destruct (is_ActionException err). }
    assert (∀ A (f : D → outcome lib_exn A * D) x,
              scheduled_updates (wemo_call f x).2 = scheduled_updates x) as Hcall.
    { intros A f x. unfold wemo_call. by destruct (f (wemo x)) as [[a|err] d]. }
    assert (∀ speed x, (scheduled_updates e ≤ scheduled_updates x)%nat →
              (scheduled_updates e ≤ scheduled_updates (set_speed speed x).2)%nat)
      as Hspeed.
    { intros speed x Hx. unfold set_speed.
      match goal with |- context [(?m;; _) x] =>
        destruct (then_schedule m x) as [_ Hs];
        pose proof (Hguard (wemo_call
          (wemo_set_state (dict_get HASS_FAN_SPEED_TO_WEMO speed))) x (Hcall _ _ x))
          as Hg end.
      unfold schedule_update_ha_state in *. unfold_monad.
      destruct (guarded _ x) as [[[]|err] x1]; simpl in *; lia. }
    destruct c as [f|[speed|]| |speed|t|]; simpl.
    + by destruct (Hc f).
    + unfold turn_on. apply Hthen. apply Hspeed.
    + unfold turn_on. apply Hthen. intros x Hx. rewrite Hguard; [done|].
      unfold mbind, M_bind, bind, get_state. simpl. apply Hcall.
    + unfold turn_off. apply Hthen. intros x Hx. by rewrite Hguard.
    + unfold set_speed. apply Hthen. intros x Hx. by rewrite Hguard.
    + unfold set_humidity. apply Hthen. intros x Hx. rewrite Hguard; [done|].
      by destruct (pywemo_humidity t).
    + unfold reset_filter_life. apply Hthen. intros x Hx. by rewrite Hguard.
  - apply (request_keeps (λ x, _available x = false) c Hc); by try intros ?.
  - apply (request_keeps (λ x, _state x = _state e) c Hc); by try intros ?.
  - apply (request_keeps
             (λ x, device_state_attributes x = device_state_attributes e) c Hc);
      by try intros ?.
Qed.

Lemma bind_ok_inv {S A B} (m : M S A) (k : A → M S B) (s s2 : S) (b : B) :
  (m ≫= k) s = (Ok b, s2) → ∃ a s1, m s = (Ok a, s1) ∧ k a s1 = (Ok b, s2).
Proof.
  unfold mbind, M_bind, bind. destruct (m s) as [[a|err] s1]; [eauto|done].
Qed.

Lemma wemo_call_ok_inv {A} (f : D → outcome lib_exn A * D) (e e1 : WemoHumidifier D)
    (a : A) :
  wemo_call f e = (Ok a, e1) → ∃ d, f (wemo e) = (Ok a, d) ∧ e1 = with_wemo e d.
Proof.
  unfold wemo_call. destruct (f (wemo e)) as [[a'|err] d]; [|done].
  intros [= -> <-]. eauto.
Qed.

Lemma wemo_read_ok_inv {A} (f : D → outcome lib_exn A) (e e1 : WemoHumidifier D)
    (a : A) :
  wemo_read f e = (Ok a, e1) → f (wemo e) = Ok a ∧ e1 = e.
Proof.
  unfold wemo_read. destruct (f (wemo e)) as [a'|err]; [|done].
  by intros [= -> <-].
Qed.

Ltac modify_inv H :=
  let Hmod := fresh "Hmod" in
  apply bind_ok_inv in H as ([] & ? & Hmod & H);
  unfold set_attribute, modify in Hmod; injection Hmod as <-.

Ltac read_inv H v Hv :=
  apply bind_ok_inv in H as (v & ? & Hv & H);
  apply wemo_read_ok_inv in Hv as (Hv & ->).

(** A poll that returns has read the state, the six attributes and the fan
    mode, and leaves the entity available. *)
Lemma poll_device_ok (force_update : bool) (e : WemoHumidifier D) :
  (poll_device force_update e).1 = Ok tt →
  ∃ st d v1 v2 v3 v4 v5 v6 m,
    wemo_get_state force_update (wemo e) = (Ok st, d)
    ∧ wemo_fan_mode_string d = Ok v1
    ∧ wemo_desired_humidity_percent d = Ok v2
    ∧ wemo_current_humidity_percent d = Ok v3
    ∧ wemo_water_level_string d = Ok v4
    ∧ wemo_filter_life_percent d = Ok v5
    ∧ wemo_filter_expired d = Ok v6
    ∧ wemo_fan_mode d = Ok m
    ∧ (poll_device force_update e).2
      = {| wemo := d; _state := st; _available := true;
           device_state_attributes :=
             <[ATTR_FILTER_EXPIRED := v6]>
               (<[ATTR_FILTER_LIFE := v5]>
                  (<[ATTR_WATER_LEVEL := v4]>
                     (<[ATTR_CURRENT_HUMIDITY := v3]>
                        (<[ATTR_TARGET_HUMIDITY := v2]>
                           (<[ATTR_FAN_MODE := v1]> (device_state_attributes e))))));
           _last_fan_on_mode := if decide (m ≠ Off) then m else _last_fan_on_mode e;
           scheduled_updates := scheduled_updates e |}.
Proof.
  intros Hok. destruct (poll_device force_update e) as [r e'] eqn:Hp.
  simpl in Hok. subst r. simpl. revert Hp. unfold poll_device.
  generalize ATTR_FAN_MODE ATTR_TARGET_HUMIDITY ATTR_CURRENT_HUMIDITY
    ATTR_WATER_LEVEL ATTR_FILTER_LIFE ATTR_FILTER_EXPIRED.
  intros k1 k2 k3 k4 k5 k6 Hp.
  apply bind_ok_inv in Hp as (st & ? & Hst & Hp).
  apply wemo_call_ok_inv in Hst as (d & Hst & ->).
  modify_inv Hp.
  read_inv Hp v1 H1. modify_inv Hp.
  read_inv Hp v2 H2. modify_inv Hp.
  read_inv Hp v3 H3. modify_inv Hp.
  read_inv Hp v4 H4. modify_inv Hp.
  read_inv Hp v5 H5. modify_inv Hp.
  read_inv Hp v6 H6. modify_inv Hp.
  read_inv Hp m Hm.
  apply bind_ok_inv in Hp as ([] & e1 & Hif & Hp).
  apply bind_ok_inv in Hp as (e2 & ? & Hget & Hp).
  unfold get_state in Hget. injection Hget as <- <-.
  exists st, d, v1, v2, v3, v4, v5, v6, m.
  repeat (split; [done|]).
  assert (_available e' = true ∧ with_available e1 true = with_available e' true)
    as [Hav He'].
  { destruct (_available e1) eqn:Hav; simpl in Hp.
    - unfold mret, M_ret, ret in Hp. by injection Hp as <-.
    - unfold modify in Hp. by injection Hp as <-. }
  assert (e' = with_available e' true) as -> by (by destruct e'; simpl in *; subst).
  rewrite <- He'. clear Hp Hav He'.
  destruct (decide (m ≠ Off)).
  - read_inv Hif m' Hm'. unfold modify in Hif. injection Hif as <-.
    cbn [wemo with_wemo with_state with_attributes] in Hm, Hm'.
    rewrite Hm in Hm'. by injection Hm' as <-.
  - unfold mret, M_ret, ret in Hif. by injection Hif as <-.
Qed.

(** X18: an update that returns leaves the entity available exactly when the
    device answered every read.  Then the state and the six attributes shown
    are the values just read from the device; otherwise the poll raised an
    [AttributeError] or an [ActionException], the entity is unavailable and
    the device was asked to reconnect. *)
Theorem update_availability (force_update : bool) (e : WemoHumidifier D) :
  (_update force_update e).1 = Ok tt →
  (_available (_update force_update e).2 = true
   ↔ (poll_device force_update e).1 = Ok tt)
  ∧ (_available (_update force_update e).2 = true →
     ∃ st d,
       wemo_get_state force_update (wemo e) = (Ok st, d)
       ∧ wemo (_update force_update e).2 = d
       ∧ _state (_update force_update e).2 = st
       ∧ {[ ATTR_FAN_MODE := wemo_fan_mode_string d;
            ATTR_TARGET_HUMIDITY := wemo_desired_humidity_percent d;
            ATTR_CURRENT_HUMIDITY := wemo_current_humidity_percent d;
            ATTR_WATER_LEVEL := wemo_water_level_string d;
            ATTR_FILTER_LIFE := wemo_filter_life_percent d;
            ATTR_FILTER_EXPIRED := wemo_filter_expired d ]}
         ⊆ Ok <$> device_state_attributes (_update force_update e).2)
  ∧ (_available (_update force_update e).2 = false →
     ∃ err,
       (poll_device force_update e).1 = Raise err
       ∧ is_AttributeError err || is_ActionException err = true
       ∧ wemo (_update force_update e).2
         = (wemo_reconnect_with_device (wemo (poll_device force_update e).2)).2).
Proof.
  intros Hok. pose proof (poll_device_ok force_update e) as Hpoll.
  revert Hok. unfold _update, try_except.
  destruct (poll_device force_update e) as [[[]|err] e1]; cbn [fst snd] in *.
  - intros _. destruct (Hpoll eq_refl)
      as (st & d & v1 & v2 & v3 & v4 & v5 & v6 & m & Hst & H1 & H2 & H3 & H4 & H5
          & H6 & Hm & ->).
    cbn [wemo _state _available device_state_attributes].
    split; [done|]. split; [|done]. intros _. exists st, d.
    repeat (split; [done|]).
    rewrite H1, H2, H3, H4, H5, H6.
    apply map_subseteq_spec. intros k r Hk.
    rewrite !lookup_insert_Some, lookup_singleton_Some in Hk.
    rewrite lookup_fmap.
    repeat (destruct Hk as [[<- <-]|[_ Hk]];
            [by repeat (rewrite lookup_insert_eq
                        || (rewrite lookup_insert_ne by done))|]).
    destruct Hk as [<- <-]. by rewrite lookup_insert_eq.
  - clear Hpoll.
    destruct (is_AttributeError err || is_ActionException err) eqn:Herr.
    + unfold wemo_call. unfold_monad. cbn [wemo with_available].
      destruct (wemo_reconnect_with_device (wemo e1)) as [[[]|err'] d'];
        cbn [fst snd]; [|done].
      intros _. split; [done|]. split; [done|]. intros _. by exists err.
    + unfold_monad. done.
Qed.

(** X19: with an ordered target, [set_humidity] asks the device for the
    greatest supported level that is not above the target, and for 45 percent
    when the target is below 50.  The order is given by three laws on the
    three comparisons the code makes. *)
Theorem set_humidity_level (t : T) (e : WemoHumidifier D) :
  (∀ n, lt_int t n = negb (int_le n t)) →
  (∀ n, ge_int t n = int_le n t) →
  (∀ n n', n' ≤ n → int_le n t = true → int_le n' t = true) →
  ∃ level,
    pywemo_humidity t = Some level
    ∧ (int_le 50 t = false → level = FortyFivePercent)
    ∧ (int_le 50 t = true →
       int_le (percent level) t = true
       ∧ ∀ level', percent level < percent level' →
                   int_le (percent level') t = false)
    ∧ wemo (set_humidity t e).2 = (wemo_set_humidity level (wemo e)).2.
Proof.
  intros Hlt Hge Hmono.
  assert (∃ level, pywemo_humidity t = Some level
            ∧ (int_le 50 t = false → level = FortyFivePercent)
            ∧ (int_le 50 t = true →
               int_le (percent level) t = true
               ∧ ∀ level', percent level < percent level' →
                           int_le (percent level') t = false))
    as (level & Hlevel & Hlow & Hhigh).
  { unfold pywemo_humidity. rewrite !Hlt, Hge.
    pose proof (Hmono 55 50 ltac:(lia)) as H55.
    pose proof (Hmono 60 55 ltac:(lia)) as H60.
    pose proof (Hmono 100 60 ltac:(lia)) as H100.
    destruct (int_le 50 t) eqn:E50; simpl.
    2:{ eexists. split; [done|]. by split. }
    destruct (int_le 55 t) eqn:E55; simpl.
    2:{ eexists. split; [done|]. split; [done|]. intros _. split; [done|].
        intros [] ?; simpl in *; try lia; try done.
        - destruct (int_le 60 t); [by specialize (H60 eq_refl)|done].
        - destruct (int_le 100 t) eqn:E100; [|done].
          specialize (H100 eq_refl). rewrite H100 in H60.
          by specialize (H60 eq_refl). }
    destruct (int_le 60 t) eqn:E60; simpl.
    2:{ eexists. split; [done|]. split; [done|]. intros _. split; [done|].
        intros [] ?; simpl in *; try lia; try done.
        destruct (int_le 100 t) eqn:E100; [|done]. by specialize (H100 eq_refl). }
    destruct (int_le 100 t) eqn:E100; simpl.
    2:{ eexists. split; [done|]. split; [done|]. intros _. split; [done|].
        intros [] ?; simpl in *; try lia; done. }
    eexists. split; [done|]. split; [done|]. intros _. split; [done|].
    intros [] ?; simpl in *; lia. }
  exists level. repeat (split; [done|]).
  unfold set_humidity. rewrite Hlevel.
  unfold guarded, schedule_update_ha_state, wemo_call. unfold_monad.
  destruct (wemo_set_humidity level (wemo e)) as [[[]|err] d]; simpl; [done|].
  by destruct err as [| |cls msg]; [..|destruct (bool_decide _)].
Qed.

(** X20: a target that compares false with every number, as a float that is
    not a number does, takes no branch of the chain: [set_humidity] raises
    [UnboundLocalError] before the device is called, the handler for
    [ActionException] lets it through, and no state update is scheduled. *)
Theorem set_humidity_not_a_number (t : T) (e : WemoHumidifier D) :
  (∀ n, lt_int t n = false) →
  (∀ n, ge_int t n = false) →
  ∃ msg, set_humidity t e = (Raise (LibError (UnboundLocalError msg)), e).
Proof.
  intros Hlt Hge. unfold set_humidity, pywemo_humidity.
  rewrite !Hlt, Hge, !andb_false_r. eexists. reflexivity.
Qed.

End EntityTheorems.

(** The device does not answer: turning the entity off returns, and a state
    update is scheduled. *)
Lemma request_handles_action_exception_witness :
  (scheduled_updates (wemo_entity false)
   < scheduled_updates
       (run_command (Humidifier0 := mock_humidifier)
          (TargetHumidity0 := integer_humidity) (H := HASS_SPEEDS)
          TurnOff (wemo_entity false)).2)%nat.
Proof.
  destruct (request_handles_action_exception (Humidifier0 := mock_humidifier)
              (TargetHumidity0 := integer_humidity) (H := HASS_SPEEDS)
              TurnOff (wemo_entity false)) as (_ & Hscheduled & _).
  { intros force_update. discriminate. }
  apply Hscheduled. reflexivity.
Defined.

(** [test_fan_update_entity]: the device reports 1, the entity shows it. *)
Lemma update_availability_witness :
  _state (_update (Humidifier0 := mock_humidifier) true (wemo_entity true)).2
  = VInt 1.
Proof.
  destruct (update_availability (Humidifier0 := mock_humidifier) true
              (wemo_entity true)) as (_ & Hrefresh & _).
  { reflexivity. }
  destruct Hrefresh as (st & d & Hst & _ & Hstate & _).
  { reflexivity. }
  rewrite Hstate. by injection Hst as <- _.
Defined.

(** A target of 57 percent is set to 55 percent. *)
Lemma set_humidity_level_witness :
  ∃ level,
    pywemo_humidity (TargetHumidity0 := integer_humidity) 57 = Some level
    ∧ (int_le (TargetHumidity := integer_humidity) 50 57 = false →
       level = FortyFivePercent)
    ∧ (int_le (TargetHumidity := integer_humidity) 50 57 = true →
       int_le (TargetHumidity := integer_humidity) (percent level) 57 = true
       ∧ ∀ level', percent level < percent level' →
                   int_le (TargetHumidity := integer_humidity) (percent level') 57
                   = false)
    ∧ wemo (set_humidity (Humidifier0 := mock_humidifier)
              (TargetHumidity0 := integer_humidity) 57 (wemo_entity true)).2
      = (wemo_set_humidity (Humidifier := mock_humidifier) level
           (wemo (wemo_entity true))).2.
Proof.
  apply (set_humidity_level (Humidifier0 := mock_humidifier)
           (TargetHumidity0 := integer_humidity) 57 (wemo_entity true)).
  - intros n. simpl. repeat case_bool_decide; simpl; lia || done.
  - intros n. reflexivity.
  - intros n n' Hle. simpl. repeat case_bool_decide; lia || done.
Defined.

(** A target that is not a number. *)
Lemma set_humidity_not_a_number_witness :
  ∃ msg,
    set_humidity (Humidifier0 := mock_humidifier) (TargetHumidity0 := nan_humidity)
      NaN (wemo_entity true)
    = (Raise (LibError (UnboundLocalError msg)), wemo_entity true).
Proof.
  apply (set_humidity_not_a_number (Humidifier0 := mock_humidifier)
           (TargetHumidity0 := nan_humidity)).
  - intros n. reflexivity.
  - intros n. reflexivity.
Defined.
